(** * Split-value voting: the election orchestrator

    A shallow embedding of [sv_election.py] (class [Election]) and the
    verification of its specification.

    Python values are modelled by the type [pyval]; dictionaries are finite
    maps keyed by strings (every key the orchestrator uses is a string: race
    ids, position names, row names, field names, ballot ids).  Exceptions are
    values of type [exn]; a method of [Election] is a computation of type
    [M A]: it receives the election object, returns a result or an exception
    and the election object as the method has left it (a Python exception
    does not undo the mutations made before it). *)

From Stdlib Require Import ZArith String Ascii List Lia Bool.
From Stdlib Require Import Floats.SpecFloat.
From stdpp Require Import gmap strings list fin_maps pretty.

Local Open Scope string_scope.
Local Open Scope Z_scope.

(** ** Python values *)

#[warnings="-register-all"]
Inductive pyval : Type :=
  | PyNone
  | PyBool (b : bool)
  | PyInt (z : Z)
  | PyFloat (f : spec_float)
  | PyStr (s : string)
  | PyList (l : list pyval)
  | PyTuple (l : list pyval)
  | PyDict (d : gmap string pyval).

(** ** Exceptions

    The built-in exceptions the orchestrator can raise, and the error kinds
    that the specification lists for the core.

    [NotModelled] is no exception of Python.  It ends a run that leaves the
    values this embedding represents: a dict is a finite map with string
    keys, so that neither a key of another type nor the insertion order of
    the keys can be told.  Python goes on where the embedding stops with
    [NotModelled]; the theorems that speak of such input assume it away. *)

Inductive exn_kind : Type :=
  | AssertionError | KeyError | IndexError | TypeError | ValueError
  | AttributeError
  | ConfigInvalid | EncodingTooLarge | CommitmentMismatch
  | PermutationInvalid | TallyInconsistent | SBBClosed | RngFailure
  | NotModelled.

(** An exception: its kind and the message it carries, if any.  A failed
    [assert cond] raises [AssertionError] without a message. *)
Record exn : Type := Exn { exn_kind_of : exn_kind; exn_reason : option string }.

Inductive result (A : Type) : Type :=
  | Ok (a : A)
  | Err (x : exn).
Arguments Ok {A} a.
Arguments Err {A} x.

Definition rbind {A B} (r : result A) (k : A -> result B) : result B :=
  match r with
  | Ok a => k a
  | Err x => Err x
  end.

Notation "'let?' x ':=' c 'in' k" := (rbind c (fun x => k))
  (at level 10, x name, c at level 100, k at level 200).

Fixpoint result_mapM {A B} (f : A -> result B) (l : list A) : result (list B) :=
  match l with
  | [] => Ok []
  | a :: l' =>
      let? b := f a in
      let? bs := result_mapM f l' in
      Ok (b :: bs)
  end.

(** ** Operations on Python values *)

(** [isinstance(v, int)]: [bool] is a subclass of [int]. *)
Definition py_int (v : pyval) : option Z :=
  match v with
  | PyInt z => Some z
  | PyBool b => Some (Z.b2z b)
  | _ => None
  end.

(** [v > 0]: defined on numbers, a [TypeError] on everything else. *)
Definition py_gt_zero (v : pyval) : result bool :=
  match v with
  | PyInt z => Ok (0 <? z)
  | PyBool b => Ok b
  | PyFloat f => Ok (SFltb (S754_zero false) f)
  | _ => Err (Exn TypeError None)
  end.

(** [range(n)] *)
Definition py_range (n : pyval) : result (list nat) :=
  match py_int n with
  | Some z => Ok (seq 0 (Z.to_nat z))
  | None => Err (Exn TypeError None)
  end.

(** [s[:n]] on a string. *)
Definition str_slice_to (s : string) (n : pyval) : result string :=
  match n with
  | PyNone => Ok s
  | _ =>
      match py_int n with
      | Some z =>
          let len := Z.of_nat (String.length s) in
          let stop := if z <? 0 then Z.max 0 (len + z) else Z.min z len in
          Ok (substring 0 (Z.to_nat stop) s)
      | None => Err (Exn TypeError None)
      end
  end.

(** A subscript: a string key or an integer index. *)
Inductive subscript : Type :=
  | Key (s : string)
  | Index (z : Z).

(** The position that index [z] denotes in a sequence of length [n]
    (negative indices count from the end). *)
Definition py_index (n : nat) (z : Z) : option nat :=
  if (0 <=? z) && (z <? Z.of_nat n) then Some (Z.to_nat z)
  else if (- Z.of_nat n <=? z) && (z <? 0) then Some (Z.to_nat (Z.of_nat n + z))
  else None.

Definition seq_getitem (l : list pyval) (z : Z) : result pyval :=
  match py_index (List.length l) z with
  | Some i =>
      match l !! i with
      | Some x => Ok x
      | None => Err (Exn IndexError None)
      end
  | None => Err (Exn IndexError None)
  end.

(** [v[sub]] *)
Definition py_getitem (v : pyval) (sub : subscript) : result pyval :=
  match v, sub with
  | PyDict d, Key s =>
      match d !! s with
      | Some x => Ok x
      | None => Err (Exn KeyError (Some s))
      end
  | PyDict _, Index _ => Err (Exn KeyError None)
  | PyList l, Index z => seq_getitem l z
  | PyTuple l, Index z => seq_getitem l z
  | PyStr s, Index z =>
      seq_getitem ((fun c => PyStr (String c EmptyString)) <$> list_ascii_of_string s) z
  | _, _ => Err (Exn TypeError None)
  end.

(** [v[k] = x] with a string key: only a dict accepts it. *)
Definition py_setitem (v : pyval) (k : string) (x : pyval) : result pyval :=
  match v with
  | PyDict d => Ok (PyDict (<[k := x]> d))
  | _ => Err (Exn TypeError None)
  end.

(** [v[p1][p2]...[pn]] *)
Fixpoint py_get_path (v : pyval) (path : list subscript) : result pyval :=
  match path with
  | [] => Ok v
  | p :: ps =>
      let? c := py_getitem v p in
      py_get_path c ps
  end.

(** The container [v] after the object it holds at [sub] has become [c]:
    containers hold references, so a mutation of an inner dict is seen
    through every container on the path to it. *)
Definition py_child_updated (v : pyval) (sub : subscript) (c : pyval) : pyval :=
  match v, sub with
  | PyDict d, Key s => PyDict (<[s := c]> d)
  | PyList l, Index z =>
      match py_index (List.length l) z with
      | Some i => PyList (<[i := c]> l)
      | None => v
      end
  | PyTuple l, Index z =>
      match py_index (List.length l) z with
      | Some i => PyTuple (<[i := c]> l)
      | None => v
      end
  | _, _ => v
  end.

(** [v[p1]...[pn][k] = x] on tree-shaped data (no object is reachable by
    two paths). *)
Fixpoint py_assign_path (v : pyval) (path : list subscript) (k : string)
    (x : pyval) : result pyval :=
  match path with
  | [] => py_setitem v k x
  | p :: ps =>
      let? c := py_getitem v p in
      let? c' := py_assign_path c ps k x in
      Ok (py_child_updated v p c')
  end.

(** Iteration over a sequence.  A list and a tuple give their items, a
    string its characters, a dict its keys in the order of their insertion.
    That order is not part of a finite map: a dict with two keys or more is
    [NotModelled].  A value that is no sequence is a [TypeError]. *)
Definition py_iter (v : pyval) : result (list pyval) :=
  match v with
  | PyList l => Ok l
  | PyTuple l => Ok l
  | PyStr s => Ok ((fun c => PyStr (String c EmptyString)) <$> list_ascii_of_string s)
  | PyDict d =>
      match map_to_list d with
      | [] => Ok []
      | [(k, _)] => Ok [PyStr k]
      | _ => Err (Exn NotModelled (Some "order of the keys of a dict"))
      end
  | _ => Err (Exn TypeError None)
  end.

(** The unpacking [(race_id, choices) = item].  Python unpacks any iterable
    of two items and tests no type: an iterable of another length is a
    [ValueError], a value that is not iterable a [TypeError].  The race id
    becomes a key of the dicts of the election, which have string keys here
    (the docstrings type [race_id] as a string): a race id that is not a
    string is [NotModelled], and so is a dict of two keys, which unpacks to
    its keys in the order of their insertion. *)
Definition unpack_race_pair (item : pyval) : result (string * pyval) :=
  match item with
  | PyTuple [PyStr race_id; choices] => Ok (race_id, choices)
  | PyList [PyStr race_id; choices] => Ok (race_id, choices)
  | PyStr (String a (String b EmptyString)) =>
      Ok (String a EmptyString, PyStr (String b EmptyString))
  | PyTuple [_; _] => Err (Exn NotModelled (Some "race id that is not a string"))
  | PyList [_; _] => Err (Exn NotModelled (Some "race id that is not a string"))
  | PyTuple _ => Err (Exn ValueError None)
  | PyList _ => Err (Exn ValueError None)
  | PyStr _ => Err (Exn ValueError None)
  | PyDict d =>
      if Nat.eqb (size d) 2
      then Err (Exn NotModelled (Some "order of the keys of a dict"))
      else Err (Exn ValueError None)
  | PyNone | PyBool _ | PyInt _ | PyFloat _ => Err (Exn TypeError None)
  end.

(** ** The objects of the election *)

(** An entry of the bulletin board: [post(label, payload, time_stamp)]. *)
Record sbb_entry : Type := Entry {
  label : string;
  payload : option pyval;
  time_stamp : bool }.

(** Modelled from the spec: the class [sv_sbb.SBB], whose source is
    missing; section 4.7 describes it as an append-only, totally ordered
    log keyed by the election id, with [post] appending an entry and [close]
    ending the log, after which a post fails with [SBBClosed]. *)
Record SBB : Type := mkSBB {
  sbb_election_id : pyval;
  sbb_entries : list sbb_entry;
  sbb_closed : bool }.

(** What the orchestrator reads of a [sv_race.Race]. *)
Record Race : Type := mkRace {
  r_race_id : string;
  r_choices : pyval;
  r_race_modulus : pyval }.

(** What the orchestrator reads of a [sv_voter.Voter]. *)
Record Voter : Type := mkVoter {
  v_voter_id : string;
  v_px : string;
  v_receipts : gmap string pyval }.

(** What the orchestrator reads of a [sv_server.Server]: the row names and
    the server data [sdb[race_id][row][column][field][position]]. *)
Record Server : Type := mkServer {
  row_list : list string;
  sdb : pyval }.

(** The attributes of an [Election] object. *)
Record Election : Type := mkElection {
  election_parameters : gmap string pyval;
  json_indent : pyval;
  election_id : pyval;
  ballot_style : pyval;
  n_voters : pyval;
  p_list : list string;
  n_reps : pyval;
  k_list : string;
  n_fail : pyval;
  n_leak : pyval;
  ballot_id_len : pyval;
  sbb : option SBB;
  races : list Race;
  race_ids : list string;
  voters : list Voter;
  voter_ids : list string;
  cast_votes : pyval;
  server : Server;
  output_commitments : pyval }.

(** The object before [__init__] has assigned any attribute. *)
Definition new_Election : Election :=
  mkElection ∅ PyNone PyNone PyNone PyNone [] PyNone "" PyNone PyNone PyNone
    None [] [] [] [] PyNone (mkServer [] PyNone) PyNone.

(** Attribute assignment. *)
Definition set_election_parameters (x : gmap string pyval) (e : Election) : Election :=
  let 'mkElection _ a2 a3 a4 a5 a6 a7 a8 a9 a10 a11 a12 a13 a14 a15 a16 a17 a18 a19 := e in
  mkElection x a2 a3 a4 a5 a6 a7 a8 a9 a10 a11 a12 a13 a14 a15 a16 a17 a18 a19.
Definition set_json_indent (x : pyval) (e : Election) : Election :=
  let 'mkElection a1 _ a3 a4 a5 a6 a7 a8 a9 a10 a11 a12 a13 a14 a15 a16 a17 a18 a19 := e in
  mkElection a1 x a3 a4 a5 a6 a7 a8 a9 a10 a11 a12 a13 a14 a15 a16 a17 a18 a19.
Definition set_election_id (x : pyval) (e : Election) : Election :=
  let 'mkElection a1 a2 _ a4 a5 a6 a7 a8 a9 a10 a11 a12 a13 a14 a15 a16 a17 a18 a19 := e in
  mkElection a1 a2 x a4 a5 a6 a7 a8 a9 a10 a11 a12 a13 a14 a15 a16 a17 a18 a19.
Definition set_ballot_style (x : pyval) (e : Election) : Election :=
  let 'mkElection a1 a2 a3 _ a5 a6 a7 a8 a9 a10 a11 a12 a13 a14 a15 a16 a17 a18 a19 := e in
  mkElection a1 a2 a3 x a5 a6 a7 a8 a9 a10 a11 a12 a13 a14 a15 a16 a17 a18 a19.
Definition set_n_voters (x : pyval) (e : Election) : Election :=
  let 'mkElection a1 a2 a3 a4 _ a6 a7 a8 a9 a10 a11 a12 a13 a14 a15 a16 a17 a18 a19 := e in
  mkElection a1 a2 a3 a4 x a6 a7 a8 a9 a10 a11 a12 a13 a14 a15 a16 a17 a18 a19.
Definition set_p_list (x : list string) (e : Election) : Election :=
  let 'mkElection a1 a2 a3 a4 a5 _ a7 a8 a9 a10 a11 a12 a13 a14 a15 a16 a17 a18 a19 := e in
  mkElection a1 a2 a3 a4 a5 x a7 a8 a9 a10 a11 a12 a13 a14 a15 a16 a17 a18 a19.
Definition set_n_reps (x : pyval) (e : Election) : Election :=
  let 'mkElection a1 a2 a3 a4 a5 a6 _ a8 a9 a10 a11 a12 a13 a14 a15 a16 a17 a18 a19 := e in
  mkElection a1 a2 a3 a4 a5 a6 x a8 a9 a10 a11 a12 a13 a14 a15 a16 a17 a18 a19.
Definition set_k_list (x : string) (e : Election) : Election :=
  let 'mkElection a1 a2 a3 a4 a5 a6 a7 _ a9 a10 a11 a12 a13 a14 a15 a16 a17 a18 a19 := e in
  mkElection a1 a2 a3 a4 a5 a6 a7 x a9 a10 a11 a12 a13 a14 a15 a16 a17 a18 a19.
Definition set_n_fail (x : pyval) (e : Election) : Election :=
  let 'mkElection a1 a2 a3 a4 a5 a6 a7 a8 _ a10 a11 a12 a13 a14 a15 a16 a17 a18 a19 := e in
  mkElection a1 a2 a3 a4 a5 a6 a7 a8 x a10 a11 a12 a13 a14 a15 a16 a17 a18 a19.
Definition set_n_leak (x : pyval) (e : Election) : Election :=
  let 'mkElection a1 a2 a3 a4 a5 a6 a7 a8 a9 _ a11 a12 a13 a14 a15 a16 a17 a18 a19 := e in
  mkElection a1 a2 a3 a4 a5 a6 a7 a8 a9 x a11 a12 a13 a14 a15 a16 a17 a18 a19.
Definition set_ballot_id_len (x : pyval) (e : Election) : Election :=
  let 'mkElection a1 a2 a3 a4 a5 a6 a7 a8 a9 a10 _ a12 a13 a14 a15 a16 a17 a18 a19 := e in
  mkElection a1 a2 a3 a4 a5 a6 a7 a8 a9 a10 x a12 a13 a14 a15 a16 a17 a18 a19.
Definition set_sbb (x : option SBB) (e : Election) : Election :=
  let 'mkElection a1 a2 a3 a4 a5 a6 a7 a8 a9 a10 a11 _ a13 a14 a15 a16 a17 a18 a19 := e in
  mkElection a1 a2 a3 a4 a5 a6 a7 a8 a9 a10 a11 x a13 a14 a15 a16 a17 a18 a19.
Definition set_races (x : list Race) (e : Election) : Election :=
  let 'mkElection a1 a2 a3 a4 a5 a6 a7 a8 a9 a10 a11 a12 _ a14 a15 a16 a17 a18 a19 := e in
  mkElection a1 a2 a3 a4 a5 a6 a7 a8 a9 a10 a11 a12 x a14 a15 a16 a17 a18 a19.
Definition set_race_ids (x : list string) (e : Election) : Election :=
  let 'mkElection a1 a2 a3 a4 a5 a6 a7 a8 a9 a10 a11 a12 a13 _ a15 a16 a17 a18 a19 := e in
  mkElection a1 a2 a3 a4 a5 a6 a7 a8 a9 a10 a11 a12 a13 x a15 a16 a17 a18 a19.
Definition set_voters (x : list Voter) (e : Election) : Election :=
  let 'mkElection a1 a2 a3 a4 a5 a6 a7 a8 a9 a10 a11 a12 a13 a14 _ a16 a17 a18 a19 := e in
  mkElection a1 a2 a3 a4 a5 a6 a7 a8 a9 a10 a11 a12 a13 a14 x a16 a17 a18 a19.
Definition set_voter_ids (x : list string) (e : Election) : Election :=
  let 'mkElection a1 a2 a3 a4 a5 a6 a7 a8 a9 a10 a11 a12 a13 a14 a15 _ a17 a18 a19 := e in
  mkElection a1 a2 a3 a4 a5 a6 a7 a8 a9 a10 a11 a12 a13 a14 a15 x a17 a18 a19.
Definition set_cast_votes (x : pyval) (e : Election) : Election :=
  let 'mkElection a1 a2 a3 a4 a5 a6 a7 a8 a9 a10 a11 a12 a13 a14 a15 a16 _ a18 a19 := e in
  mkElection a1 a2 a3 a4 a5 a6 a7 a8 a9 a10 a11 a12 a13 a14 a15 a16 x a18 a19.
Definition set_server (x : Server) (e : Election) : Election :=
  let 'mkElection a1 a2 a3 a4 a5 a6 a7 a8 a9 a10 a11 a12 a13 a14 a15 a16 a17 _ a19 := e in
  mkElection a1 a2 a3 a4 a5 a6 a7 a8 a9 a10 a11 a12 a13 a14 a15 a16 a17 x a19.
Definition set_output_commitments (x : pyval) (e : Election) : Election :=
  let 'mkElection a1 a2 a3 a4 a5 a6 a7 a8 a9 a10 a11 a12 a13 a14 a15 a16 a17 a18 _ := e in
  mkElection a1 a2 a3 a4 a5 a6 a7 a8 a9 a10 a11 a12 a13 a14 a15 a16 a17 a18 x.

(** The election after its server's data has become [x]. *)
Definition set_sdb (x : pyval) (e : Election) : Election :=
  set_server (mkServer (row_list (server e)) x) e.

(** ** The monad of the methods *)

Definition M (A : Type) : Type := Election -> result A * Election.

Definition ret {A} (a : A) : M A := fun e => (Ok a, e).
Definition raise {A} (x : exn) : M A := fun e => (Err x, e).
Definition bind {A B} (c : M A) (k : A -> M B) : M B :=
  fun e =>
    match c e with
    | (Ok a, e') => k a e'
    | (Err x, e') => (Err x, e')
    end.
Definition gets {A} (f : Election -> A) : M A := fun e => (Ok (f e), e).
Definition modify (f : Election -> Election) : M unit := fun e => (Ok tt, f e).
Definition lift {A} (r : result A) : M A := fun e => (r, e).

Notation "'let*' x ':=' c 'in' k" := (bind c (fun x => k))
  (at level 10, x name, c at level 100, k at level 200).

(** [assert cond] *)
Definition assert_ (cond : bool) : M unit :=
  if cond then ret tt else raise (Exn AssertionError None).

(** [for a in l: acc = body(acc, a)], the local variables that the loop
    updates being carried in [acc]. *)
Fixpoint for_acc {A B} (l : list A) (acc : B) (body : B -> A -> M B) : M B :=
  match l with
  | [] => ret acc
  | a :: l' =>
      let* acc' := body acc a in
      for_acc l' acc' body
  end.

(** [for a in l: body(a)] *)
Fixpoint for_each {A} (l : list A) (body : A -> M unit) : M unit :=
  match l with
  | [] => ret tt
  | a :: l' =>
      let* _ := body a in
      for_each l' body
  end.

(** ** The bulletin board *)

(** Modelled from the spec: [sv_sbb.SBB(election_id)] starts an empty, open
    board for the election. *)
Definition SBB_new (election_id : pyval) : SBB := mkSBB election_id [] false.

(** Modelled from the spec: [self.sbb.post(label, payload, time_stamp)]
    appends the entry to the log; on a closed board it fails with
    [SBBClosed].  Before [__init__] has created the board, the attribute
    [sbb] does not exist. *)
Definition sbb_post (label : string) (payload : option pyval) (time_stamp : bool)
    : M unit :=
  fun e =>
    match sbb e with
    | None => (Err (Exn AttributeError (Some "sbb")), e)
    | Some b =>
        if sbb_closed b then (Err (Exn SBBClosed None), e)
        else
          (Ok tt,
           set_sbb (Some (mkSBB (sbb_election_id b)
                            (sbb_entries b ++ [Entry label payload time_stamp])
                            false)) e)
    end.

(** Modelled from the spec: [self.sbb.close()] ends the log; the entry that
    terminates it is the [election:done.] entry posted just before
    (section 6), and later posts fail. *)
Definition sbb_close : M unit :=
  fun e =>
    match sbb e with
    | None => (Err (Exn AttributeError (Some "sbb")), e)
    | Some b =>
        (Ok tt, set_sbb (Some (mkSBB (sbb_election_id b) (sbb_entries b) true)) e)
    end.

(** The labels on the board, in the order posted. *)
Definition sbb_labels (e : Election) : list string :=
  match sbb e with
  | None => []
  | Some b => label <$> sbb_entries b
  end.

(** The board exists and has not been closed. *)
Definition sbb_open (e : Election) : bool :=
  match sbb e with
  | None => false
  | Some b => negb (sbb_closed b)
  end.

(** ** The imported modules

    [sv], [sv_race], [sv_voter], [sv_server], [sv_tally] and [sv_prover] are
    modules whose source is missing: the orchestrator is verified for any
    implementation of them.  A function that receives the election object
    may read and mutate it; a voter is named by its index in
    [self.voters]. *)
Record Modules : Type := mkModules {
  sv_p_list : pyval -> list string;
  sv_race_Race : Election -> string -> pyval -> Race;
  sv_voter_Voter : Election -> string -> string -> Voter;
  sv_voter_cast_vote : nat -> Race -> M unit;
  sv_server_Server : pyval -> pyval -> M Server;
  sv_server_mix : M unit;
  sv_tally_compute_tally : M unit;
  sv_tally_post_tally : M unit;
  sv_tally_print_tally : M unit;
  sv_prover_make_proof : M unit }.

(** Modelled from the spec: [sv.set_json_indent(json_indent)] fixes the
    indent width of the serialiser, once, at setup (section 6); it belongs to
    the module [sv] and leaves the election object as it is. *)
Definition sv_set_json_indent (json_indent : pyval) : M unit := ret tt.

(** [d.get(key, default)] *)
Definition dict_get (d : gmap string pyval) (key : string) (default : pyval) : pyval :=
  match d !! key with
  | Some x => x
  | None => default
  end.

Definition about_text : list string :=
  ["Secure Bulletin Board for Split-Value Voting Method Demo.";
   "by Michael O. Rabin and Ronald L. Rivest";
   "For paper: see http://people.csail.mit.edu/rivest/pubs.html#RR14a";
   "For code: see https://github.com/ron-rivest/split-value-voting"].

Definition legend_text : list string :=
  ["Indices between 0 and n_voters-1 indicated by p0, p1, ...";
   "Rows of server array indicated by a, b, c, d, ...";
   "Copies (n_reps = 2m passes) indicated by A, B, C, D, ...";
   "'********' in ballot style indicates a write-in option";
   "           (number of stars is max write-in length)";
   "Values represented are represented modulo race_modulus.";
   "'x' (or 'y') equals u+v (mod race_modulus),";
   "             and is a (Shamir-)share of the vote.";
   "'cu' and 'cv' are commitments to u and v, respectively.";
   "'ru' and 'rv' are randomization values for cu and cv.";
   "'icl' stands for 'input comparison list',";
   "'opl' for 'output production list';";
   "      these are the 'cut-and-choose' results";
   "      dividing up the lists into two sub-lists.";
   "'time' is time in ISO 8601 format."].

(** [[race_id for (race_id, choices) in ballot_style]], with the pairs it
    unpacks. *)
Definition race_pairs (ballot_style : pyval) : result (list (string * pyval)) :=
  let? items := py_iter ballot_style in
  result_mapM unpack_race_pair items.

(** ** The methods of [Election] *)

Section Election.

Context (m : Modules).

(** [Election.setup_races] *)
Definition setup_races (ballot_style : pyval) : M unit :=
  (* check that race_id's are distinct *)
  let* pairs := lift (race_pairs ballot_style) in
  let race_ids := pairs.*1 in
  let* _ := assert_ (Nat.eqb (List.length race_ids) (List.length (remove_dups race_ids))) in
  let race_dict : gmap string pyval := ∅ in
  let* race_dict :=
    for_acc pairs race_dict (fun race_dict '(race_id, choices) =>
      let* race := gets (fun self => sv_race_Race m self race_id choices) in
      let* _ := modify (fun self => set_races (races self ++ [race]) self) in
      ret (<[race_id := PyDict {[ "choices" := r_choices race;
                                  "race_modulus" := r_race_modulus race ]}]> race_dict)) in
  sbb_post "setup:races"
    (Some (PyDict {[ "ballot_style_race_dict" := PyDict race_dict ]})) false.

(** [Election.setup_voters]; the argument [election] is [self] at its one
    call.  The block under [if False:] is dead code. *)
Definition setup_voters (n_voters : pyval) : M unit :=
  let* _ := assert_ (match py_int n_voters with
                     | Some n => 0 <? n
                     | None => false
                     end) in
  let* indices := lift (py_range n_voters) in
  let* _ :=
    for_each indices (fun i =>
      let vid := "voter:" +:+ pretty i in
      let* _ := modify (fun self => set_voter_ids (voter_ids self ++ [vid]) self) in
      let* p_list := gets p_list in
      let* px := lift (match p_list !! i with
                       | Some px => Ok px
                       | None => Err (Exn IndexError None)
                       end) in
      let* voter := gets (fun self => sv_voter_Voter m self vid px) in
      modify (fun self => set_voters (voters self ++ [voter]) self)) in
  let* ballot_id_len := gets ballot_id_len in
  sbb_post "setup:voters"
    (Some (PyDict {[ "n_voters" := n_voters; "ballot_id_len" := ballot_id_len ]})) false.

(** [Election.initialize_cast_votes] *)
Definition initialize_cast_votes : M unit :=
  let cvs := PyDict ∅ in
  let* race_ids := gets race_ids in
  let* cvs :=
    for_acc race_ids cvs (fun cvs race_id =>
      let* cvs := lift (py_assign_path cvs [] race_id (PyDict ∅)) in
      let* p_list := gets p_list in
      for_acc p_list cvs (fun cvs px =>
        lift (py_assign_path cvs [Key race_id] px (PyDict ∅)))) in
  modify (set_cast_votes cvs).

(** [Election.setup_keys]: nothing is done in the simulation. *)
Definition setup_keys : M unit := ret tt.

(** [sdbp[field][px] = vote[field]], where [sdbp] refers to the cell
    [self.server.sdb[race_id][i][0]]: the assignment mutates the server
    data in place. *)
Definition sdbp_assign (race_id i field px : string) (vote : pyval) : M unit :=
  let* x := lift (py_getitem vote (Key field)) in
  let* sdb_ := gets (fun self => sdb (server self)) in
  let* sdb' := lift (py_assign_path sdb_ [Key race_id; Key i; Index 0; Key field] px x) in
  modify (set_sdb sdb').

(** [Election.distribute_cast_votes] *)
Definition distribute_cast_votes : M unit :=
  let* race_ids := gets race_ids in
  for_each race_ids (fun race_id =>
    let* p_list := gets p_list in
    for_each p_list (fun px =>
      let* row_list := gets (fun self => row_list (server self)) in
      for_each row_list (fun i =>
        let* cvs := gets cast_votes in
        let* vote := lift (py_get_path cvs [Key race_id; Key px; Key i]) in
        let* sdb_ := gets (fun self => sdb (server self)) in
        let* sdbp := lift (py_get_path sdb_ [Key race_id; Key i; Index 0]) in
        let* _ := sdbp_assign race_id i "ballot_id" px vote in
        let* _ := sdbp_assign race_id i "x" px vote in
        let* _ := sdbp_assign race_id i "u" px vote in
        let* _ := sdbp_assign race_id i "v" px vote in
        let* _ := sdbp_assign race_id i "ru" px vote in
        let* _ := sdbp_assign race_id i "rv" px vote in
        let* _ := sdbp_assign race_id i "cu" px vote in
        sdbp_assign race_id i "cv" px vote))).

(** [cvcs[race_id][px][i][field] = cvs[race_id][px][i][field]] *)
Definition copy_commitment (cvs cvcs : pyval) (race_id px i field : string) : M pyval :=
  let* x := lift (py_get_path cvs [Key race_id; Key px; Key i; Key field]) in
  lift (py_assign_path cvcs [Key race_id; Key px; Key i] field x).

(** [Election.post_cast_vote_commitments] *)
Definition post_cast_vote_commitments : M unit :=
  let* cvs := gets cast_votes in
  let cvcs := PyDict ∅ in
  let* race_ids := gets race_ids in
  let* cvcs :=
    for_acc race_ids cvcs (fun cvcs race_id =>
      let* cvcs := lift (py_assign_path cvcs [] race_id (PyDict ∅)) in
      let* p_list := gets p_list in
      for_acc p_list cvcs (fun cvcs px =>
        let* cvcs := lift (py_assign_path cvcs [Key race_id] px (PyDict ∅)) in
        let* row_list := gets (fun self => row_list (server self)) in
        for_acc row_list cvcs (fun cvcs i =>
          let* cvcs := lift (py_assign_path cvcs [Key race_id; Key px] i (PyDict ∅)) in
          let* cvcs := copy_commitment cvs cvcs race_id px i "ballot_id" in
          let* cvcs := copy_commitment cvs cvcs race_id px i "cu" in
          copy_commitment cvs cvcs race_id px i "cv"))) in
  sbb_post "casting:votes" (Some (PyDict {[ "cast_vote_dict" := cvcs ]})) false.

(** [Election.post_voter_receipts].  A dict iterates over its keys; the
    keys of one dict are distinct, so the dict built does not depend on the
    order in which they come. *)
Definition post_voter_receipts : M unit :=
  let receipts : gmap string pyval := ∅ in
  let* voters := gets voters in
  let* receipts :=
    for_acc voters receipts (fun receipts voter =>
      for_acc (map_to_list (v_receipts voter)).*1 receipts (fun receipts ballot_id =>
        let* r := lift (py_getitem (PyDict (v_receipts voter)) (Key ballot_id)) in
        ret (<[ballot_id := r]> receipts))) in
  sbb_post "casting:receipts" (Some (PyDict {[ "receipt_dict" := PyDict receipts ]})) false.

(** The first part of [Election.__init__] (up to the comment
    [# start secure bulletin board]): the parameters are read, checked and
    saved.  It returns the local variables that the rest of [__init__]
    uses. *)
Definition check_and_save_parameters (election_parameters : gmap string pyval)
    : M (pyval * pyval * pyval * pyval * pyval) :=
  let* _ := modify (set_election_parameters election_parameters) in
  (* mandatory parameters *)
  let* election_id := lift (py_getitem (PyDict election_parameters) (Key "election_id")) in
  let* ballot_style := lift (py_getitem (PyDict election_parameters) (Key "ballot_style")) in
  let* n_voters := lift (py_getitem (PyDict election_parameters) (Key "n_voters")) in
  let* n_reps := lift (py_getitem (PyDict election_parameters) (Key "n_reps")) in
  let* n_fail := lift (py_getitem (PyDict election_parameters) (Key "n_fail")) in
  let* n_leak := lift (py_getitem (PyDict election_parameters) (Key "n_leak")) in
  (* optional parameters (with defaults) *)
  let ballot_id_len := dict_get election_parameters "ballot_id_len" (PyInt 32) in
  let json_indent := dict_get election_parameters "json_indent" (PyInt 0) in
  let* _ := modify (set_json_indent json_indent) in
  let* _ := sv_set_json_indent json_indent in
  (* check and save parameters *)
  let* _ := assert_ (match election_id with
                     | PyStr s => 0 <? Z.of_nat (String.length s)
                     | _ => false
                     end) in
  let* _ := modify (set_election_id election_id) in
  let* _ := assert_ (match ballot_style with
                     | PyList l => 0 <? Z.of_nat (List.length l)
                     | _ => false
                     end) in
  let* _ := modify (set_ballot_style ballot_style) in
  let* _ := assert_ (match py_int n_voters with
                     | Some n => 0 <? n
                     | None => false
                     end) in
  let* _ := modify (set_n_voters n_voters) in
  let* _ := modify (set_p_list (sv_p_list m n_voters)) in
  let* _ := assert_ (match py_int n_reps with
                     | Some n => (0 <? n) && (n <=? 26) && (n mod 2 =? 0)
                     | None => false
                     end) in
  let* _ := modify (set_n_reps n_reps) in
  (* Each copy will be identified by an upper-case ascii letter *)
  let* k_list := lift (str_slice_to "ABCDEFGHIJKLMNOPQRSTUVWXYZ" n_reps) in
  let* _ := modify (set_k_list k_list) in
  let* _ := assert_ (match py_int n_fail with
                     | Some n => 0 <=? n
                     | None => false
                     end) in
  let* _ := assert_ (match py_int n_leak with
                     | Some n => 0 <=? n
                     | None => false
                     end) in
  let* _ := modify (set_n_fail n_fail) in
  let* _ := modify (set_n_leak n_leak) in
  let* positive := lift (py_gt_zero ballot_id_len) in
  let* _ := assert_ positive in
  let* _ := modify (set_ballot_id_len ballot_id_len) in
  ret (election_id, ballot_style, n_voters, n_fail, n_leak).

(** The rest of [Election.__init__]: the bulletin board is started and the
    races, the voters and the server are set up. *)
Definition start_election (locals : pyval * pyval * pyval * pyval * pyval) : M unit :=
  let '(election_id, ballot_style, n_voters, n_fail, n_leak) := locals in
  (* start secure bulletin board *)
  let* _ := modify (set_sbb (Some (SBB_new election_id))) in
  let* _ := sbb_post "setup:start"
              (Some (PyDict {[ "about" := PyList (PyStr <$> about_text);
                               "election_id" := election_id;
                               "legend" := PyList (PyStr <$> legend_text) ]})) true in
  let* _ := modify (set_races []) in
  let* pairs := lift (race_pairs ballot_style) in
  let* _ := modify (set_race_ids pairs.*1) in
  let* _ := setup_races ballot_style in
  let* _ := modify (set_voters []) in
  let* _ := modify (set_voter_ids []) in
  let* _ := setup_voters n_voters in
  let* _ := modify (set_cast_votes (PyDict ∅)) in
  let* server := sv_server_Server m n_fail n_leak in
  let* _ := modify (set_server server) in
  let* _ := modify (set_output_commitments (PyDict ∅)) in
  let* _ := setup_keys in
  sbb_post "setup:finished" None true.

(** [Election.__init__] *)
Definition Election_init (election_parameters : gmap string pyval) : M unit :=
  let* locals := check_and_save_parameters election_parameters in
  start_election locals.

(** [Election.run_election] *)
Definition run_election : M unit :=
  let* _ := initialize_cast_votes in
  (* Vote ! *)
  let* voters := gets voters in
  let* _ :=
    for_each (seq 0 (List.length voters)) (fun voter =>
      let* races := gets races in
      for_each races (fun race => sv_voter_cast_vote m voter race)) in
  (* send votes to mix-net *)
  let* _ := distribute_cast_votes in
  (* post vote commitments on SBB *)
  let* _ := post_cast_vote_commitments in
  (* post voter receipts on SBB *)
  let* _ := post_voter_receipts in
  (* Mix ! *)
  let* _ := sv_server_mix m in
  (* Tally! *)
  let* _ := sv_tally_compute_tally m in
  let* _ := sv_tally_post_tally m in
  let* _ := sv_tally_print_tally m in
  (* Prove! *)
  let* _ := sv_prover_make_proof m in
  (* Stop election and close sbb *)
  let* election_id := gets election_id in
  let* _ := sbb_post "election:done." (Some (PyDict {[ "election_id" := election_id ]})) true in
  sbb_close.

End Election.

(** ** The state machine of a run *)

Section Steps.

Context (m : Modules).

(** The loop [for voter in self.voters: for race in self.races:
    voter.cast_vote(race)] of [run_election]. *)
Definition cast_all_votes : M unit :=
  let* voters := gets voters in
  for_each (seq 0 (List.length voters)) (fun voter =>
    let* races := gets races in
    for_each races (fun race => sv_voter_cast_vote m voter race)).

(** The last posting of [run_election]. *)
Definition post_election_done : M unit :=
  let* election_id := gets election_id in
  sbb_post "election:done." (Some (PyDict {[ "election_id" := election_id ]})) true.

(** The statements of [run_election], in the order of the source. *)
Definition run_election_steps : list (M unit) :=
  [ initialize_cast_votes;
    cast_all_votes;
    distribute_cast_votes;
    post_cast_vote_commitments;
    post_voter_receipts;
    sv_server_mix m;
    sv_tally_compute_tally m;
    sv_tally_post_tally m;
    sv_tally_print_tally m;
    sv_prover_make_proof m;
    post_election_done;
    sbb_close ].

End Steps.

(** Statements run one after the other; the first exception ends the run. *)
Fixpoint run_steps (steps : list (M unit)) : M unit :=
  match steps with
  | [] => ret tt
  | c :: rest =>
      let* _ := c in
      run_steps rest
  end.

(** ** Properties of the configuration (section 6 of the specification) *)

(** [v] is an [int] for Python ([isinstance(v, int)]) of value [z]: an
    integer, or a bool, which counts as 0 or 1. *)
Definition is_int (v : pyval) (z : Z) : Prop := py_int v = Some z.

Definition is_nonempty_string (v : pyval) : Prop :=
  exists s, v = PyStr s /\ s <> "".

Definition is_nonempty_list (v : pyval) : Prop :=
  exists l, v = PyList l /\ l <> [].

Definition is_positive_int (v : pyval) : Prop :=
  exists z, is_int v z /\ 0 < z.

Definition is_nonnegative_int (v : pyval) : Prop :=
  exists z, is_int v z /\ 0 <= z.

Definition is_negative_int (v : pyval) : Prop :=
  exists z, is_int v z /\ z < 0.

(** positive, even and at most 26 *)
Definition is_valid_n_reps (v : pyval) : Prop :=
  exists z, is_int v z /\ 0 < z <= 26 /\ z mod 2 = 0.

(** The six mandatory parameters are present. *)
Definition mandatory_parameters (params : gmap string pyval)
    (election_id ballot_style n_voters n_reps n_fail n_leak : pyval) : Prop :=
  params !! "election_id" = Some election_id /\
  params !! "ballot_style" = Some ballot_style /\
  params !! "n_voters" = Some n_voters /\
  params !! "n_reps" = Some n_reps /\
  params !! "n_fail" = Some n_fail /\
  params !! "n_leak" = Some n_leak.

(** One of the parameters breaks its constraint. *)
Definition config_invalid (params : gmap string pyval) : Prop :=
  exists election_id ballot_style n_voters n_reps n_fail n_leak,
    mandatory_parameters params election_id ballot_style n_voters n_reps n_fail n_leak /\
    (~ is_nonempty_string election_id \/
     ~ is_nonempty_list ballot_style \/
     ~ is_positive_int n_voters \/
     ~ is_valid_n_reps n_reps \/
     is_negative_int n_fail \/
     is_negative_int n_leak \/
     py_gt_zero (dict_get params "ballot_id_len" (PyInt 32)) = Ok false).

(** The parameters that the checks of [__init__] look at are all as
    section 6 asks. *)
Definition checked_parameters_valid (params : gmap string pyval) : Prop :=
  exists election_id ballot_style n_voters n_reps n_fail n_leak,
    mandatory_parameters params election_id ballot_style n_voters n_reps n_fail n_leak /\
    is_nonempty_string election_id /\
    is_nonempty_list ballot_style /\
    is_positive_int n_voters /\
    is_valid_n_reps n_reps /\
    is_nonnegative_int n_fail /\
    is_nonnegative_int n_leak /\
    is_positive_int (dict_get params "ballot_id_len" (PyInt 32)).

(** A valid configuration: moreover the ballot style is a list of
    [(race_id, choices)] pairs with unique race ids. *)
Definition config_valid (params : gmap string pyval) : Prop :=
  checked_parameters_valid params /\
  exists ballot_style pairs,
    params !! "ballot_style" = Some ballot_style /\
    race_pairs ballot_style = Ok pairs /\
    NoDup pairs.*1.

(** The first [n] letters of the upper-case alphabet. *)
Definition first_letters (n : nat) : string :=
  string_of_list_ascii ((fun i => ascii_of_nat (65 + i)) <$> seq 0 n).

(** ** A small implementation of the imported modules

    It is used to run the orchestrator on concrete elections. *)

Module Demo.

Definition ballot_id_of (vid race_id : string) : string :=
  "b:" +:+ vid +:+ ":" +:+ race_id.

Definition vote_of (vid race_id : string) : pyval :=
  PyDict {[ "ballot_id" := PyStr (ballot_id_of vid race_id);
            "x" := PyInt 1; "u" := PyInt 3; "v" := PyInt 5;
            "ru" := PyStr "ru"; "rv" := PyStr "rv";
            "cu" := PyStr "cu"; "cv" := PyStr "cv" ]}.

Definition empty_cell : pyval :=
  PyDict {[ "ballot_id" := PyDict ∅; "x" := PyDict ∅; "u" := PyDict ∅;
            "v" := PyDict ∅; "ru" := PyDict ∅; "rv" := PyDict ∅;
            "cu" := PyDict ∅; "cv" := PyDict ∅ ]}.

Definition p_list_of (n : pyval) : list string :=
  match py_int n with
  | Some z => (fun i => "p" +:+ pretty i) <$> seq 0 (Z.to_nat z)
  | None => []
  end.

Definition cast_vote (vi : nat) (race : Race) : M unit :=
  let* all := gets voters in
  match all !! vi with
  | None => raise (Exn IndexError None)
  | Some voter =>
      let rid := r_race_id race in
      let* rows := gets (fun self => row_list (server self)) in
      let* _ :=
        for_each rows (fun i =>
          let* cvs := gets cast_votes in
          let* cvs' := lift (py_assign_path cvs [Key rid; Key (v_px voter)] i
                               (vote_of (v_voter_id voter) rid)) in
          modify (set_cast_votes cvs')) in
      let receipt := PyDict {[ "cu" := PyStr "cu"; "cv" := PyStr "cv" ]} in
      let voter' :=
        mkVoter (v_voter_id voter) (v_px voter)
          (<[ballot_id_of (v_voter_id voter) rid := receipt]> (v_receipts voter)) in
      modify (set_voters (<[vi := voter']> all))
  end.

Definition new_Server (n_fail n_leak : pyval) : M Server :=
  let* rids := gets race_ids in
  let columns := PyList [empty_cell; empty_cell] in
  let rows := PyDict {[ "a" := columns; "b" := columns ]} in
  ret (mkServer ["a"; "b"] (PyDict (list_to_map ((fun r => (r, rows)) <$> rids)))).

Definition modules : Modules :=
  mkModules
    p_list_of
    (fun _ race_id choices => mkRace race_id choices (PyInt 257))
    (fun _ vid px => mkVoter vid px ∅)
    cast_vote
    new_Server
    (let* _ := sbb_post "mix:columns" None true in sbb_post "mix:passes" None true)
    (ret tt)
    (sbb_post "tally" None true)
    (ret tt)
    (let* _ := sbb_post "proof:icl" None true in sbb_post "proof:opl" None true).

(** Scenario S1 of the specification. *)
Definition S1_parameters : gmap string pyval :=
  {[ "election_id" := PyStr "E1";
     "ballot_style" := PyList [PyTuple [PyStr "P"; PyTuple [PyStr "A"; PyStr "B"]]];
     "n_voters" := PyInt 2;
     "n_reps" := PyInt 2;
     "n_fail" := PyInt 0;
     "n_leak" := PyInt 0 ]}.

(** The election of scenario S1 after [__init__]. *)
Definition S1_election : Election :=
  snd (Election_init modules S1_parameters new_Election).

End Demo.

(** ** Paths *)

(** Two subscripts that name different slots of any container. *)
Definition sub_apart (p q : subscript) : Prop :=
  match p, q with
  | Key a, Key b => a <> b
  | Index a, Index b => 0 <= a /\ 0 <= b /\ a <> b
  | _, _ => True
  end.

(** Two paths that part at some subscript. *)
Fixpoint paths_apart (p q : list subscript) : Prop :=
  match p, q with
  | p1 :: ps, q1 :: qs => sub_apart p1 q1 \/ (p1 = q1 /\ paths_apart ps qs)
  | _, _ => False
  end.

Definition is_container (v : pyval) : Prop :=
  match v with
  | PyDict _ | PyList _ | PyTuple _ => True
  | _ => False
  end.

(** ** The cast-vote records *)

(** The fields of a cast-vote record. *)
Definition vote_fields : list string :=
  ["ballot_id"; "x"; "u"; "v"; "ru"; "rv"; "cu"; "cv"].

(** The value [sdb[race_id][i][0][field][px]] of the server data of [e]. *)
Definition column_0 (e : Election) (race_id i field px : string) : result pyval :=
  py_get_path (sdb (server e)) [Key race_id; Key i; Index 0; Key field; Key px].

(** The value [cast_votes[race_id][px][i][field]] of [e]. *)
Definition cast_vote_field (e : Election) (race_id px i field : string) : result pyval :=
  py_get_path (cast_votes e) [Key race_id; Key px; Key i; Key field].

(** The field [field] of the cast vote [(race_id, px, i)] is in column 0. *)
Definition distributed (e : Election) (race_id px i field : string) : Prop :=
  exists x, cast_vote_field e race_id px i field = Ok x /\
            column_0 e race_id i field px = Ok x.

(** [(race_id, px, i, field)] names a field of a cast vote of [e]. *)
Definition cast_vote_slot (e : Election) (race_id px i field : string) : Prop :=
  race_id ∈ race_ids e /\ px ∈ p_list e /\ i ∈ row_list (server e) /\
  field ∈ vote_fields.

(** From [e] to [e'] only the server data has changed, and of it only
    slots of column 0 that belong to cast votes; what had been distributed
    still is. *)
Definition distribution_step (e e' : Election) : Prop :=
  (exists s, e' = set_sdb s e) /\
  (forall race_id i (j : nat), j <> 0%nat ->
     py_get_path (sdb (server e')) [Key race_id; Key i; Index (Z.of_nat j)]
       = py_get_path (sdb (server e)) [Key race_id; Key i; Index (Z.of_nat j)]) /\
  (forall race_id px i field, ~ cast_vote_slot e race_id px i field ->
     column_0 e' race_id i field px = column_0 e race_id i field px) /\
  (forall race_id px i field,
     distributed e race_id px i field -> distributed e' race_id px i field).

(** The body of the innermost loop of [distribute_cast_votes], and the
    bodies of the loops around it. *)
Definition distribute_row (race_id px i : string) : M unit :=
  let* cvs := gets cast_votes in
  let* vote := lift (py_get_path cvs [Key race_id; Key px; Key i]) in
  let* sdb_ := gets (fun self => sdb (server self)) in
  let* sdbp := lift (py_get_path sdb_ [Key race_id; Key i; Index 0]) in
  let* _ := sdbp_assign race_id i "ballot_id" px vote in
  let* _ := sdbp_assign race_id i "x" px vote in
  let* _ := sdbp_assign race_id i "u" px vote in
  let* _ := sdbp_assign race_id i "v" px vote in
  let* _ := sdbp_assign race_id i "ru" px vote in
  let* _ := sdbp_assign race_id i "rv" px vote in
  let* _ := sdbp_assign race_id i "cu" px vote in
  sdbp_assign race_id i "cv" px vote.

Definition distribute_position (race_id px : string) : M unit :=
  let* row_list := gets (fun self => row_list (server self)) in
  for_each row_list (distribute_row race_id px).

Definition distribute_race (race_id : string) : M unit :=
  let* p_list := gets p_list in
  for_each p_list (distribute_position race_id).

(** ** The posted commitments *)

(** What is posted of the cast vote [(race_id, px, i)]: its fields
    [ballot_id], [cu] and [cv]. *)
Definition commitment_record (cvs : pyval) (race_id px i : string) : result pyval :=
  let? ballot_id := py_get_path cvs [Key race_id; Key px; Key i; Key "ballot_id"] in
  let? cu := py_get_path cvs [Key race_id; Key px; Key i; Key "cu"] in
  let? cv := py_get_path cvs [Key race_id; Key px; Key i; Key "cv"] in
  Ok (PyDict (<["cv" := cv]> (<["cu" := cu]> (<["ballot_id" := ballot_id]> ∅)))).

(** The dict of the commitment records of the rows [rows], added to [d]. *)
Fixpoint rows_commitments (cvs : pyval) (race_id px : string) (rows : list string)
    (d : gmap string pyval) : result (gmap string pyval) :=
  match rows with
  | [] => Ok d
  | i :: rest =>
      let? record := commitment_record cvs race_id px i in
      rows_commitments cvs race_id px rest (<[i := record]> d)
  end.

Fixpoint positions_commitments (cvs : pyval) (rows : list string) (race_id : string)
    (positions : list string) (d : gmap string pyval) : result (gmap string pyval) :=
  match positions with
  | [] => Ok d
  | px :: rest =>
      let? of_rows := rows_commitments cvs race_id px rows ∅ in
      positions_commitments cvs rows race_id rest (<[px := PyDict of_rows]> d)
  end.

Fixpoint races_commitments (cvs : pyval) (positions rows : list string)
    (races : list string) (d : gmap string pyval) : result (gmap string pyval) :=
  match races with
  | [] => Ok d
  | race_id :: rest =>
      let? of_positions := positions_commitments cvs rows race_id positions ∅ in
      races_commitments cvs positions rows rest (<[race_id := PyDict of_positions]> d)
  end.

(** The commitments of all the cast votes of [e]: for every race id,
    position and row, the commitment record of the cast vote. *)
Definition cast_vote_commitments (e : Election) : result pyval :=
  let? d := races_commitments (cast_votes e) (p_list e) (row_list (server e))
              (race_ids e) ∅ in
  Ok (PyDict d).

(** The bodies of the loops of [post_cast_vote_commitments]. *)
Definition commit_row (cvs : pyval) (race_id px : string) (cvcs : pyval) (i : string)
    : M pyval :=
  let* cvcs := lift (py_assign_path cvcs [Key race_id; Key px] i (PyDict ∅)) in
  let* cvcs := copy_commitment cvs cvcs race_id px i "ballot_id" in
  let* cvcs := copy_commitment cvs cvcs race_id px i "cu" in
  copy_commitment cvs cvcs race_id px i "cv".

Definition commit_position (cvs : pyval) (race_id : string) (cvcs : pyval) (px : string)
    : M pyval :=
  let* cvcs := lift (py_assign_path cvcs [Key race_id] px (PyDict ∅)) in
  let* row_list := gets (fun self => row_list (server self)) in
  for_acc row_list cvcs (commit_row cvs race_id px).

Definition commit_race (cvs : pyval) (cvcs : pyval) (race_id : string) : M pyval :=
  let* cvcs := lift (py_assign_path cvcs [] race_id (PyDict ∅)) in
  let* p_list := gets p_list in
  for_acc p_list cvcs (commit_position cvs race_id).

(** Two elections show the same commitments: the same races, positions and
    rows, and cast votes that agree on the fields [ballot_id], [cu] and
    [cv]. *)
Definition same_commitments (e1 e2 : Election) : Prop :=
  race_ids e1 = race_ids e2 /\ p_list e1 = p_list e2 /\
  row_list (server e1) = row_list (server e2) /\
  forall race_id px i field,
    race_id ∈ race_ids e1 -> px ∈ p_list e1 -> i ∈ row_list (server e1) ->
    field ∈ ["ballot_id"; "cu"; "cv"] ->
    py_get_path (cast_votes e1) [Key race_id; Key px; Key i; Key field]
      = py_get_path (cast_votes e2) [Key race_id; Key px; Key i; Key field].

(** The secret fields of a cast-vote record. *)
Definition secret_fields : list string := ["x"; "u"; "v"; "ru"; "rv"].

(** From [e] to [e'] the entry [entry] has been posted, and nothing else
    has changed. *)
Definition posted (e e' : Election) (entry : sbb_entry) : Prop :=
  exists b,
    sbb e = Some b /\ sbb_closed b = false /\
    e' = set_sbb (Some (mkSBB (sbb_election_id b) (sbb_entries b ++ [entry]) false)) e.

(** ** The posted receipts *)

(** The body of the outer loop of [post_voter_receipts]. *)
Definition copy_receipts (receipts : gmap string pyval) (voter : Voter)
    : M (gmap string pyval) :=
  for_acc (map_to_list (v_receipts voter)).*1 receipts (fun receipts ballot_id =>
    let* r := lift (py_getitem (PyDict (v_receipts voter)) (Key ballot_id)) in
    ret (<[ballot_id := r]> receipts)).

(** The receipts of the voters put in one dict, voter after voter: a
    receipt replaces the one that an earlier voter has under the same
    ballot id. *)
Definition merged_receipts (voters : list Voter) : gmap string pyval :=
  foldl (fun receipts voter => v_receipts voter ∪ receipts) ∅ voters.

(** The receipt under [ballot_id] of the last of the voters that has one. *)
Definition last_receipt (voters : list Voter) (ballot_id : string) : option pyval :=
  foldl (fun found voter =>
           match v_receipts voter !! ballot_id with
           | Some r => Some r
           | None => found
           end) None voters.

(** No two voters have a ballot id in common. *)
Fixpoint distinct_ballot_ids (voters : list Voter) : Prop :=
  match voters with
  | [] => True
  | voter :: rest =>
      Forall (fun voter' => v_receipts voter ##ₘ v_receipts voter') rest /\
      distinct_ballot_ids rest
  end.

(** Two voters with a receipt under the same ballot id. *)
Definition colliding_voters : list Voter :=
  [ mkVoter "voter:0" "p0" {[ "b" := PyStr "receipt of voter 0" ]};
    mkVoter "voter:1" "p1" {[ "b" := PyStr "receipt of voter 1" ]} ].

(** ** The races set up *)

(** The races that [setup_races] constructs for the pairs of the ballot
    style, in order: each is constructed on the election as the races before
    it have left it. *)
Fixpoint races_created (m : Modules) (pairs : list (string * pyval)) (e : Election)
    : list Race :=
  match pairs with
  | [] => []
  | (race_id, choices) :: rest =>
      let race := sv_race_Race m e race_id choices in
      race :: races_created m rest (set_races (races e ++ [race]) e)
  end.

(** The dict posted under [setup:races] for these races, added to [d]. *)
Fixpoint race_dict_of (pairs : list (string * pyval)) (created : list Race)
    (d : gmap string pyval) : gmap string pyval :=
  match pairs, created with
  | (race_id, _) :: pairs', race :: created' =>
      race_dict_of pairs' created'
        (<[race_id := PyDict {[ "choices" := r_choices race;
                                "race_modulus" := r_race_modulus race ]}]> d)
  | _, _ => d
  end.

(** ** What a statement posts *)

(** From [e] to [e'] the entries labelled [labels] have been appended to
    the board, and the board has been neither opened nor closed. *)
Definition sbb_appends (e e' : Election) (labels : list string) : Prop :=
  sbb_labels e' = (sbb_labels e ++ labels)%list /\ sbb_open e' = sbb_open e.

(** When it returns normally, [c] has posted entries with the labels
    [labels], in this order, and nothing else. *)
Definition emits {A} (c : M A) (labels : list string) : Prop :=
  forall e a e', c e = (Ok a, e') -> sbb_appends e e' labels.

(** The label of a record of the mix. *)
Definition is_mix_label (label : string) : Prop :=
  String.prefix "mix:" label = true.

(** Modelled from the spec: the postings of the imported modules, whose
    source is missing.  Section 6 lists the labels posted, in
    order: [setup:start], [setup:races], [setup:voters], [setup:finished],
    [casting:votes], [casting:receipts], the [mix:*] records, [tally],
    [proof:icl], [proof:opl], [election:done.].  Hence the construction of
    the server and the casting of a vote post nothing, the mix posts records
    labelled [mix:*], the tally is computed and printed without a posting
    and posted under [tally], and the proof posts [proof:icl] then
    [proof:opl]. *)
Record posting_contract (m : Modules) : Prop := {
  Server_posts_nothing :
    forall n_fail n_leak, emits (sv_server_Server m n_fail n_leak) [];
  cast_vote_posts_nothing :
    forall voter race, emits (sv_voter_cast_vote m voter race) [];
  mix_posts_mix_records :
    forall e e', sv_server_mix m e = (Ok tt, e') ->
      exists labels, Forall is_mix_label labels /\ sbb_appends e e' labels;
  compute_tally_posts_nothing : emits (sv_tally_compute_tally m) [];
  post_tally_posts_tally : emits (sv_tally_post_tally m) ["tally"];
  print_tally_posts_nothing : emits (sv_tally_print_tally m) [];
  make_proof_posts_proof : emits (sv_prover_make_proof m) ["proof:icl"; "proof:opl"] }.

(** ** Errors *)

(** Whatever its outcome, [c] takes a state to a state related by [R]. *)
Definition steps_in {A} (R : Election -> Election -> Prop) (c : M A) : Prop :=
  forall e r e', c e = (r, e') -> R e e'.

(** The board of [e'] is that of [e]. *)
Definition same_sbb (e e' : Election) : Prop := sbb e' = sbb e.

(** No entry labelled [election:aborted] has been added from [e] to [e']. *)
Definition no_aborted_entry_added (e e' : Election) : Prop :=
  "election:aborted" ∈ sbb_labels e' -> "election:aborted" ∈ sbb_labels e.

(** Modelled from the spec: the imported modules, whose source is
    missing, post entries with the labels of section 6 only
    ([mix:*], [tally], [proof:icl], [proof:opl]); whatever their outcome,
    they post no entry labelled [election:aborted]. *)
Record modules_post_no_aborted_entry (m : Modules) : Prop := {
  Server_no_aborted :
    forall n_fail n_leak,
      steps_in no_aborted_entry_added (sv_server_Server m n_fail n_leak);
  cast_vote_no_aborted :
    forall voter race,
      steps_in no_aborted_entry_added (sv_voter_cast_vote m voter race);
  mix_no_aborted : steps_in no_aborted_entry_added (sv_server_mix m);
  compute_tally_no_aborted : steps_in no_aborted_entry_added (sv_tally_compute_tally m);
  post_tally_no_aborted : steps_in no_aborted_entry_added (sv_tally_post_tally m);
  print_tally_no_aborted : steps_in no_aborted_entry_added (sv_tally_print_tally m);
  make_proof_no_aborted : steps_in no_aborted_entry_added (sv_prover_make_proof m) }.

Module DemoFailures.

(** The modules of [Demo], with an entropy source that fails when a vote is
    cast. *)
Definition rng_failure_modules : Modules :=
  mkModules
    (sv_p_list Demo.modules) (sv_race_Race Demo.modules) (sv_voter_Voter Demo.modules)
    (fun _ _ => raise (Exn RngFailure None))
    (sv_server_Server Demo.modules) (sv_server_mix Demo.modules)
    (sv_tally_compute_tally Demo.modules) (sv_tally_post_tally Demo.modules)
    (sv_tally_print_tally Demo.modules) (sv_prover_make_proof Demo.modules).

(** Scenario S1 with the race [P] twice on the ballot. *)
Definition duplicate_race_parameters : gmap string pyval :=
  <["ballot_style" :=
      PyList [PyTuple [PyStr "P"; PyTuple [PyStr "A"; PyStr "B"]];
              PyTuple [PyStr "P"; PyTuple [PyStr "Y"; PyStr "N"]]]]>
    Demo.S1_parameters.

(** Scenario S1 with an empty election id. *)
Definition empty_id_parameters : gmap string pyval :=
  <["election_id" := PyStr ""]> Demo.S1_parameters.

End DemoFailures.

(** A ballot style with the two races [P] and [Q], and one with the race
    [P] twice. *)
Definition two_race_ballot_style : pyval :=
  PyList [PyTuple [PyStr "P"; PyTuple [PyStr "A"; PyStr "B"]];
          PyTuple [PyStr "Q"; PyTuple [PyStr "Y"; PyStr "N"]]].

Definition duplicate_race_ballot_style : pyval :=
  PyList [PyTuple [PyStr "P"; PyTuple [PyStr "A"; PyStr "B"]];
          PyTuple [PyStr "P"; PyTuple [PyStr "Y"; PyStr "N"]]].

(** An election that has nothing but an open, empty board. *)
Definition open_board_election : Election :=
  set_sbb (Some (SBB_new (PyStr "E1"))) new_Election.

(** The configuration of scenario S1 with [ballot_id_len = 2.5]. *)
Definition float_ballot_id_len_parameters : gmap string pyval :=
  <["ballot_id_len" := PyFloat (S754_finite false 5 (-1))]> Demo.S1_parameters.

(** The election of scenario S1 with two voters whose receipts have a
    ballot id in common. *)
Definition colliding_election : Election :=
  set_voters colliding_voters Demo.S1_election.

(** The election of scenario S1 at the end of [run_election]. *)
Definition S1_done : Election := snd (run_election Demo.modules Demo.S1_election).

(** The election of scenario S1 once the votes have been cast. *)
Definition S1_votes_cast : Election :=
  snd (cast_all_votes Demo.modules (snd (initialize_cast_votes Demo.S1_election))).

(** The election of scenario S1 set up with the failing entropy source. *)
Definition S1_election_rng_failure : Election :=
  snd (Election_init DemoFailures.rng_failure_modules Demo.S1_parameters new_Election).

(** ** Successful set-up *)

(** From a state with [P], [c] returns normally, with [Q]. *)
Definition succeeds {A} (P : Election -> Prop) (c : M A)
    (Q : A -> Election -> Prop) : Prop :=
  forall e, P e -> exists a e', c e = (Ok a, e') /\ Q a e'.

(** The board is open and the position list is [positions]. *)
Definition open_with_positions (positions : list string) (e : Election) : Prop :=
  sbb_open e = true /\ p_list e = positions.

(** Modelled from the spec: the functions of the imported modules that
    [__init__] calls, whose source is missing.  [sv.p_list(n)]
    is the list of the [n] position names [p0], ..., [p(n-1)] (section 3),
    and the construction of the server grid for non-negative [n_fail] and
    [n_leak] returns normally, without a posting (section 6 lists no label
    between [setup:voters] and [setup:finished]). *)
Record setup_contract (m : Modules) : Prop := {
  p_list_length :
    forall v z, py_int v = Some z -> List.length (sv_p_list m v) = Z.to_nat z;
  Server_returns :
    forall n_fail n_leak e,
      is_nonnegative_int n_fail -> is_nonnegative_int n_leak ->
      exists server e',
        sv_server_Server m n_fail n_leak e = (Ok server, e') /\ sbb e' = sbb e }.

(** * Further properties of the orchestrator *)

(** ** [initialize_cast_votes] *)

(** The dict that maps every key of [keys] to [value k], added to [d]. *)
Definition dict_of_keys (value : string -> pyval) (keys : list string)
    (d : gmap string pyval) : gmap string pyval :=
  foldl (fun d k => <[k := value k]> d) d keys.

(** The cast votes before any vote is cast: an empty dict for every race id
    and position. *)
Definition empty_cast_votes (race_ids p_list : list string) : pyval :=
  PyDict (dict_of_keys
            (fun _ => PyDict (dict_of_keys (fun _ => PyDict ∅) p_list ∅))
            race_ids ∅).

(** ** The parameters of [__init__] *)

(** The mandatory parameters, in the order in which [__init__] reads them. *)
Definition mandatory_keys : list string :=
  ["election_id"; "ballot_style"; "n_voters"; "n_reps"; "n_fail"; "n_leak"].

(** The condition that the checks of [__init__] test: the six mandatory
    parameters pass their type and range checks and [ballot_id_len > 0]
    evaluates to true. *)
Definition parameters_accepted (params : gmap string pyval) : Prop :=
  exists election_id ballot_style n_voters n_reps n_fail n_leak,
    mandatory_parameters params election_id ballot_style n_voters n_reps n_fail n_leak /\
    is_nonempty_string election_id /\
    is_nonempty_list ballot_style /\
    is_positive_int n_voters /\
    is_valid_n_reps n_reps /\
    is_nonnegative_int n_fail /\
    is_nonnegative_int n_leak /\
    py_gt_zero (dict_get params "ballot_id_len" (PyInt 32)) = Ok true.

(** The values that Python compares with [0]. *)
Definition is_number (v : pyval) : Prop :=
  match v with
  | PyInt _ | PyBool _ | PyFloat _ => True
  | _ => False
  end.

(** Scenario S1 with a [ballot_id_len] given as a string. *)
Definition string_ballot_id_len_parameters : gmap string pyval :=
  <["ballot_id_len" := PyStr "32"]> Demo.S1_parameters.

(** ** [setup_voters] *)

(** The identifier of the voter of index [i]. *)
Definition voter_id_of (i : nat) : string := "voter:" +:+ pretty i.

(** The voters that the loop of [setup_voters] makes for the indices
    [indices], from the election [e]: each one is made from the election as
    it is then, with its identifier already appended. *)
Fixpoint voters_created (m : Modules) (e : Election) (indices : list nat)
    : list Voter :=
  match indices with
  | [] => []
  | i :: rest =>
      let self := set_voter_ids (voter_ids e ++ [voter_id_of i]) e in
      match p_list e !! i with
      | Some px =>
          let voter := sv_voter_Voter m self (voter_id_of i) px in
          voter :: voters_created m (set_voters (voters self ++ [voter]) self) rest
      | None => []
      end
  end.

(** The loop of [setup_voters]. *)
Definition voters_loop (m : Modules) (indices : list nat) : M unit :=
  for_each indices (fun i =>
    let vid := "voter:" +:+ pretty i in
    let* _ := modify (fun self => set_voter_ids (voter_ids self ++ [vid]) self) in
    let* positions := gets p_list in
    let* px := lift (match positions !! i with
                     | Some px => Ok px
                     | None => Err (Exn IndexError None)
                     end) in
    let* voter := gets (fun self => sv_voter_Voter m self vid px) in
    modify (fun self => set_voters (voters self ++ [voter]) self)).

(** The election after the loop of [setup_voters] has made [created] for
    the indices [indices]. *)
Definition with_voters (ids : list string) (created : list Voter) (e : Election)
    : Election :=
  set_voters (voters e ++ created) (set_voter_ids (voter_ids e ++ ids) e).

(** An election with two positions and an open, empty board. *)
Definition two_positions_election : Election :=
  set_p_list ["p0"; "p1"] (set_sbb (Some (SBB_new (PyStr "E1"))) new_Election).

(** ** [distribute_cast_votes] and [post_cast_vote_commitments] *)

(** From [e] to [e'] nothing but the server data has changed. *)
Definition only_sdb_changed (e e' : Election) : Prop :=
  exists s, e' = set_sdb s e.

(** Every cast vote of [e] has the three fields that are posted. *)
Definition commitments_present (e : Election) : Prop :=
  forall race_id px i field,
    race_id ∈ race_ids e -> px ∈ p_list e -> i ∈ row_list (server e) ->
    field ∈ ["ballot_id"; "cu"; "cv"] ->
    exists x,
      py_get_path (cast_votes e) [Key race_id; Key px; Key i; Key field] = Ok x.

(** Every cast vote of [e] has its eight fields. *)
Definition cast_votes_complete (e : Election) : Prop :=
  forall race_id px i field,
    cast_vote_slot e race_id px i field ->
    exists x, cast_vote_field e race_id px i field = Ok x.

(** The server data of [e] has, for every race and row, a cell in column 0
    with a dict under each of the eight field names. *)
Definition column_0_ready (e : Election) : Prop :=
  forall race_id i field,
    race_id ∈ race_ids e -> i ∈ row_list (server e) -> field ∈ vote_fields ->
    exists d,
      py_get_path (sdb (server e)) [Key race_id; Key i; Index 0; Key field]
        = Ok (PyDict d).

(** The election is ready for the distribution of its cast votes. *)
Definition distribution_ready (e : Election) : Prop :=
  cast_votes_complete e /\ column_0_ready e.

(** ** Voters with receipts *)

(** Two voters with a receipt each, under different ballot ids. *)
Definition receipt_voters : list Voter :=
  [ mkVoter "voter:0" "p0" {[ "b0" := PyStr "receipt of voter 0" ]};
    mkVoter "voter:1" "p1" {[ "b1" := PyStr "receipt of voter 1" ]} ].

Definition receipts_election : Election :=
  set_voters receipt_voters two_positions_election.

(** The same election with its voters in the other order. *)
Definition receipts_election_reversed : Election :=
  set_voters (rev receipt_voters) two_positions_election.

(** ** The board after [__init__] *)

(** The four entries that [__init__] posts. *)
Definition setup_entries (election_id n_voters ballot_id_len : pyval)
    (race_dict : gmap string pyval) : list sbb_entry :=
  [ Entry "setup:start"
      (Some (PyDict {[ "about" := PyList (PyStr <$> about_text);
                       "election_id" := election_id;
                       "legend" := PyList (PyStr <$> legend_text) ]})) true;
    Entry "setup:races"
      (Some (PyDict {[ "ballot_style_race_dict" := PyDict race_dict ]})) false;
    Entry "setup:voters"
      (Some (PyDict {[ "n_voters" := n_voters;
                       "ballot_id_len" := ballot_id_len ]})) false;
    Entry "setup:finished" None true ].

(** * Verification *)

(** ** The monad *)

Lemma bind_ok_inv {A B} (c : M A) (k : A -> M B) e b e' :
  bind c k e = (Ok b, e') ->
  exists a e1, c e = (Ok a, e1) /\ k a e1 = (Ok b, e').
Proof.
  unfold bind. destruct (c e) as [[a|x] e1]; intros H.
  - exists a, e1. split; [reflexivity | exact H].
  - discriminate H.
Qed.

Lemma bind_err_inv {A B} (c : M A) (k : A -> M B) e x e' :
  bind c k e = (Err x, e') ->
  c e = (Err x, e') \/ exists a e1, c e = (Ok a, e1) /\ k a e1 = (Err x, e').
Proof.
  unfold bind. destruct (c e) as [[a|y] e1]; intros H.
  - right. exists a, e1. split; [reflexivity | exact H].
  - left. inversion H. reflexivity.
Qed.

Lemma bind_ok {A B} (c : M A) (k : A -> M B) e a e1 :
  c e = (Ok a, e1) -> bind c k e = k a e1.
Proof. unfold bind. intros ->. reflexivity. Qed.

Lemma bind_err {A B} (c : M A) (k : A -> M B) e x e1 :
  c e = (Err x, e1) -> bind c k e = (Err x, e1).
Proof. unfold bind. intros ->. reflexivity. Qed.

Lemma assert_ok_inv cond e u e' :
  assert_ cond e = (Ok u, e') -> cond = true /\ e' = e.
Proof. destruct cond; simpl; intros H; inversion H; auto. Qed.

Lemma lift_ok_inv {A} (r : result A) e a e' :
  lift r e = (Ok a, e') -> r = Ok a /\ e' = e.
Proof. unfold lift. intros H. inversion H. auto. Qed.

(** Inversion of a successful run of a sequence of statements. *)
Ltac inv_ok H :=
  let a := fresh "a" in
  let e1 := fresh "e" in
  let H1 := fresh "Hstep" in
  apply bind_ok_inv in H as (a & e1 & H1 & H).

(** Inversion of every statement of a successful straight-line run. *)
Ltac inv_run H :=
  repeat inv_ok H;
  repeat match goal with
  | H : modify _ _ = _ |- _ => unfold modify in H; inversion H; subst; clear H
  | H : sv_set_json_indent _ _ = _ |- _ =>
      unfold sv_set_json_indent, ret in H; inversion H; subst; clear H
  | H : ret _ _ = _ |- _ => unfold ret in H; inversion H; subst; clear H
  | H : gets _ _ = _ |- _ => unfold gets in H; inversion H; subst; clear H
  | H : assert_ _ _ = _ |- _ => apply assert_ok_inv in H as [H ?]; subst
  | H : lift _ _ = _ |- _ => apply lift_ok_inv in H as [H ?]; subst
  end.

Lemma gets_ok_inv {A} (f : Election -> A) e a e' :
  gets f e = (Ok a, e') -> a = f e /\ e' = e.
Proof. unfold gets. intros H. inversion H. auto. Qed.

Lemma modify_ok_inv (f : Election -> Election) e u e' :
  modify f e = (Ok u, e') -> e' = f e.
Proof. unfold modify. intros H. inversion H. auto. Qed.

Lemma ret_ok_inv {A} (a : A) e b e' :
  ret a e = (Ok b, e') -> b = a /\ e' = e.
Proof. unfold ret. intros H. inversion H. auto. Qed.

(** ** The parameter checks of [__init__] *)

Lemma first_letters_prefix (k : nat) :
  (k <= 26)%nat ->
  substring 0 k "ABCDEFGHIJKLMNOPQRSTUVWXYZ" = first_letters k /\
  String.length (first_letters k) = k.
Proof.
  intros Hk.
  do 27 (destruct k as [|k]; [vm_compute; split; reflexivity|]).
  lia.
Qed.

Lemma str_slice_to_valid (v : pyval) (n : Z) :
  py_int v = Some n -> 0 < n <= 26 ->
  str_slice_to "ABCDEFGHIJKLMNOPQRSTUVWXYZ" v = Ok (first_letters (Z.to_nat n)).
Proof.
  intros Hv Hn. unfold str_slice_to.
  destruct v; try discriminate Hv; rewrite Hv;
    (destruct (Z.ltb_spec n 0) as [|_]; [lia|]);
    simpl String.length;
    (replace (Z.min n (Z.of_nat 26)) with n by lia);
    f_equal; apply first_letters_prefix; lia.
Qed.

(** The tests of the assertions decide the properties of section 6. *)
Lemma nonempty_string_test v :
  match v with
  | PyStr s => 0 <? Z.of_nat (String.length s)
  | _ => false
  end = true <-> is_nonempty_string v.
Proof.
  split.
  - destruct v; try discriminate. intros H. exists s. split; [reflexivity|].
    intros ->. discriminate.
  - intros (s & -> & Hs). destruct s; [congruence | reflexivity].
Qed.

Lemma nonempty_list_test v :
  match v with
  | PyList l => 0 <? Z.of_nat (List.length l)
  | _ => false
  end = true <-> is_nonempty_list v.
Proof.
  split.
  - destruct v; try discriminate. intros H. exists l. split; [reflexivity|].
    intros ->. discriminate.
  - intros (l & -> & Hl). destruct l; [congruence | reflexivity].
Qed.

Lemma positive_int_test v :
  match py_int v with
  | Some n => 0 <? n
  | None => false
  end = true <-> is_positive_int v.
Proof.
  unfold is_positive_int, is_int. split.
  - destruct (py_int v) as [n|]; [|discriminate]. intros H. exists n.
    split; [reflexivity | lia].
  - intros (n & -> & Hn). lia.
Qed.

Lemma valid_n_reps_test v :
  match py_int v with
  | Some n => (0 <? n) && (n <=? 26) && (n mod 2 =? 0)
  | None => false
  end = true <-> is_valid_n_reps v.
Proof.
  unfold is_valid_n_reps, is_int. split.
  - destruct (py_int v) as [n|]; [|discriminate]. intros H. exists n.
    split; [reflexivity | lia].
  - intros (n & -> & Hn). lia.
Qed.

Lemma nonnegative_int_test v :
  match py_int v with
  | Some n => 0 <=? n
  | None => false
  end = true <-> is_nonnegative_int v.
Proof.
  unfold is_nonnegative_int, is_int. split.
  - destruct (py_int v) as [n|]; [|discriminate]. intros H. exists n.
    split; [reflexivity | lia].
  - intros (n & -> & Hn). lia.
Qed.

Section Checks.

Context (m : Modules).

(** What a successful run of the checks tells. *)
Lemma check_and_save_parameters_ok params e0 locals e :
  check_and_save_parameters m params e0 = (Ok locals, e) ->
  exists election_id ballot_style n_voters n_reps n_fail n_leak,
    mandatory_parameters params election_id ballot_style n_voters n_reps n_fail n_leak /\
    is_nonempty_string election_id /\
    is_nonempty_list ballot_style /\
    is_positive_int n_voters /\
    is_valid_n_reps n_reps /\
    is_nonnegative_int n_fail /\
    is_nonnegative_int n_leak /\
    py_gt_zero (dict_get params "ballot_id_len" (PyInt 32)) = Ok true /\
    locals = (election_id, ballot_style, n_voters, n_fail, n_leak) /\
    e = mkElection params (dict_get params "json_indent" (PyInt 0))
          election_id ballot_style n_voters (sv_p_list m n_voters) n_reps
          (first_letters (Z.to_nat (default 0 (py_int n_reps))))
          n_fail n_leak (dict_get params "ballot_id_len" (PyInt 32))
          (sbb e0) (races e0) (race_ids e0) (voters e0) (voter_ids e0)
          (cast_votes e0) (server e0) (output_commitments e0).
Proof.
  unfold check_and_save_parameters. intros H.
  destruct e0. inv_run H.
  repeat match goal with
  | H : py_getitem (PyDict _) (Key _) = Ok _ |- _ =>
      simpl in H; destruct (_ !! _) eqn:?; [inversion H; subst; clear H | discriminate H]
  end.
  exists a0, a1, a2, a3, a4, a5.
  assert (Hreps : is_valid_n_reps a3).
  { destruct (py_int a3) as [n|] eqn:E; [|discriminate].
    exists n. split; [exact E|]. lia. }
  split; [repeat split; assumption|].
  split. { destruct a0; try discriminate. exists s. split; [reflexivity|].
           intros ->. discriminate. }
  split. { destruct a1; try discriminate. exists l. split; [reflexivity|].
           intros ->. discriminate. }
  split. { destruct (py_int a2) as [n|] eqn:E; [|discriminate]. exists n.
           split; [exact E|lia]. }
  split; [exact Hreps|].
  split. { destruct (py_int a4) as [n|] eqn:E; [|discriminate]. exists n.
           split; [exact E|lia]. }
  split. { destruct (py_int a5) as [n|] eqn:E; [|discriminate]. exists n.
           split; [exact E|lia]. }
  split; [assumption|]. split; [reflexivity|].
  destruct Hreps as (n & Hn & Hrange & _). unfold is_int in Hn.
  rewrite (str_slice_to_valid _ _ Hn Hrange) in Hstep17.
  inversion Hstep17; subst. rewrite Hn. reflexivity.
Qed.

Ltac failed_assertion :=
  eexists _, _; split; [reflexivity|]; split; [reflexivity|];
  right; split; [reflexivity|];
  match goal with
  | T : false = true <-> _ |- _ =>
      let K := fresh in
      repeat (first [left; intros K; apply T in K; discriminate K | right]);
      intros K; apply T in K; discriminate K
  end.

(** The outcome of the checks when the mandatory parameters are present:
    they pass, or an assertion fails, or the comparison of [ballot_id_len]
    with 0 is a type error, which the earlier assertions precede.  The
    bulletin board has not been touched. *)
Lemma check_and_save_parameters_outcome params e0
    election_id ballot_style n_voters n_reps n_fail n_leak :
  mandatory_parameters params election_id ballot_style n_voters n_reps n_fail n_leak ->
  exists r e,
    check_and_save_parameters m params e0 = (r, e) /\
    sbb e = sbb e0 /\
    ((is_nonempty_string election_id /\ is_nonempty_list ballot_style /\
      is_positive_int n_voters /\ is_valid_n_reps n_reps /\
      is_nonnegative_int n_fail /\ is_nonnegative_int n_leak /\
      ((py_gt_zero (dict_get params "ballot_id_len" (PyInt 32)) = Ok true /\
        r = Ok (election_id, ballot_style, n_voters, n_fail, n_leak)) \/
       (py_gt_zero (dict_get params "ballot_id_len" (PyInt 32)) = Ok false /\
        r = Err (Exn AssertionError None)) \/
       (exists x, py_gt_zero (dict_get params "ballot_id_len" (PyInt 32)) = Err x /\
        r = Err x))) \/
     (r = Err (Exn AssertionError None) /\
      (~ is_nonempty_string election_id \/ ~ is_nonempty_list ballot_style \/
       ~ is_positive_int n_voters \/ ~ is_valid_n_reps n_reps \/
       ~ is_nonnegative_int n_fail \/ ~ is_nonnegative_int n_leak))).
Proof.
  intros (H1 & H2 & H3 & H4 & H5 & H6).
  unfold check_and_save_parameters, bind, lift, modify, sv_set_json_indent, ret.
  simpl. rewrite H1, H2, H3, H4, H5, H6.
  destruct e0. simpl.
  pose proof (nonempty_string_test election_id) as T1.
  pose proof (nonempty_list_test ballot_style) as T2.
  pose proof (positive_int_test n_voters) as T3.
  pose proof (valid_n_reps_test n_reps) as T4.
  pose proof (nonnegative_int_test n_fail) as T5.
  pose proof (nonnegative_int_test n_leak) as T6.
  destruct (match election_id with PyStr _ => _ | _ => _ end) eqn:C1; simpl;
    [|failed_assertion].
  destruct (match ballot_style with PyList _ => _ | _ => _ end) eqn:C2; simpl;
    [|failed_assertion].
  destruct (match py_int n_voters with Some _ => _ | None => _ end) eqn:C3; simpl;
    [|failed_assertion].
  destruct (match py_int n_reps with Some _ => _ | None => _ end) eqn:C4; simpl;
    [|failed_assertion].
  apply proj1 in T1, T2, T3, T4. specialize (T1 eq_refl). specialize (T2 eq_refl).
  specialize (T3 eq_refl). specialize (T4 eq_refl).
  destruct T4 as (n & Hn & Hrange & Heven).
  rewrite (str_slice_to_valid _ _ Hn Hrange).
  destruct (match py_int n_fail with Some _ => _ | None => _ end) eqn:C5; simpl;
    [|failed_assertion].
  destruct (match py_int n_leak with Some _ => _ | None => _ end) eqn:C6; simpl;
    [|failed_assertion].
  apply proj1 in T5, T6. specialize (T5 eq_refl). specialize (T6 eq_refl).
  assert (Hreps : is_valid_n_reps n_reps) by (exists n; auto).
  destruct (py_gt_zero (dict_get params "ballot_id_len" (PyInt 32))) as [[|]|x] eqn:C7;
    simpl; eexists _, _; (split; [reflexivity|]); (split; [reflexivity|]); left;
    repeat (split; [assumption|]).
  - left. split; reflexivity.
  - right. left. split; reflexivity.
  - right. right. exists x. split; reflexivity.
Qed.


(** Once the first four assertions have passed, [k_list] is the slice of
    the alphabet, whatever the later checks do. *)
Lemma check_and_save_parameters_k_list params e0
    eid bs nv nr nf nl n :
  mandatory_parameters params eid bs nv nr nf nl ->
  is_nonempty_string eid ->
  is_nonempty_list bs ->
  is_positive_int nv ->
  is_int nr n -> 0 < n <= 26 -> n mod 2 = 0 ->
  exists r e,
    check_and_save_parameters m params e0 = (r, e) /\
    n_reps e = nr /\
    k_list e = first_letters (Z.to_nat n).
Proof.
  intros (H1 & H2 & H3 & H4 & H5 & H6) V1 V2 V3 Hn Hrange Heven.
  unfold check_and_save_parameters, bind, lift, modify, sv_set_json_indent, ret.
  simpl. rewrite H1, H2, H3, H4, H5, H6.
  destruct e0. simpl.
  apply nonempty_string_test in V1. apply nonempty_list_test in V2.
  apply positive_int_test in V3.
  rewrite V1. simpl. rewrite V2. simpl. rewrite V3. simpl.
  assert (V4 : is_valid_n_reps nr) by (exists n; auto).
  apply valid_n_reps_test in V4. rewrite V4. simpl.
  rewrite (str_slice_to_valid _ _ Hn Hrange).
  destruct (match py_int nf with Some _ => _ | None => _ end); simpl;
    [|eexists _, _; split; [reflexivity|]; split; reflexivity].
  destruct (match py_int nl with Some _ => _ | None => _ end); simpl;
    [|eexists _, _; split; [reflexivity|]; split; reflexivity].
  destruct (py_gt_zero _) as [[|]|x]; simpl;
    eexists _, _; (split; [reflexivity|]); split; reflexivity.
Qed.

End Checks.

(** *** C7 *)

(** C7.  For every valid [n_reps] (a positive even integer at most 26, in a
    configuration whose earlier checks pass), the pass labels [k_list] that
    [__init__] computes are exactly the first [n_reps] letters of the
    upper-case alphabet, in order, and there are [n_reps] of them.  This
    holds as soon as the assertion on [n_reps] has passed, whatever the
    outcome of the later checks. *)
Theorem k_list_is_first_n_reps_letters (m : Modules) params e0
    election_id ballot_style n_voters n_reps n_fail n_leak n :
  mandatory_parameters params election_id ballot_style n_voters n_reps n_fail n_leak ->
  is_nonempty_string election_id ->
  is_nonempty_list ballot_style ->
  is_positive_int n_voters ->
  is_int n_reps n -> 0 < n <= 26 -> n mod 2 = 0 ->
  exists r e,
    check_and_save_parameters m params e0 = (r, e) /\
    k_list e = first_letters (Z.to_nat n) /\
    list_ascii_of_string (k_list e)
      = (fun i => ascii_of_nat (65 + i)) <$> seq 0 (Z.to_nat n) /\
    Z.of_nat (String.length (k_list e)) = n.
Proof.
  intros Hp V1 V2 V3 Hn Hrange Heven.
  destruct (check_and_save_parameters_k_list m params e0 _ _ _ _ _ _ n
              Hp V1 V2 V3 Hn Hrange Heven) as (r & e & Hrun & _ & Hk).
  exists r, e. split; [exact Hrun|]. split; [exact Hk|].
  rewrite Hk. split.
  - unfold first_letters. apply list_ascii_of_string_of_list_ascii.
  - destruct (first_letters_prefix (Z.to_nat n)) as [_ ->]; lia.
Qed.

Lemma S1_mandatory_parameters :
  mandatory_parameters Demo.S1_parameters (PyStr "E1")
    (PyList [PyTuple [PyStr "P"; PyTuple [PyStr "A"; PyStr "B"]]])
    (PyInt 2) (PyInt 2) (PyInt 0) (PyInt 0).
Proof. repeat split; vm_compute; reflexivity. Defined.

Lemma k_list_is_first_n_reps_letters_witness :
  exists r e,
    check_and_save_parameters Demo.modules Demo.S1_parameters new_Election = (r, e) /\
    k_list e = first_letters (Z.to_nat 2) /\
    list_ascii_of_string (k_list e)
      = (fun i => ascii_of_nat (65 + i)) <$> seq 0 (Z.to_nat 2) /\
    Z.of_nat (String.length (k_list e)) = 2.
Proof.
  apply (k_list_is_first_n_reps_letters Demo.modules Demo.S1_parameters new_Election
           _ _ _ _ _ _ 2 S1_mandatory_parameters).
  - exists "E1". split; [reflexivity | discriminate].
  - eexists. split; [reflexivity | discriminate].
  - exists 2. split; [reflexivity | lia].
  - reflexivity.
  - lia.
  - reflexivity.
Defined.

(** *** The checks on a valid and on an invalid configuration *)

Lemma is_int_unique v z1 z2 : is_int v z1 -> is_int v z2 -> z1 = z2.
Proof. unfold is_int. congruence. Qed.

Lemma positive_int_gt_zero v : is_positive_int v -> py_gt_zero v = Ok true.
Proof.
  intros (z & Hz & Hpos). unfold is_int in Hz.
  destruct v; try discriminate Hz; simpl in *.
  - destruct b; simpl in Hz; [reflexivity|]. inversion Hz. lia.
  - inversion Hz; subst. f_equal. lia.
Qed.

(** When the checked parameters are valid the checks pass, and save the
    parameters. *)
Lemma check_and_save_parameters_valid (m : Modules) params e0 :
  checked_parameters_valid params ->
  exists eid bs nv nr nf nl,
    mandatory_parameters params eid bs nv nr nf nl /\
    check_and_save_parameters m params e0 =
      (Ok (eid, bs, nv, nf, nl),
       mkElection params (dict_get params "json_indent" (PyInt 0))
          eid bs nv (sv_p_list m nv) nr
          (first_letters (Z.to_nat (default 0 (py_int nr))))
          nf nl (dict_get params "ballot_id_len" (PyInt 32))
          (sbb e0) (races e0) (race_ids e0) (voters e0) (voter_ids e0)
          (cast_votes e0) (server e0) (output_commitments e0)).
Proof.
  intros (eid & bs & nv & nr & nf & nl & Hp & V1 & V2 & V3 & V4 & V5 & V6 & V7).
  exists eid, bs, nv, nr, nf, nl. split; [exact Hp|].
  destruct (check_and_save_parameters_outcome m params e0 _ _ _ _ _ _ Hp)
    as (r & e & Hrun & _ & Hcases).
  apply positive_int_gt_zero in V7.
  assert (Hr : r = Ok (eid, bs, nv, nf, nl)).
  { destruct Hcases as [(_ & _ & _ & _ & _ & _ & [[_ ->] | [[H _] | (x & H & _)]])
                       | [_ Hbad]].
    - reflexivity.
    - congruence.
    - congruence.
    - tauto. }
  subst r. rewrite Hrun. f_equal.
  destruct (check_and_save_parameters_ok m params e0 _ e Hrun)
    as (eid' & bs' & nv' & nr' & nf' & nl' & Hp' & _ & _ & _ & _ & _ & _ & _ & Hl & ->).
  destruct Hp as (? & ? & ? & ? & ? & ?). destruct Hp' as (? & ? & ? & ? & ? & ?).
  replace eid' with eid by congruence. replace bs' with bs by congruence.
  replace nv' with nv by congruence. replace nr' with nr by congruence.
  replace nf' with nf by congruence. replace nl' with nl by congruence.
  reflexivity.
Qed.

(** On an invalid configuration an assertion of the checks fails, before
    the bulletin board is created. *)
Lemma check_and_save_parameters_invalid (m : Modules) params e0 :
  config_invalid params ->
  exists e,
    check_and_save_parameters m params e0 = (Err (Exn AssertionError None), e) /\
    sbb e = sbb e0.
Proof.
  intros (eid & bs & nv & nr & nf & nl & Hp & Hbad).
  destruct (check_and_save_parameters_outcome m params e0 _ _ _ _ _ _ Hp)
    as (r & e & Hrun & Hsbb & Hcases).
  exists e. split; [|exact Hsbb]. rewrite Hrun. f_equal.
  destruct Hcases as [(V1 & V2 & V3 & V4 & V5 & V6 & Hlen) | [-> _]]; [|reflexivity].
  assert (Hneg : forall v, is_nonnegative_int v -> is_negative_int v -> False).
  { intros v (z1 & Hz1 & ?) (z2 & Hz2 & ?).
    pose proof (is_int_unique _ _ _ Hz1 Hz2). lia. }
  destruct Hbad as [H | [H | [H | [H | [H | [H | H]]]]]];
    try tauto; try (exfalso; eauto; fail).
  destruct Hlen as [[H' _] | [[_ ->] | (x & H' & _)]]; congruence.
Qed.

(** *** C8 *)

(** When [ballot_id_len] is omitted, [__init__] sets it to 32. *)
Lemma ballot_id_len_default (m : Modules) params e0 :
  checked_parameters_valid params ->
  params !! "ballot_id_len" = None ->
  exists locals e,
    check_and_save_parameters m params e0 = (Ok locals, e) /\
    ballot_id_len e = PyInt 32.
Proof.
  intros Hv Hnone.
  destruct (check_and_save_parameters_valid m params e0 Hv)
    as (eid & bs & nv & nr & nf & nl & _ & Hrun).
  eexists _, _. split; [exact Hrun|].
  simpl. unfold dict_get. rewrite Hnone. reflexivity.
Qed.

(** A supplied integer [ballot_id_len] passes the check if and only if it is
    positive. *)
Lemma ballot_id_len_integer_check (m : Modules) params e0 z :
  checked_parameters_valid (<["ballot_id_len" := PyInt 32]> params) ->
  (exists locals e,
     check_and_save_parameters m (<["ballot_id_len" := PyInt z]> params) e0
       = (Ok locals, e)) <-> 0 < z.
Proof.
  intros (eid & bs & nv & nr & nf & nl & Hp & V1 & V2 & V3 & V4 & V5 & V6 & _).
  assert (Hp' : mandatory_parameters (<["ballot_id_len" := PyInt z]> params)
                  eid bs nv nr nf nl).
  { destruct Hp as (? & ? & ? & ? & ? & ?).
    repeat split; rewrite lookup_insert_ne in * by discriminate; assumption. }
  split.
  - intros (locals & e & Hrun).
    apply check_and_save_parameters_ok in Hrun
      as (? & ? & ? & ? & ? & ? & _ & _ & _ & _ & _ & _ & _ & Hlen & _).
    unfold dict_get in Hlen. rewrite lookup_insert_eq in Hlen.
    simpl in Hlen. inversion Hlen. lia.
  - intros Hz.
    destruct (check_and_save_parameters_valid m (<["ballot_id_len" := PyInt z]> params) e0)
      as (? & ? & ? & ? & ? & ? & _ & Hrun).
    + exists eid, bs, nv, nr, nf, nl. repeat (split; [assumption|]).
      unfold dict_get. rewrite lookup_insert_eq. exists z. split; [reflexivity|lia].
    + eexists _, _. exact Hrun.
Qed.

(** C8.  [__init__] accepts [ballot_id_len = 2.5], which is not an integer:
    the check on [ballot_id_len] is [ballot_id_len > 0] alone, without the
    [isinstance(..., int)] that the checks of [n_voters], [n_reps], [n_fail]
    and [n_leak] have. *)
Theorem ballot_id_len_float_accepted :
  exists e,
    Election_init Demo.modules float_ballot_id_len_parameters new_Election = (Ok tt, e) /\
    ballot_id_len e = PyFloat (S754_finite false 5 (-1)) /\
    ~ is_positive_int (PyFloat (S754_finite false 5 (-1))).
Proof.
  exists (snd (Election_init Demo.modules float_ballot_id_len_parameters new_Election)).
  split; [vm_compute; reflexivity|].
  split; [vm_compute; reflexivity|].
  intros (z & Hz & _). discriminate Hz.
Qed.

(** ** Assignment through a path *)

Lemma py_index_lt n z i : py_index n z = Some i -> (i < n)%nat.
Proof.
  unfold py_index. intros H.
  destruct ((0 <=? z) && (z <? Z.of_nat n)) eqn:E1.
  - inversion H. lia.
  - destruct ((- Z.of_nat n <=? z) && (z <? 0)) eqn:E2; [|discriminate].
    inversion H. lia.
Qed.

Lemma py_index_nonneg n z i : 0 <= z -> py_index n z = Some i -> i = Z.to_nat z.
Proof.
  unfold py_index. intros Hz H.
  destruct ((0 <=? z) && (z <? Z.of_nat n)) eqn:E1.
  - inversion H. reflexivity.
  - destruct ((- Z.of_nat n <=? z) && (z <? 0)) eqn:E2; [lia | discriminate].
Qed.

Lemma seq_getitem_fmap_ok {A} (f : A -> pyval) (l : list A) z c :
  seq_getitem (f <$> l) z = Ok c -> exists a, c = f a.
Proof.
  unfold seq_getitem. destruct (py_index _ z) as [i|]; [|discriminate].
  rewrite list_lookup_fmap. destruct (l !! i) as [a|]; simpl; [|discriminate].
  intros H. inversion H. eauto.
Qed.

Lemma seq_getitem_insert_same (l : list pyval) z c0 c i :
  py_index (List.length l) z = Some i ->
  seq_getitem l z = Ok c0 ->
  seq_getitem (<[i := c]> l) z = Ok c.
Proof.
  intros Hi _. unfold seq_getitem. rewrite length_insert, Hi.
  rewrite list_lookup_insert_eq; [reflexivity|].
  eapply py_index_lt. exact Hi.
Qed.

Lemma seq_getitem_insert_apart (l : list pyval) a b c i :
  0 <= a -> 0 <= b -> a <> b ->
  py_index (List.length l) a = Some i ->
  seq_getitem (<[i := c]> l) b = seq_getitem l b.
Proof.
  intros Ha Hb Hab Hi. unfold seq_getitem. rewrite length_insert.
  destruct (py_index (List.length l) b) as [j|] eqn:Hj; [|reflexivity].
  apply py_index_nonneg in Hi; [|assumption].
  apply py_index_nonneg in Hj; [|assumption].
  rewrite list_lookup_insert_ne; [reflexivity|]. lia.
Qed.

Lemma py_getitem_child_updated_same v p c0 c :
  is_container v ->
  py_getitem v p = Ok c0 ->
  py_getitem (py_child_updated v p c) p = Ok c.
Proof.
  intros Hv Hget. destruct v; try contradiction; destruct p as [k|z]; simpl in *;
    try discriminate.
  - destruct (py_index (List.length l) z) as [i|] eqn:Hi.
    + simpl. eapply seq_getitem_insert_same; eassumption.
    + unfold seq_getitem in Hget. rewrite Hi in Hget. discriminate.
  - destruct (py_index (List.length l) z) as [i|] eqn:Hi.
    + simpl. eapply seq_getitem_insert_same; eassumption.
    + unfold seq_getitem in Hget. rewrite Hi in Hget. discriminate.
  - rewrite lookup_insert_eq. reflexivity.
Qed.

Lemma py_getitem_child_updated_apart v p q c :
  sub_apart p q ->
  py_getitem (py_child_updated v p c) q = py_getitem v q.
Proof.
  intros Hpq. destruct v; try reflexivity;
    destruct p as [a|a]; destruct q as [b|b]; simpl in *; try reflexivity.
  - destruct (py_index (List.length l) a) as [i|]; reflexivity.
  - destruct (py_index (List.length l) a) as [i|] eqn:Hi; [|reflexivity].
    simpl. destruct Hpq as (Ha & Hb & Hab).
    apply (seq_getitem_insert_apart l a b c i); assumption.
  - destruct (py_index (List.length l) a) as [i|]; reflexivity.
  - destruct (py_index (List.length l) a) as [i|] eqn:Hi; [|reflexivity].
    simpl. destruct Hpq as (Ha & Hb & Hab).
    apply (seq_getitem_insert_apart l a b c i); assumption.
  - rewrite lookup_insert_ne by exact Hpq. reflexivity.
Qed.

Lemma py_child_updated_twice v p c1 c2 :
  py_child_updated (py_child_updated v p c1) p c2 = py_child_updated v p c2.
Proof.
  destruct v; try reflexivity; destruct p as [k|z]; simpl; try reflexivity.
  - destruct (py_index (List.length l) z) as [i|] eqn:Hi; simpl; [|rewrite Hi; reflexivity].
    rewrite length_insert, Hi, list_insert_insert_eq. reflexivity.
  - destruct (py_index (List.length l) z) as [i|] eqn:Hi; simpl; [|rewrite Hi; reflexivity].
    rewrite length_insert, Hi, list_insert_insert_eq. reflexivity.
  - rewrite insert_insert_eq. reflexivity.
Qed.

Lemma py_child_updated_id v p c :
  py_getitem v p = Ok c -> py_child_updated v p c = v.
Proof.
  intros Hget. destruct v; try reflexivity; destruct p as [k|z]; simpl in *;
    try reflexivity.
  - unfold seq_getitem in Hget.
    destruct (py_index (List.length l) z) as [i|]; [|reflexivity].
    destruct (l !! i) as [x|] eqn:Hl; [|discriminate]. inversion Hget; subst.
    rewrite list_insert_id by exact Hl. reflexivity.
  - unfold seq_getitem in Hget.
    destruct (py_index (List.length l) z) as [i|]; [|reflexivity].
    destruct (l !! i) as [x|] eqn:Hl; [|discriminate]. inversion Hget; subst.
    rewrite list_insert_id by exact Hl. reflexivity.
  - destruct (d !! k) as [x|] eqn:Hd; [|discriminate]. inversion Hget; subst.
    rewrite insert_id by exact Hd. reflexivity.
Qed.

(** An assignment succeeds only through containers. *)
Lemma py_assign_path_container path : forall v k x v',
  py_assign_path v path k x = Ok v' -> is_container v.
Proof.
  induction path as [|p ps IH]; intros v k x v' H; simpl in H.
  - destruct v; try discriminate; exact I.
  - destruct (py_getitem v p) as [c|] eqn:Hget; [|discriminate]. simpl in H.
    destruct (py_assign_path c ps k x) as [c'|] eqn:Hc; [|discriminate].
    apply IH in Hc.
    destruct v; try exact I; destruct p as [key|idx]; simpl in Hget; try discriminate.
    apply seq_getitem_fmap_ok in Hget as [a ->]. contradiction.
Qed.

Lemma py_get_path_app v p q :
  py_get_path v (p ++ q) = let? c := py_get_path v p in py_get_path c q.
Proof.
  revert v. induction p as [|p1 ps IH]; intros v; simpl; [reflexivity|].
  destruct (py_getitem v p1) as [c|]; simpl; [apply IH | reflexivity].
Qed.

(** Reading what has just been assigned. *)
Lemma py_get_path_assigned path : forall v k x v',
  py_assign_path v path k x = Ok v' ->
  py_get_path v' (path ++ [Key k]) = Ok x.
Proof.
  induction path as [|p ps IH]; intros v k x v' H; simpl in H.
  - destruct v; try discriminate. inversion H; subst. simpl.
    rewrite lookup_insert_eq. reflexivity.
  - pose proof (py_assign_path_container (p :: ps) _ _ _ _ H) as Hv.
    destruct (py_getitem v p) as [c|] eqn:Hget; [|discriminate]. simpl in H.
    destruct (py_assign_path c ps k x) as [c'|] eqn:Hc; [|discriminate].
    simpl in H. inversion H; subst. simpl.
    rewrite (py_getitem_child_updated_same v p c c' Hv Hget). simpl.
    eapply IH. exact Hc.
Qed.

(** Reading elsewhere is not affected by an assignment. *)
Lemma py_get_path_assigned_apart path : forall v k x v' q,
  py_assign_path v path k x = Ok v' ->
  paths_apart (path ++ [Key k]) q ->
  py_get_path v' q = py_get_path v q.
Proof.
  induction path as [|p ps IH]; intros v k x v' q H Hq; simpl in H.
  - destruct q as [|q1 qs]; [contradiction|]. simpl in Hq.
    destruct Hq as [Hq | [_ []]].
    destruct v; try discriminate. inversion H; subst.
    change (py_get_path (PyDict (<[k:=x]> d)) (q1 :: qs))
      with (let? c := py_getitem (py_child_updated (PyDict d) (Key k) x) q1 in
            py_get_path c qs).
    rewrite py_getitem_child_updated_apart by exact Hq. reflexivity.
  - pose proof (py_assign_path_container (p :: ps) _ _ _ _ H) as Hv.
    destruct (py_getitem v p) as [c|] eqn:Hget; [|discriminate]. simpl in H.
    destruct (py_assign_path c ps k x) as [c'|] eqn:Hc; [|discriminate].
    simpl in H. inversion H; subst.
    destruct q as [|q1 qs]; [contradiction|]. simpl in Hq. simpl.
    destruct Hq as [Hq | [<- Hq]].
    + rewrite py_getitem_child_updated_apart by exact Hq. reflexivity.
    + rewrite (py_getitem_child_updated_same v p c c' Hv Hget).
      rewrite Hget. simpl. eapply IH; eassumption.
Qed.

(** A second assignment to the same place overrides the first. *)
Lemma py_assign_path_twice path : forall v k x y v1,
  py_assign_path v path k x = Ok v1 ->
  py_assign_path v1 path k y = py_assign_path v path k y.
Proof.
  induction path as [|p ps IH]; intros v k x y v1 H; simpl in H.
  - destruct v; try discriminate. inversion H; subst. simpl.
    rewrite insert_insert_eq. reflexivity.
  - pose proof (py_assign_path_container (p :: ps) _ _ _ _ H) as Hv.
    destruct (py_getitem v p) as [c|] eqn:Hget; [|discriminate]. simpl in H.
    destruct (py_assign_path c ps k x) as [c'|] eqn:Hc; [|discriminate].
    simpl in H. inversion H; subst. simpl.
    rewrite (py_getitem_child_updated_same v p c c' Hv Hget).
    rewrite Hget. simpl. rewrite (IH _ _ _ y _ Hc).
    destruct (py_assign_path c ps k y) as [c2|]; simpl; [|reflexivity].
    rewrite py_child_updated_twice. reflexivity.
Qed.

(** Assigning a field of the dict at a place is assigning the updated dict
    to the place. *)
Lemma py_assign_path_snoc path : forall v k d k2 y,
  py_get_path v (path ++ [Key k]) = Ok (PyDict d) ->
  py_assign_path v (path ++ [Key k]) k2 y
    = py_assign_path v path k (PyDict (<[k2 := y]> d)).
Proof.
  induction path as [|p ps IH]; intros v k d k2 y H; simpl in *.
  - destruct (py_getitem v (Key k)) as [c|] eqn:Hget; [|discriminate].
    simpl in H. inversion H; subst. simpl.
    destruct v; try discriminate. reflexivity.
  - destruct (py_getitem v p) as [c|]; [|discriminate]. simpl in *.
    rewrite (IH _ _ _ _ _ H). reflexivity.
Qed.

(** Assigning to a place the value it holds changes nothing. *)
Lemma py_assign_path_id path : forall v k x,
  py_get_path v (path ++ [Key k]) = Ok x ->
  py_assign_path v path k x = Ok v.
Proof.
  induction path as [|p ps IH]; intros v k x H; simpl in *.
  - destruct v; try discriminate. simpl in H.
    destruct (d !! k) as [x'|] eqn:Hd; [|discriminate]. simpl in H.
    inversion H; subst. simpl. rewrite insert_id by exact Hd. reflexivity.
  - destruct (py_getitem v p) as [c|] eqn:Hget; [|discriminate]. simpl in *.
    rewrite (IH _ _ _ H). simpl. rewrite py_child_updated_id by exact Hget.
    reflexivity.
Qed.

(** ** Loops *)

Lemma for_each_cons {A} (a : A) l body :
  for_each (a :: l) body = bind (body a) (fun _ => for_each l body).
Proof. reflexivity. Qed.

(** A loop whose iterations are steps of a preorder [R], each establishing
    a property [G a] that further steps keep. *)
Lemma for_each_ok_ind {A} (R : Election -> Election -> Prop)
    (G : A -> Election -> Prop) (l : list A) (body : A -> M unit) e0 :
  (forall e, R e e) ->
  (forall e1 e2 e3, R e1 e2 -> R e2 e3 -> R e1 e3) ->
  (forall a e e', R e e' -> G a e -> G a e') ->
  (forall a e e', a ∈ l -> R e0 e -> body a e = (Ok tt, e') -> R e e' /\ G a e') ->
  forall e', for_each l body e0 = (Ok tt, e') ->
  R e0 e' /\ forall a, a ∈ l -> G a e'.
Proof.
  intros Hrefl Htrans Hkeep Hbody.
  assert (Hgen : forall l' e e', (forall a, a ∈ l' -> a ∈ l) -> R e0 e ->
            for_each l' body e = (Ok tt, e') ->
            R e e' /\ forall a, a ∈ l' -> G a e').
  { induction l' as [|a l' IH]; intros e e' Hsub He Hrun.
    - inversion Hrun; subst. split; [apply Hrefl|].
      intros a Ha. inversion Ha.
    - rewrite for_each_cons in Hrun.
      apply bind_ok_inv in Hrun as ([] & e1 & Hstep & Hrest).
      destruct (Hbody a e e1) as [R1 G1]; [apply Hsub; left | exact He | exact Hstep |].
      destruct (IH e1 e') as [R2 G2].
      + intros b Hb. apply Hsub. right. exact Hb.
      + eapply Htrans; eassumption.
      + exact Hrest.
      + split; [eapply Htrans; eassumption|].
        intros b Hb. apply elem_of_cons in Hb as [-> | Hb].
        * eapply Hkeep; eassumption.
        * apply G2. exact Hb. }
  intros e' Hrun. apply (Hgen l e0 e'); auto.
Qed.

(** ** [distribute_cast_votes] *)

Lemma set_sdb_fields s e :
  race_ids (set_sdb s e) = race_ids e /\
  p_list (set_sdb s e) = p_list e /\
  row_list (server (set_sdb s e)) = row_list (server e) /\
  cast_votes (set_sdb s e) = cast_votes e /\
  sbb (set_sdb s e) = sbb e /\
  sdb (server (set_sdb s e)) = s.
Proof. destruct e. repeat split; reflexivity. Qed.

Lemma set_sdb_twice s1 s2 e : set_sdb s2 (set_sdb s1 e) = set_sdb s2 e.
Proof. destruct e. reflexivity. Qed.

Lemma set_sdb_id e : set_sdb (sdb (server e)) e = e.
Proof. destruct e as [? ? ? ? ? ? ? ? ? ? ? ? ? ? ? ? ? [rows s] ?]. reflexivity. Qed.

Lemma distribution_step_fields e e' :
  distribution_step e e' ->
  race_ids e' = race_ids e /\ p_list e' = p_list e /\
  row_list (server e') = row_list (server e) /\
  cast_votes e' = cast_votes e /\ sbb e' = sbb e.
Proof.
  intros [[s ->] _].
  destruct (set_sdb_fields s e) as (? & ? & ? & ? & ? & _).
  repeat split; assumption.
Qed.

Lemma distribution_step_refl e : distribution_step e e.
Proof.
  split; [|split; [|split]]; auto.
  exists (sdb (server e)). symmetry. apply set_sdb_id.
Qed.

Lemma distribution_step_trans e1 e2 e3 :
  distribution_step e1 e2 -> distribution_step e2 e3 -> distribution_step e1 e3.
Proof.
  intros H12 H23.
  pose proof (distribution_step_fields _ _ H12) as (F1 & F2 & F3 & F4 & F5).
  destruct H12 as ([s2 E12] & C12 & O12 & D12).
  destruct H23 as ([s3 E23] & C23 & O23 & D23).
  split; [|split; [|split]].
  - exists s3. rewrite E23, E12, set_sdb_twice. reflexivity.
  - intros r i j Hj. rewrite C23, C12 by exact Hj. reflexivity.
  - intros r px i f Hslot. rewrite O23, O12; [reflexivity | exact Hslot |].
    unfold cast_vote_slot in *. rewrite F1, F2, F3. exact Hslot.
  - auto.
Qed.

Lemma distribute_cast_votes_unfold :
  distribute_cast_votes =
    (let* race_ids := gets race_ids in for_each race_ids distribute_race).
Proof. reflexivity. Qed.

Lemma column_path_apart r0 i0 f0 px0 r i (j : nat) :
  j <> 0%nat ->
  paths_apart ([Key r0; Key i0; Index 0; Key f0] ++ [Key px0])
    [Key r; Key i; Index (Z.of_nat j)].
Proof.
  intros Hj. simpl.
  destruct (decide (r0 = r)) as [->|]; [right; split; [reflexivity|] | left; assumption].
  destruct (decide (i0 = i)) as [->|]; [right; split; [reflexivity|] | left; assumption].
  left. lia.
Qed.

Lemma slot_path_apart r0 i0 f0 px0 r i f px :
  ~ (r0 = r /\ i0 = i /\ f0 = f /\ px0 = px) ->
  paths_apart ([Key r0; Key i0; Index 0; Key f0] ++ [Key px0])
    [Key r; Key i; Index 0; Key f; Key px].
Proof.
  intros Hne. simpl.
  destruct (decide (r0 = r)) as [->|]; [right; split; [reflexivity|] | left; assumption].
  destruct (decide (i0 = i)) as [->|]; [right; split; [reflexivity|] | left; assumption].
  right; split; [reflexivity|].
  destruct (decide (f0 = f)) as [->|]; [right; split; [reflexivity|] | left; assumption].
  destruct (decide (px0 = px)) as [->|]; [|left; assumption].
  exfalso. apply Hne. auto.
Qed.

(** One assignment [sdbp[field][px] = vote[field]]. *)
Lemma sdbp_assign_step race_id i field px vote e e' :
  race_id ∈ race_ids e -> px ∈ p_list e -> i ∈ row_list (server e) ->
  field ∈ vote_fields ->
  py_get_path (cast_votes e) [Key race_id; Key px; Key i] = Ok vote ->
  sdbp_assign race_id i field px vote e = (Ok tt, e') ->
  distribution_step e e' /\ distributed e' race_id px i field.
Proof.
  intros Hr Hpx Hi Hf Hvote H. unfold sdbp_assign in H.
  apply bind_ok_inv in H as (x & e1 & H1 & H).
  apply lift_ok_inv in H1 as [Hx ->].
  apply bind_ok_inv in H as (s0 & e1 & H1 & H).
  apply gets_ok_inv in H1 as [-> ->].
  apply bind_ok_inv in H as (s' & e1 & H1 & H).
  apply lift_ok_inv in H1 as [Hassign ->].
  apply modify_ok_inv in H as ->.
  assert (Hcv : cast_vote_field e race_id px i field = Ok x).
  { unfold cast_vote_field.
    change [Key race_id; Key px; Key i; Key field]
      with ([Key race_id; Key px; Key i] ++ [Key field])%list.
    rewrite py_get_path_app, Hvote. simpl. rewrite Hx. reflexivity. }
  destruct (set_sdb_fields s' e) as (F1 & F2 & F3 & F4 & F5 & F6).
  assert (Hnew : column_0 (set_sdb s' e) race_id i field px = Ok x).
  { unfold column_0. rewrite F6.
    apply (py_get_path_assigned _ _ _ _ _ Hassign). }
  split.
  - split; [exists s'; reflexivity|]. split; [|split].
    + intros r i' j Hj. rewrite F6.
      apply (py_get_path_assigned_apart _ _ _ _ _ _ Hassign).
      apply column_path_apart. exact Hj.
    + intros r px' i' f Hslot. unfold column_0. rewrite F6.
      apply (py_get_path_assigned_apart _ _ _ _ _ _ Hassign).
      apply slot_path_apart. intros (-> & -> & -> & ->).
      apply Hslot. repeat split; assumption.
    + intros r px' i' f (y & Hy1 & Hy2).
      destruct (decide (race_id = r /\ i = i' /\ field = f /\ px = px'))
        as [(-> & -> & -> & ->) | Hne].
      * exists x. split; [|exact Hnew].
        unfold cast_vote_field. rewrite F4. exact Hcv.
      * exists y. split; [unfold cast_vote_field; rewrite F4; exact Hy1|].
        unfold column_0. rewrite F6. rewrite <- Hy2.
        apply (py_get_path_assigned_apart _ _ _ _ _ _ Hassign).
        apply slot_path_apart. exact Hne.
  - exists x. split; [|exact Hnew].
    unfold cast_vote_field. rewrite F4. exact Hcv.
Qed.

Lemma distribute_row_step race_id px i e e' :
  race_id ∈ race_ids e -> px ∈ p_list e -> i ∈ row_list (server e) ->
  distribute_row race_id px i e = (Ok tt, e') ->
  distribution_step e e' /\
  forall field, field ∈ vote_fields -> distributed e' race_id px i field.
Proof.
  intros Hr Hpx Hi H. unfold distribute_row in H.
  apply bind_ok_inv in H as (cvs & e1 & H1 & H).
  apply gets_ok_inv in H1 as [-> ->].
  apply bind_ok_inv in H as (vote & e1 & H1 & H).
  apply lift_ok_inv in H1 as [Hvote ->].
  apply bind_ok_inv in H as (s0 & e1 & H1 & H).
  apply gets_ok_inv in H1 as [-> ->].
  apply bind_ok_inv in H as (sdbp & e1 & H1 & H).
  apply lift_ok_inv in H1 as [_ ->].
  assert (Hloop : for_each vote_fields
                    (fun field => sdbp_assign race_id i field px vote) e
                  = (Ok tt, e')).
  { do 7 (apply bind_ok_inv in H as ([] & ? & ? & H)).
    unfold vote_fields.
    repeat (rewrite for_each_cons; erewrite bind_ok by eassumption).
    reflexivity. }
  apply (for_each_ok_ind distribution_step
           (fun field e => distributed e race_id px i field)) in Hloop; auto.
  - apply distribution_step_refl.
  - apply distribution_step_trans.
  - intros f ea eb Hab. apply Hab.
  - intros f ea eb Hf Hab Hrun.
    apply distribution_step_fields in Hab as (F1 & F2 & F3 & F4 & _).
    eapply sdbp_assign_step; try eassumption; congruence.
Qed.

Lemma distribute_position_step race_id px e e' :
  race_id ∈ race_ids e -> px ∈ p_list e ->
  distribute_position race_id px e = (Ok tt, e') ->
  distribution_step e e' /\
  forall i field, i ∈ row_list (server e) -> field ∈ vote_fields ->
    distributed e' race_id px i field.
Proof.
  intros Hr Hpx H. unfold distribute_position in H.
  apply bind_ok_inv in H as (rows & e1 & H1 & H).
  apply gets_ok_inv in H1 as [-> ->].
  apply (for_each_ok_ind distribution_step
           (fun i e => forall field, field ∈ vote_fields ->
                         distributed e race_id px i field)) in H.
  - destruct H as [Hstep Hall]. split; [exact Hstep|].
    intros i f Hi Hf. apply Hall; assumption.
  - apply distribution_step_refl.
  - apply distribution_step_trans.
  - intros i ea eb Hab Hd f Hf. apply Hab. apply Hd. exact Hf.
  - intros i ea eb Hi Hab Hrun.
    apply distribution_step_fields in Hab as (F1 & F2 & F3 & _).
    apply distribute_row_step; congruence.
Qed.

Lemma distribute_race_step race_id e e' :
  race_id ∈ race_ids e ->
  distribute_race race_id e = (Ok tt, e') ->
  distribution_step e e' /\
  forall px i field, px ∈ p_list e -> i ∈ row_list (server e) ->
    field ∈ vote_fields -> distributed e' race_id px i field.
Proof.
  intros Hr H. unfold distribute_race in H.
  apply bind_ok_inv in H as (ps & e1 & H1 & H).
  apply gets_ok_inv in H1 as [-> ->].
  apply (for_each_ok_ind distribution_step
           (fun px e0 => forall i field, i ∈ row_list (server e) ->
                          field ∈ vote_fields ->
                          distributed e0 race_id px i field)) in H.
  - destruct H as [Hstep Hall]. split; [exact Hstep|].
    intros px i f Hpx Hi Hf. apply Hall; assumption.
  - apply distribution_step_refl.
  - apply distribution_step_trans.
  - intros px ea eb Hab Hd i f Hi Hf. apply Hab. apply Hd; assumption.
  - intros px ea eb Hpx Hab Hrun.
    apply distribution_step_fields in Hab as (F1 & F2 & F3 & _).
    destruct (distribute_position_step race_id px ea eb) as [Hstep Hall];
      [congruence | congruence | exact Hrun |].
    split; [exact Hstep|]. intros i f Hi Hf. apply Hall; [congruence | exact Hf].
Qed.

(** *** C5 *)

(** C5.  After [distribute_cast_votes], for every race id, every position
    [px] of [p_list] and every row [i] of the server's [row_list], the cell
    of column 0 for (race, row) holds at position [px] the eight values
    [ballot_id], [x], [u], [v], [ru], [rv], [cu], [cv] of
    [cast_votes[race_id][px][i]]; no other column of the server is written,
    nor any other slot of column 0, and nothing but the server data
    changes. *)
Theorem distribute_cast_votes_fills_column_0 e e' :
  distribute_cast_votes e = (Ok tt, e') ->
  (forall race_id px i field,
     race_id ∈ race_ids e -> px ∈ p_list e -> i ∈ row_list (server e) ->
     field ∈ vote_fields ->
     exists x,
       py_get_path (cast_votes e) [Key race_id; Key px; Key i; Key field] = Ok x /\
       py_get_path (sdb (server e'))
         [Key race_id; Key i; Index 0; Key field; Key px] = Ok x) /\
  (forall race_id i (j : nat), j <> 0%nat ->
     py_get_path (sdb (server e')) [Key race_id; Key i; Index (Z.of_nat j)]
       = py_get_path (sdb (server e)) [Key race_id; Key i; Index (Z.of_nat j)]) /\
  (forall race_id px i field,
     ~ (race_id ∈ race_ids e /\ px ∈ p_list e /\ i ∈ row_list (server e) /\
        field ∈ vote_fields) ->
     py_get_path (sdb (server e'))
       [Key race_id; Key i; Index 0; Key field; Key px]
     = py_get_path (sdb (server e))
         [Key race_id; Key i; Index 0; Key field; Key px]) /\
  e' = set_sdb (sdb (server e')) e.
Proof.
  rewrite distribute_cast_votes_unfold. intros H.
  apply bind_ok_inv in H as (rs & e1 & H1 & H).
  apply gets_ok_inv in H1 as [-> ->].
  apply (for_each_ok_ind distribution_step
           (fun race_id e0 => forall px i field, px ∈ p_list e ->
              i ∈ row_list (server e) -> field ∈ vote_fields ->
              distributed e0 race_id px i field)) in H.
  - destruct H as [Hstep Hall].
    pose proof (distribution_step_fields _ _ Hstep) as (_ & _ & _ & F4 & _).
    destruct Hstep as ([s Hs] & Hcols & Hother & _).
    split; [|split; [|split]].
    + intros r px i f Hr Hpx Hi Hf.
      destruct (Hall r Hr px i f Hpx Hi Hf) as (x & Hx1 & Hx2).
      exists x. unfold cast_vote_field in Hx1. rewrite F4 in Hx1. auto.
    + exact Hcols.
    + exact Hother.
    + rewrite Hs. destruct (set_sdb_fields s e) as (_ & _ & _ & _ & _ & ->).
      reflexivity.
  - apply distribution_step_refl.
  - apply distribution_step_trans.
  - intros r ea eb Hab Hd px i f Hpx Hi Hf. apply Hab. apply Hd; assumption.
  - intros r ea eb Hr Hab Hrun.
    apply distribution_step_fields in Hab as (F1 & F2 & F3 & _).
    destruct (distribute_race_step r ea eb) as [Hstep Hall];
      [congruence | exact Hrun |].
    split; [exact Hstep|]. intros px i f Hpx Hi Hf. apply Hall; congruence.
Qed.

(** ** [post_cast_vote_commitments] *)

Lemma post_cast_vote_commitments_unfold :
  post_cast_vote_commitments =
    (let* cvs := gets cast_votes in
     let* race_ids := gets race_ids in
     let* cvcs := for_acc race_ids (PyDict ∅) (commit_race cvs) in
     sbb_post "casting:votes" (Some (PyDict {[ "cast_vote_dict" := cvcs ]})) false).
Proof. reflexivity. Qed.

Lemma bind_lift {A B} (r : result A) (k : A -> M B) e :
  bind (lift r) k e = match r with
                      | Ok a => k a e
                      | Err x => (Err x, e)
                      end.
Proof. unfold bind, lift. destruct r; reflexivity. Qed.

Lemma bind_gets {A B} (f : Election -> A) (k : A -> M B) e :
  bind (gets f) k e = k (f e) e.
Proof. reflexivity. Qed.

Lemma for_acc_cons {A B} (a : A) l (acc : B) body :
  for_acc (a :: l) acc body = bind (body acc a) (fun acc' => for_acc l acc' body).
Proof. reflexivity. Qed.

(** An assignment to a place that can be read succeeds. *)
Lemma py_assign_path_ok path : forall v k x y,
  py_get_path v (path ++ [Key k]) = Ok x ->
  exists v', py_assign_path v path k y = Ok v'.
Proof.
  induction path as [|p ps IH]; intros v k x y H; simpl in *.
  - destruct v; try discriminate. eexists. reflexivity.
  - destruct (py_getitem v p) as [c|] eqn:Hget; [|discriminate]. simpl in *.
    destruct (IH _ _ _ y H) as [c' ->]. simpl. eexists. reflexivity.
Qed.

(** Filling the dict [d] held at [path ++ [k]] with a field: the dict
    there becomes [<[k2 := y]> d], and nothing else changes. *)
Lemma py_assign_field path v k d k2 y :
  py_get_path v (path ++ [Key k]) = Ok (PyDict d) ->
  exists v',
    py_assign_path v (path ++ [Key k]) k2 y = Ok v' /\
    py_assign_path v path k (PyDict (<[k2 := y]> d)) = Ok v' /\
    py_get_path v' (path ++ [Key k]) = Ok (PyDict (<[k2 := y]> d)) /\
    forall z, py_assign_path v' path k z = py_assign_path v path k z.
Proof.
  intros Hget.
  destruct (py_assign_path_ok path v k _ (PyDict (<[k2 := y]> d)) Hget) as [v' Hv'].
  exists v'. rewrite (py_assign_path_snoc _ _ _ _ _ _ Hget).
  split; [exact Hv'|]. split; [exact Hv'|].
  split; [exact (py_get_path_assigned _ _ _ _ _ Hv')|].
  intros z. exact (py_assign_path_twice _ _ _ _ z _ Hv').
Qed.

(** One row: the commitment record of the cast vote is put at
    [cvcs[race_id][px][i]]. *)
Lemma commit_row_eq cvs race_id px acc i d e :
  py_get_path acc [Key race_id; Key px] = Ok (PyDict d) ->
  commit_row cvs race_id px acc i e =
    (match commitment_record cvs race_id px i with
     | Ok record => py_assign_path acc [Key race_id] px (PyDict (<[i := record]> d))
     | Err x => Err x
     end, e).
Proof.
  intros Hacc. unfold commit_row, copy_commitment, commitment_record.
  unfold bind, lift. cbv beta iota.
  destruct (py_assign_field [Key race_id] acc px d i (PyDict ∅) Hacc)
    as (acc1 & H1 & _ & Hget1 & Hput1).
  simpl app in *. rewrite H1. cbv beta iota.
  pose proof (py_get_path_assigned _ _ _ _ _ H1) as Hrec1. simpl app in Hrec1.
  destruct (py_get_path cvs [Key race_id; Key px; Key i; Key "ballot_id"])
    as [b|x]; [|reflexivity]. cbv beta iota. cbn [rbind].
  destruct (py_assign_field [Key race_id; Key px] acc1 i ∅ "ballot_id" b Hrec1)
    as (acc2 & H2 & _ & Hrec2 & Hput2).
  simpl app in *. rewrite H2. cbv beta iota.
  destruct (py_get_path cvs [Key race_id; Key px; Key i; Key "cu"])
    as [cu|x]; [|reflexivity]. cbv beta iota. cbn [rbind].
  destruct (py_assign_field [Key race_id; Key px] acc2 i _ "cu" cu Hrec2)
    as (acc3 & H3 & _ & Hrec3 & Hput3).
  simpl app in *. rewrite H3. cbv beta iota.
  destruct (py_get_path cvs [Key race_id; Key px; Key i; Key "cv"])
    as [cv|x]; [|reflexivity]. cbv beta iota. cbn [rbind].
  destruct (py_assign_field [Key race_id; Key px] acc3 i _ "cv" cv Hrec3)
    as (acc4 & H4 & H4' & _ & _).
  simpl app in *. rewrite H4. f_equal.
  rewrite <- H4', Hput3, Hput2.
  rewrite (py_assign_path_snoc [Key race_id] acc1 px _ i _ Hget1).
  rewrite insert_insert_eq. apply Hput1.
Qed.

(** The loop over the rows fills the dict at [cvcs[race_id][px]]. *)
Lemma commit_rows_eq cvs race_id px rows : forall acc d e,
  py_get_path acc [Key race_id; Key px] = Ok (PyDict d) ->
  for_acc rows acc (commit_row cvs race_id px) e =
    (match rows_commitments cvs race_id px rows d with
     | Ok d' => py_assign_path acc [Key race_id] px (PyDict d')
     | Err x => Err x
     end, e).
Proof.
  induction rows as [|i rest IH]; intros acc d e Hacc.
  - simpl. unfold ret. f_equal. symmetry.
    apply (py_assign_path_id [Key race_id]). exact Hacc.
  - rewrite for_acc_cons. unfold bind.
    rewrite (commit_row_eq _ _ _ _ _ d _ Hacc). simpl rows_commitments.
    destruct (commitment_record cvs race_id px i) as [record|x]; [|reflexivity].
    cbn [rbind].
    destruct (py_assign_path_ok [Key race_id] acc px _
                (PyDict (<[i := record]> d)) Hacc) as [acc' Hacc'].
    rewrite Hacc'.
    rewrite (IH acc' (<[i := record]> d) e).
    + destruct (rows_commitments cvs race_id px rest (<[i:=record]> d)); [|reflexivity].
      f_equal. apply (py_assign_path_twice _ _ _ _ _ _ Hacc').
    + apply (py_get_path_assigned _ _ _ _ _ Hacc').
Qed.

Lemma commit_position_eq cvs race_id acc px d e :
  py_get_path acc [Key race_id] = Ok (PyDict d) ->
  commit_position cvs race_id acc px e =
    (match rows_commitments cvs race_id px (row_list (server e)) ∅ with
     | Ok of_rows => py_assign_path acc [] race_id (PyDict (<[px := PyDict of_rows]> d))
     | Err x => Err x
     end, e).
Proof.
  intros Hacc. unfold commit_position.
  destruct (py_assign_field [] acc race_id d px (PyDict ∅) Hacc)
    as (acc1 & H1 & _ & Hget1 & Hput1).
  simpl app in *. rewrite bind_lift, H1, bind_gets.
  pose proof (py_get_path_assigned _ _ _ _ _ H1) as Hrec1. simpl app in Hrec1.
  rewrite (commit_rows_eq _ _ _ _ _ ∅ _ Hrec1).
  destruct (rows_commitments cvs race_id px (row_list (server e)) ∅) as [d'|x];
    [|reflexivity].
  f_equal.
  rewrite (py_assign_path_snoc [] acc1 race_id _ px _ Hget1).
  rewrite insert_insert_eq. apply Hput1.
Qed.

Lemma commit_positions_eq cvs race_id positions : forall acc d e,
  py_get_path acc [Key race_id] = Ok (PyDict d) ->
  for_acc positions acc (commit_position cvs race_id) e =
    (match positions_commitments cvs (row_list (server e)) race_id positions d with
     | Ok d' => py_assign_path acc [] race_id (PyDict d')
     | Err x => Err x
     end, e).
Proof.
  induction positions as [|px rest IH]; intros acc d e Hacc.
  - simpl. unfold ret. f_equal. symmetry.
    apply (py_assign_path_id []). exact Hacc.
  - rewrite for_acc_cons. unfold bind.
    rewrite (commit_position_eq _ _ _ _ d _ Hacc). simpl positions_commitments.
    destruct (rows_commitments cvs race_id px (row_list (server e)) ∅) as [dr|x];
      [|reflexivity].
    cbn [rbind].
    destruct (py_assign_path_ok [] acc race_id _
                (PyDict (<[px := PyDict dr]> d)) Hacc) as [acc' Hacc'].
    rewrite Hacc'.
    rewrite (IH acc' (<[px := PyDict dr]> d) e).
    + destruct (positions_commitments _ _ _ rest _); [|reflexivity].
      f_equal. apply (py_assign_path_twice _ _ _ _ _ _ Hacc').
    + apply (py_get_path_assigned _ _ _ _ _ Hacc').
Qed.

Lemma commit_race_eq cvs d race_id e :
  commit_race cvs (PyDict d) race_id e =
    (match positions_commitments cvs (row_list (server e)) race_id (p_list e) ∅ with
     | Ok of_positions => Ok (PyDict (<[race_id := PyDict of_positions]> d))
     | Err x => Err x
     end, e).
Proof.
  unfold commit_race. rewrite bind_lift. cbn [py_assign_path py_setitem].
  rewrite bind_gets.
  rewrite (commit_positions_eq _ _ _ _ ∅).
  - destruct (positions_commitments _ _ _ _ _); [|reflexivity].
    simpl. rewrite insert_insert_eq. reflexivity.
  - simpl. rewrite lookup_insert_eq. reflexivity.
Qed.

Lemma commit_races_eq cvs races : forall d e,
  for_acc races (PyDict d) (commit_race cvs) e =
    (match races_commitments cvs (p_list e) (row_list (server e)) races d with
     | Ok d' => Ok (PyDict d')
     | Err x => Err x
     end, e).
Proof.
  induction races as [|race_id rest IH]; intros d e.
  - reflexivity.
  - rewrite for_acc_cons. unfold bind. rewrite commit_race_eq.
    simpl races_commitments.
    destruct (positions_commitments _ _ _ _ _) as [dp|x]; [|reflexivity].
    cbn [rbind]. apply IH.
Qed.

(** [post_cast_vote_commitments] posts the commitments of the cast votes,
    or raises the exception of the first look-up that fails. *)
Lemma post_cast_vote_commitments_eq e :
  post_cast_vote_commitments e =
    match cast_vote_commitments e with
    | Ok cvcs =>
        sbb_post "casting:votes" (Some (PyDict {[ "cast_vote_dict" := cvcs ]})) false e
    | Err x => (Err x, e)
    end.
Proof.
  rewrite post_cast_vote_commitments_unfold, !bind_gets.
  unfold bind. rewrite commit_races_eq. unfold cast_vote_commitments.
  destruct (races_commitments _ _ _ _ _); reflexivity.
Qed.

Lemma sbb_post_ok_inv lbl pl ts e e' :
  sbb_post lbl pl ts e = (Ok tt, e') -> posted e e' (Entry lbl pl ts).
Proof.
  unfold sbb_post, posted. destruct (sbb e) as [b|]; [|discriminate].
  destruct (sbb_closed b) eqn:Hc; [discriminate|]. intros H. inversion H.
  exists b. auto.
Qed.

Lemma sbb_post_ok lbl pl ts e b :
  sbb e = Some b -> sbb_closed b = false ->
  sbb_post lbl pl ts e =
    (Ok tt, set_sbb (Some (mkSBB (sbb_election_id b)
                            (sbb_entries b ++ [Entry lbl pl ts]) false)) e).
Proof. unfold sbb_post. intros -> ->. reflexivity. Qed.

(** What the dicts of commitments hold. *)
Lemma rows_commitments_lookup cvs race_id px rows : forall d d',
  rows_commitments cvs race_id px rows d = Ok d' ->
  forall i,
    (i ∈ rows -> exists record,
        commitment_record cvs race_id px i = Ok record /\ d' !! i = Some record) /\
    (i ∉ rows -> d' !! i = d !! i).
Proof.
  induction rows as [|j rest IH]; intros d d' H i; simpl in H.
  - inversion H; subst. split; [intros Hi; inversion Hi | reflexivity].
  - destruct (commitment_record cvs race_id px j) as [record|] eqn:Hrec; [|discriminate].
    simpl in H. destruct (IH _ _ H i) as [Hin Hout]. split.
    + intros Hi. destruct (decide (i ∈ rest)) as [Hrest|Hrest]; [auto|].
      apply elem_of_cons in Hi as [->|Hi]; [|contradiction].
      exists record. split; [exact Hrec|].
      rewrite Hout by exact Hrest. apply lookup_insert_eq.
    + intros Hi. apply not_elem_of_cons in Hi as [Hne Hrest].
      rewrite Hout by exact Hrest. apply lookup_insert_ne. congruence.
Qed.

Lemma positions_commitments_lookup cvs rows race_id positions : forall d d',
  positions_commitments cvs rows race_id positions d = Ok d' ->
  forall px,
    (px ∈ positions -> exists of_rows,
        rows_commitments cvs race_id px rows ∅ = Ok of_rows /\
        d' !! px = Some (PyDict of_rows)) /\
    (px ∉ positions -> d' !! px = d !! px).
Proof.
  induction positions as [|q rest IH]; intros d d' H px; simpl in H.
  - inversion H; subst. split; [intros Hi; inversion Hi | reflexivity].
  - destruct (rows_commitments cvs race_id q rows ∅) as [dr|] eqn:Hrec; [|discriminate].
    simpl in H. destruct (IH _ _ H px) as [Hin Hout]. split.
    + intros Hi. destruct (decide (px ∈ rest)) as [Hrest|Hrest]; [auto|].
      apply elem_of_cons in Hi as [->|Hi]; [|contradiction].
      exists dr. split; [exact Hrec|].
      rewrite Hout by exact Hrest. apply lookup_insert_eq.
    + intros Hi. apply not_elem_of_cons in Hi as [Hne Hrest].
      rewrite Hout by exact Hrest. apply lookup_insert_ne. congruence.
Qed.

Lemma races_commitments_lookup cvs positions rows races : forall d d',
  races_commitments cvs positions rows races d = Ok d' ->
  forall race_id,
    (race_id ∈ races -> exists of_positions,
        positions_commitments cvs rows race_id positions ∅ = Ok of_positions /\
        d' !! race_id = Some (PyDict of_positions)) /\
    (race_id ∉ races -> d' !! race_id = d !! race_id).
Proof.
  induction races as [|q rest IH]; intros d d' H race_id; simpl in H.
  - inversion H; subst. split; [intros Hi; inversion Hi | reflexivity].
  - destruct (positions_commitments cvs rows q positions ∅) as [dp|] eqn:Hrec;
      [|discriminate].
    simpl in H. destruct (IH _ _ H race_id) as [Hin Hout]. split.
    + intros Hi. destruct (decide (race_id ∈ rest)) as [Hrest|Hrest]; [auto|].
      apply elem_of_cons in Hi as [->|Hi]; [|contradiction].
      exists dp. split; [exact Hrec|].
      rewrite Hout by exact Hrest. apply lookup_insert_eq.
    + intros Hi. apply not_elem_of_cons in Hi as [Hne Hrest].
      rewrite Hout by exact Hrest. apply lookup_insert_ne. congruence.
Qed.

(** The commitments depend on the cast votes through the fields
    [ballot_id], [cu] and [cv] only. *)
Lemma rows_commitments_ext cvs1 cvs2 race_id px rows :
  (forall i field, i ∈ rows -> field ∈ ["ballot_id"; "cu"; "cv"] ->
     py_get_path cvs1 [Key race_id; Key px; Key i; Key field]
       = py_get_path cvs2 [Key race_id; Key px; Key i; Key field]) ->
  forall d, rows_commitments cvs1 race_id px rows d
            = rows_commitments cvs2 race_id px rows d.
Proof.
  induction rows as [|i rest IH]; intros Hext d; [reflexivity|].
  simpl. unfold commitment_record.
  rewrite (Hext i "ballot_id"), (Hext i "cu"), (Hext i "cv") by set_solver.
  destruct (py_get_path cvs2 _) as [b|]; [|reflexivity]. cbn [rbind].
  destruct (py_get_path cvs2 _) as [cu|]; [|reflexivity]. cbn [rbind].
  destruct (py_get_path cvs2 _) as [cv|]; [|reflexivity]. cbn [rbind].
  apply IH. intros j f Hj Hf. apply Hext; [right; exact Hj | exact Hf].
Qed.

Lemma positions_commitments_ext cvs1 cvs2 rows race_id positions :
  (forall px i field, px ∈ positions -> i ∈ rows ->
     field ∈ ["ballot_id"; "cu"; "cv"] ->
     py_get_path cvs1 [Key race_id; Key px; Key i; Key field]
       = py_get_path cvs2 [Key race_id; Key px; Key i; Key field]) ->
  forall d, positions_commitments cvs1 rows race_id positions d
            = positions_commitments cvs2 rows race_id positions d.
Proof.
  induction positions as [|px rest IH]; intros Hext d; [reflexivity|].
  simpl. rewrite (rows_commitments_ext cvs1 cvs2 race_id px rows).
  - destruct (rows_commitments cvs2 race_id px rows ∅); [|reflexivity]. cbn [rbind].
    apply IH. intros q j f Hq Hj Hf. apply Hext; [right; exact Hq | exact Hj | exact Hf].
  - intros j f Hj Hf. apply Hext; [left | exact Hj | exact Hf].
Qed.

Lemma races_commitments_ext cvs1 cvs2 positions rows races :
  (forall race_id px i field, race_id ∈ races -> px ∈ positions -> i ∈ rows ->
     field ∈ ["ballot_id"; "cu"; "cv"] ->
     py_get_path cvs1 [Key race_id; Key px; Key i; Key field]
       = py_get_path cvs2 [Key race_id; Key px; Key i; Key field]) ->
  forall d, races_commitments cvs1 positions rows races d
            = races_commitments cvs2 positions rows races d.
Proof.
  induction races as [|r rest IH]; intros Hext d; [reflexivity|].
  simpl. rewrite (positions_commitments_ext cvs1 cvs2 rows r positions).
  - destruct (positions_commitments cvs2 rows r positions ∅); [|reflexivity].
    cbn [rbind]. apply IH. intros q px j f Hq Hpx Hj Hf.
    apply Hext; [right; exact Hq | exact Hpx | exact Hj | exact Hf].
  - intros px j f Hpx Hj Hf. apply Hext; [left | exact Hpx | exact Hj | exact Hf].
Qed.

Lemma cast_vote_commitments_ext e1 e2 :
  same_commitments e1 e2 -> cast_vote_commitments e1 = cast_vote_commitments e2.
Proof.
  intros (H1 & H2 & H3 & Hext). unfold cast_vote_commitments.
  rewrite <- H1, <- H2, <- H3.
  rewrite (races_commitments_ext (cast_votes e1) (cast_votes e2)); [reflexivity|].
  exact Hext.
Qed.

(** Changing a secret field of a cast-vote record leaves the commitments
    as they are. *)
Lemma secret_change_same_commitments e race_id px i field value cvs' :
  field ∈ secret_fields ->
  py_assign_path (cast_votes e) [Key race_id; Key px; Key i] field value = Ok cvs' ->
  same_commitments e (set_cast_votes cvs' e).
Proof.
  intros Hsecret Hassign.
  assert (Hcv : cast_votes (set_cast_votes cvs' e) = cvs') by (destruct e; reflexivity).
  split; [destruct e; reflexivity|]. split; [destruct e; reflexivity|].
  split; [destruct e; reflexivity|].
  intros r q j f _ _ _ Hf. rewrite Hcv. symmetry.
  apply (py_get_path_assigned_apart _ _ _ _ _ _ Hassign). simpl.
  destruct (decide (race_id = r)) as [->|]; [right; split; [reflexivity|] | left; assumption].
  destruct (decide (px = q)) as [->|]; [right; split; [reflexivity|] | left; assumption].
  destruct (decide (i = j)) as [->|]; [right; split; [reflexivity|] | left; assumption].
  left. intros Heq. subst f.
  apply list_elem_of_In in Hsecret. apply list_elem_of_In in Hf.
  simpl in Hsecret, Hf. intuition (subst; discriminate).
Qed.

(** *** C4 *)

(** C4.  The payload posted under [casting:votes] is
    [{"cast_vote_dict": cvcs}] where [cvcs] holds, for every race id,
    position and server row, the record made of exactly the fields
    [ballot_id], [cu] and [cv] of the cast vote, and holds nothing else.  An
    election that differs in the other fields of the cast votes only posts
    the same entry; so does the election in which a secret field [x], [u],
    [v], [ru] or [rv] of a cast-vote record has been changed. *)
Theorem casting_votes_payload_is_commitments e e' :
  post_cast_vote_commitments e = (Ok tt, e') ->
  exists cvcs,
    posted e e' (Entry "casting:votes" (Some (PyDict {[ "cast_vote_dict" := cvcs ]})) false) /\
    (forall race_id px i,
       race_id ∈ race_ids e -> px ∈ p_list e -> i ∈ row_list (server e) ->
       exists ballot_id cu cv,
         py_get_path (cast_votes e) [Key race_id; Key px; Key i; Key "ballot_id"]
           = Ok ballot_id /\
         py_get_path (cast_votes e) [Key race_id; Key px; Key i; Key "cu"] = Ok cu /\
         py_get_path (cast_votes e) [Key race_id; Key px; Key i; Key "cv"] = Ok cv /\
         py_get_path cvcs [Key race_id; Key px; Key i]
           = Ok (PyDict {[ "ballot_id" := ballot_id; "cu" := cu; "cv" := cv ]})) /\
    (forall race_id px i record,
       py_get_path cvcs [Key race_id; Key px; Key i] = Ok record ->
       race_id ∈ race_ids e /\ px ∈ p_list e /\ i ∈ row_list (server e)) /\
    (forall e2,
       same_commitments e e2 -> sbb e2 = sbb e ->
       exists e2', post_cast_vote_commitments e2 = (Ok tt, e2') /\ sbb e2' = sbb e') /\
    (forall race_id px i field value cvs',
       field ∈ secret_fields ->
       py_assign_path (cast_votes e) [Key race_id; Key px; Key i] field value = Ok cvs' ->
       exists e2',
         post_cast_vote_commitments (set_cast_votes cvs' e) = (Ok tt, e2') /\
         sbb e2' = sbb e').
Proof.
  intros H. rewrite post_cast_vote_commitments_eq in H.
  destruct (cast_vote_commitments e) as [cvcs|] eqn:Hc; [|discriminate].
  exists cvcs. apply sbb_post_ok_inv in H as Hposted.
  assert (Hsame : forall e2, same_commitments e e2 -> sbb e2 = sbb e ->
            exists e2', post_cast_vote_commitments e2 = (Ok tt, e2') /\ sbb e2' = sbb e').
  { intros e2 Hs Hsbb. rewrite post_cast_vote_commitments_eq.
    rewrite <- (cast_vote_commitments_ext _ _ Hs), Hc.
    destruct Hposted as (b & Hb & Hopen & ->).
    rewrite (sbb_post_ok _ _ _ e2 b) by congruence.
    eexists. split; [reflexivity|]. destruct e, e2; reflexivity. }
  split; [exact Hposted|].
  unfold cast_vote_commitments in Hc.
  destruct (races_commitments _ _ _ _ _) as [D|] eqn:HD; [|discriminate].
  inversion Hc; subst cvcs. clear Hc.
  split; [|split; [|split]].
  - intros r px i Hr Hpx Hi.
    destruct (races_commitments_lookup _ _ _ _ _ _ HD r) as [Hin _].
    destruct (Hin Hr) as (Dp & HDp & Hlr).
    destruct (positions_commitments_lookup _ _ _ _ _ _ HDp px) as [Hin2 _].
    destruct (Hin2 Hpx) as (Dr & HDr & Hlp).
    destruct (rows_commitments_lookup _ _ _ _ _ _ HDr i) as [Hin3 _].
    destruct (Hin3 Hi) as (record & Hrec & Hli).
    unfold commitment_record in Hrec.
    destruct (py_get_path (cast_votes e) [Key r; Key px; Key i; Key "ballot_id"])
      as [b|]; [|discriminate]. cbn [rbind] in Hrec.
    destruct (py_get_path (cast_votes e) [Key r; Key px; Key i; Key "cu"])
      as [cu|]; [|discriminate]. cbn [rbind] in Hrec.
    destruct (py_get_path (cast_votes e) [Key r; Key px; Key i; Key "cv"])
      as [cv|]; [|discriminate]. cbn [rbind] in Hrec.
    exists b, cu, cv. repeat (split; [reflexivity|]).
    simpl. rewrite Hlr. simpl. rewrite Hlp. simpl. rewrite Hli. simpl.
    inversion Hrec. reflexivity.
  - intros r px i record Hget. simpl in Hget.
    destruct (races_commitments_lookup _ _ _ _ _ _ HD r) as [Hin Hout].
    destruct (decide (r ∈ race_ids e)) as [Hr|Hr];
      [|rewrite (Hout Hr), lookup_empty in Hget; discriminate].
    destruct (Hin Hr) as (Dp & HDp & Hlr). rewrite Hlr in Hget. simpl in Hget.
    destruct (positions_commitments_lookup _ _ _ _ _ _ HDp px) as [Hin2 Hout2].
    destruct (decide (px ∈ p_list e)) as [Hpx|Hpx];
      [|rewrite (Hout2 Hpx), lookup_empty in Hget; discriminate].
    destruct (Hin2 Hpx) as (Dr & HDr & Hlp). rewrite Hlp in Hget. simpl in Hget.
    destruct (rows_commitments_lookup _ _ _ _ _ _ HDr i) as [_ Hout3].
    destruct (decide (i ∈ row_list (server e))) as [Hi|Hi];
      [|rewrite (Hout3 Hi), lookup_empty in Hget; discriminate].
    auto.
  - exact Hsame.
  - intros r px i f v cvs' Hf Hassign.
    apply Hsame.
    + eapply secret_change_same_commitments; eassumption.
    + destruct e; reflexivity.
Qed.

(** ** [post_voter_receipts] *)

Lemma post_voter_receipts_unfold :
  post_voter_receipts =
    (let* voters := gets voters in
     let* receipts := for_acc voters ∅ copy_receipts in
     sbb_post "casting:receipts"
       (Some (PyDict {[ "receipt_dict" := PyDict receipts ]})) false).
Proof. reflexivity. Qed.

(** Copying the entries [l] of the dict [m], whose keys are distinct. *)
Lemma copy_entries_eq (m : gmap string pyval) (l : list (string * pyval)) :
  forall (receipts : gmap string pyval) e,
  NoDup l.*1 ->
  (forall k x, (k, x) ∈ l -> m !! k = Some x) ->
  for_acc l.*1 receipts (fun receipts ballot_id =>
      let* r := lift (py_getitem (PyDict m) (Key ballot_id)) in
      ret (<[ballot_id := r]> receipts)) e
    = (Ok (list_to_map l ∪ receipts), e).
Proof.
  induction l as [|[k x] l IH]; intros receipts e Hnd Hm.
  - simpl. unfold ret. rewrite (left_id_L ∅ (∪)). reflexivity.
  - simpl in Hnd. apply NoDup_cons in Hnd as [Hk Hnd].
    simpl fmap. rewrite for_acc_cons. unfold bind at 1.
    rewrite bind_lift. simpl py_getitem. rewrite (Hm k x) by left.
    unfold ret at 1. rewrite IH.
    + f_equal. f_equal. simpl.
      rewrite <- insert_union_r by (apply not_elem_of_list_to_map_1; exact Hk).
      rewrite insert_union_l. reflexivity.
    + exact Hnd.
    + intros k' x' Hin. apply Hm. right. exact Hin.
Qed.

Lemma copy_receipts_eq receipts voter e :
  copy_receipts receipts voter e = (Ok (v_receipts voter ∪ receipts), e).
Proof.
  unfold copy_receipts.
  rewrite (copy_entries_eq (v_receipts voter) (map_to_list (v_receipts voter))).
  - rewrite list_to_map_to_list. reflexivity.
  - apply NoDup_fst_map_to_list.
  - intros k x Hin. apply elem_of_map_to_list. exact Hin.
Qed.

Lemma copy_all_receipts_eq voters : forall receipts e,
  for_acc voters receipts copy_receipts e
    = (Ok (foldl (fun receipts voter => v_receipts voter ∪ receipts) receipts voters), e).
Proof.
  induction voters as [|v rest IH]; intros receipts e; [reflexivity|].
  rewrite for_acc_cons. unfold bind. rewrite copy_receipts_eq. apply IH.
Qed.

Lemma post_voter_receipts_eq e :
  post_voter_receipts e =
    sbb_post "casting:receipts"
      (Some (PyDict {[ "receipt_dict" := PyDict (merged_receipts (voters e)) ]}))
      false e.
Proof.
  rewrite post_voter_receipts_unfold, bind_gets. unfold bind.
  rewrite copy_all_receipts_eq. reflexivity.
Qed.

Lemma merged_receipts_lookup voters ballot_id : forall receipts,
  foldl (fun receipts voter => v_receipts voter ∪ receipts) receipts voters !! ballot_id
    = foldl (fun found voter =>
               match v_receipts voter !! ballot_id with
               | Some r => Some r
               | None => found
               end) (receipts !! ballot_id) voters.
Proof.
  induction voters as [|v rest IH]; intros receipts; [reflexivity|].
  simpl. rewrite IH. f_equal. rewrite lookup_union.
  destruct (v_receipts v !! ballot_id), (receipts !! ballot_id); reflexivity.
Qed.

Lemma last_receipt_none voters ballot_id : forall found,
  Forall (fun voter => v_receipts voter !! ballot_id = None) voters ->
  foldl (fun found voter =>
           match v_receipts voter !! ballot_id with
           | Some r => Some r
           | None => found
           end) found voters = found.
Proof.
  induction voters as [|v rest IH]; intros found Hall; [reflexivity|].
  apply Forall_cons in Hall as [Hv Hrest]. simpl. rewrite Hv. apply IH. exact Hrest.
Qed.

Lemma last_receipt_origin voters ballot_id r : forall found,
  foldl (fun found voter =>
           match v_receipts voter !! ballot_id with
           | Some r => Some r
           | None => found
           end) found voters = Some r ->
  found = Some r \/ exists voter, voter ∈ voters /\ v_receipts voter !! ballot_id = Some r.
Proof.
  induction voters as [|v rest IH]; intros found H; [left; exact H|].
  simpl in H. apply IH in H as [H | (v' & Hin & Hv')].
  - destruct (v_receipts v !! ballot_id) as [r'|] eqn:Hv; [|left; exact H].
    right. exists v. split; [left | congruence].
  - right. exists v'. split; [right; exact Hin | exact Hv'].
Qed.

Lemma last_receipt_distinct voters ballot_id voter r : forall found,
  distinct_ballot_ids voters ->
  voter ∈ voters -> v_receipts voter !! ballot_id = Some r ->
  foldl (fun found voter =>
           match v_receipts voter !! ballot_id with
           | Some r => Some r
           | None => found
           end) found voters = Some r.
Proof.
  induction voters as [|v rest IH]; intros found Hd Hin Hr; [inversion Hin|].
  destruct Hd as [Hv Hd]. simpl.
  apply elem_of_cons in Hin as [<- | Hin].
  - rewrite Hr. apply last_receipt_none.
    eapply Forall_impl; [exact Hv|]. intros v' Hdisj. simpl in Hdisj.
    eapply map_disjoint_Some_l; eassumption.
  - apply IH; assumption.
Qed.

Lemma merged_receipts_size voters : forall receipts,
  distinct_ballot_ids voters ->
  Forall (fun voter => receipts ##ₘ v_receipts voter) voters ->
  size (foldl (fun receipts voter => v_receipts voter ∪ receipts) receipts voters)
    = (size receipts + sum_list (size <$> (v_receipts <$> voters)))%nat.
Proof.
  induction voters as [|v rest IH]; intros receipts Hd Hall; simpl; [lia|].
  destruct Hd as [Hv Hd]. apply Forall_cons in Hall as [Hrv Hall].
  rewrite IH.
  - rewrite map_size_disj_union by (symmetry; exact Hrv). unfold fmap. lia.
  - exact Hd.
  - apply Forall_forall. intros v' Hin.
    apply map_disjoint_union_l. split.
    + rewrite Forall_forall in Hv. apply Hv. exact Hin.
    + rewrite Forall_forall in Hall. apply Hall. exact Hin.
Qed.

Lemma last_receipt_some voters ballot_id : forall voter found,
  voter ∈ voters -> is_Some (v_receipts voter !! ballot_id) ->
  is_Some (foldl (fun found voter =>
                    match v_receipts voter !! ballot_id with
                    | Some r => Some r
                    | None => found
                    end) found voters).
Proof.
  induction voters as [|v rest IH]; intros voter found Hin Hsome; [inversion Hin|].
  simpl. apply elem_of_cons in Hin as [<- | Hin].
  - destruct Hsome as [r Hr]. rewrite Hr.
    destruct (decide (Forall (fun v' => v_receipts v' !! ballot_id = None) rest))
      as [Hnone | Hnot].
    + rewrite last_receipt_none by exact Hnone. eauto.
    + apply not_Forall_Exists in Hnot; [|intros v'; apply _].
      apply Exists_exists in Hnot as (v' & Hin' & Hv').
      apply IH with (voter := v'); [exact Hin'|].
      simpl in Hv'. destruct (v_receipts v' !! ballot_id); [eauto | congruence].
  - apply IH with (voter := voter); assumption.
Qed.

(** *** C10 *)

(** C10 (as amended).  On an open board [post_voter_receipts] posts under
    [casting:receipts] a single dict, [{"receipt_dict": receipts}], whose
    keys are the ballot ids of the voters' receipts and which maps each of
    them to the receipt of the last voter (in the order of [self.voters])
    that has a receipt under it.  When no two voters have a ballot id in
    common, it maps every ballot id of every voter to that voter's receipt,
    and has exactly one entry per (voter, ballot id) pair. *)
Theorem receipts_posted_last_voter_wins e b :
  sbb e = Some b -> sbb_closed b = false ->
  exists e',
    post_voter_receipts e = (Ok tt, e') /\
    posted e e'
      (Entry "casting:receipts"
         (Some (PyDict {[ "receipt_dict" := PyDict (merged_receipts (voters e)) ]}))
         false) /\
    (forall ballot_id,
       merged_receipts (voters e) !! ballot_id = last_receipt (voters e) ballot_id) /\
    (forall ballot_id r,
       merged_receipts (voters e) !! ballot_id = Some r ->
       exists voter, voter ∈ voters e /\ v_receipts voter !! ballot_id = Some r) /\
    (forall voter ballot_id,
       voter ∈ voters e -> is_Some (v_receipts voter !! ballot_id) ->
       is_Some (merged_receipts (voters e) !! ballot_id)) /\
    (distinct_ballot_ids (voters e) ->
       (forall voter ballot_id r,
          voter ∈ voters e -> v_receipts voter !! ballot_id = Some r ->
          merged_receipts (voters e) !! ballot_id = Some r) /\
       size (merged_receipts (voters e))
         = sum_list (size <$> (v_receipts <$> voters e))).
Proof.
  intros Hb Hopen.
  assert (Hlookup : forall ballot_id,
            merged_receipts (voters e) !! ballot_id = last_receipt (voters e) ballot_id).
  { intros bid. unfold merged_receipts, last_receipt.
    rewrite merged_receipts_lookup, lookup_empty. reflexivity. }
  eexists. split.
  { rewrite post_voter_receipts_eq. apply (sbb_post_ok _ _ _ _ _ Hb Hopen). }
  split; [exists b; auto|].
  split; [exact Hlookup|].
  split.
  { intros bid r Hr. rewrite Hlookup in Hr.
    apply last_receipt_origin in Hr as [Hr | Hr]; [discriminate | exact Hr]. }
  split.
  { intros v bid Hin Hsome. rewrite Hlookup. eapply last_receipt_some; eassumption. }
  intros Hd. split.
  - intros v bid r Hin Hr. rewrite Hlookup.
    eapply last_receipt_distinct; eassumption.
  - unfold merged_receipts. rewrite merged_receipts_size.
    + rewrite map_size_empty. reflexivity.
    + exact Hd.
    + apply Forall_forall. intros v _. apply map_disjoint_empty_l.
Qed.

Lemma colliding_election_sbb :
  exists b, sbb colliding_election = Some b /\ sbb_closed b = false.
Proof. eexists. split; vm_compute; reflexivity. Defined.

Lemma receipts_posted_last_voter_wins_witness :
  exists e',
    post_voter_receipts colliding_election = (Ok tt, e') /\
    merged_receipts (voters colliding_election) !! "b"
      = last_receipt (voters colliding_election) "b".
Proof.
  destruct colliding_election_sbb as (b & Hb & Hopen).
  destruct (receipts_posted_last_voter_wins colliding_election b Hb Hopen)
    as (e' & Hrun & _ & Hlast & _).
  exists e'. split; [exact Hrun | apply Hlast].
Defined.

(** C10, counterexample.  With two voters that have a receipt under the
    same ballot id, the dict posted does not map the ballot id of the first
    voter to the receipt of the first voter. *)
Lemma receipts_collision_counterexample :
  exists e' receipts,
    post_voter_receipts colliding_election = (Ok tt, e') /\
    posted colliding_election e'
      (Entry "casting:receipts"
         (Some (PyDict {[ "receipt_dict" := PyDict receipts ]})) false) /\
    exists voter ballot_id r,
      voter ∈ voters colliding_election /\
      v_receipts voter !! ballot_id = Some r /\
      receipts !! ballot_id <> Some r.
Proof.
  destruct colliding_election_sbb as (b & Hb & Hopen).
  eexists _, (merged_receipts (voters colliding_election)).
  split; [rewrite post_voter_receipts_eq; apply (sbb_post_ok _ _ _ _ _ Hb Hopen)|].
  split; [exists b; auto|].
  exists (mkVoter "voter:0" "p0" {[ "b" := PyStr "receipt of voter 0" ]}),
    "b", (PyStr "receipt of voter 0").
  split; [left|]. split; [reflexivity|].
  vm_compute. discriminate.
Qed.

(** ** [setup_races] *)

Lemma remove_dups_length_le (l : list string) :
  (List.length (remove_dups l) <= List.length l)%nat.
Proof.
  induction l as [|x l IH]; simpl; [lia|].
  destruct (decide_rel elem_of x l); simpl; lia.
Qed.

(** [len(race_ids) == len(set(race_ids))] holds exactly when the race ids
    are distinct. *)
Lemma distinct_test (l : list string) :
  Nat.eqb (List.length l) (List.length (remove_dups l)) = true <-> NoDup l.
Proof.
  rewrite Nat.eqb_eq. induction l as [|x l IH]; simpl.
  - split; [constructor | reflexivity].
  - pose proof (remove_dups_length_le l) as Hle.
    destruct (decide_rel elem_of x l) as [Hin|Hnin]; simpl.
    + split; [lia|]. intros Hnd. apply NoDup_cons in Hnd as [Hnin _]. contradiction.
    + split.
      * intros H. apply NoDup_cons. split; [exact Hnin|]. apply IH. lia.
      * intros Hnd. apply NoDup_cons in Hnd as [_ Hnd]. apply IH in Hnd. lia.
Qed.

Lemma set_races_races x e : races (set_races x e) = x.
Proof. destruct e. reflexivity. Qed.

Lemma set_races_twice x y e : set_races y (set_races x e) = set_races y e.
Proof. destruct e. reflexivity. Qed.

Lemma set_races_id e : set_races (races e) e = e.
Proof. destruct e. reflexivity. Qed.

Section SetupRaces.

Context (m : Modules).

(** The loop of [setup_races] constructs the races in order and never
    fails. *)
Lemma construct_races_eq pairs : forall (race_dict : gmap string pyval) e,
  for_acc pairs race_dict (fun race_dict '(race_id, choices) =>
      let* race := gets (fun self => sv_race_Race m self race_id choices) in
      let* _ := modify (fun self => set_races (races self ++ [race]) self) in
      ret (<[race_id := PyDict {[ "choices" := r_choices race;
                                  "race_modulus" := r_race_modulus race ]}]> race_dict)) e
    = (Ok (race_dict_of pairs (races_created m pairs e) race_dict),
       set_races (races e ++ races_created m pairs e) e).
Proof.
  induction pairs as [|[race_id choices] rest IH]; intros race_dict e.
  - simpl. unfold ret. rewrite app_nil_r, set_races_id. reflexivity.
  - rewrite for_acc_cons. unfold bind at 1. rewrite bind_gets.
    unfold bind at 1, modify, ret at 1. rewrite IH. simpl.
    rewrite set_races_races, set_races_twice, <- app_assoc. reflexivity.
Qed.

Lemma races_created_length pairs : forall e,
  List.length (races_created m pairs e) = List.length pairs.
Proof.
  induction pairs as [|[race_id choices] rest IH]; intros e; simpl; [reflexivity|].
  rewrite IH. reflexivity.
Qed.

Lemma races_created_in_order pairs : forall e,
  Forall2 (fun race pair => exists self, race = sv_race_Race m self pair.1 pair.2)
    (races_created m pairs e) pairs.
Proof.
  induction pairs as [|[race_id choices] rest IH]; intros e; simpl; constructor.
  - exists e. reflexivity.
  - apply IH.
Qed.

(** Each race is constructed from the election that holds the races
    constructed before it, and that differs from the election at the start
    in nothing else. *)
Lemma races_created_selves pairs : forall e k race_id choices race,
  pairs !! k = Some (race_id, choices) ->
  races_created m pairs e !! k = Some race ->
  exists self,
    race = sv_race_Race m self race_id choices /\
    races self = (races e ++ take k (races_created m pairs e))%list /\
    set_races (races e) self = e.
Proof.
  induction pairs as [|[rid ch] rest IH]; intros e k race_id choices race Hk Hrace;
    [discriminate Hk|].
  destruct k as [|k]; simpl in Hk, Hrace.
  - inversion Hk; subst. inversion Hrace; subst. exists e.
    split; [reflexivity|]. split; [|apply set_races_id].
    simpl. rewrite app_nil_r. reflexivity.
  - destruct (IH _ k race_id choices race Hk Hrace) as (self & -> & Hraces & Hself).
    exists self. split; [reflexivity|].
    rewrite set_races_races in Hraces, Hself. split.
    + rewrite Hraces. simpl. rewrite <- app_assoc. reflexivity.
    + rewrite <- (set_races_twice (races e ++ [sv_race_Race m e rid ch]) (races e) self).
      rewrite Hself. rewrite set_races_twice. apply set_races_id.
Qed.

(** *** C6 *)

(** C6.  For every ballot style (a sequence of [(race_id, choices)] pairs)
    whose list of race ids contains a duplicate, [setup_races] fails on its
    assertion and leaves the election as it is: no race has been constructed
    and nothing has been posted.  For every ballot style with pairwise
    distinct race ids the check passes, one race per pair is constructed and
    appended to [self.races] in the order of the ballot style, the race of
    the [k]-th pair being constructed from the election that holds the races
    before it; whatever the posting does then, [self.races] holds the races
    it held followed by the new ones, and on an open board [setup_races]
    returns normally, having posted them under [setup:races]. *)
Theorem setup_races_checks_distinct_race_ids ballot_style pairs e :
  race_pairs ballot_style = Ok pairs ->
  (~ NoDup pairs.*1 ->
     setup_races m ballot_style e = (Err (Exn AssertionError None), e)) /\
  (NoDup pairs.*1 ->
     let created := races_created m pairs e in
     setup_races m ballot_style e =
       sbb_post "setup:races"
         (Some (PyDict {[ "ballot_style_race_dict" :=
                            PyDict (race_dict_of pairs created ∅) ]})) false
         (set_races (races e ++ created) e) /\
     List.length created = List.length pairs /\
     Forall2 (fun race pair => exists self, race = sv_race_Race m self pair.1 pair.2)
       created pairs /\
     (forall k race_id choices race,
        pairs !! k = Some (race_id, choices) -> created !! k = Some race ->
        exists self,
          race = sv_race_Race m self race_id choices /\
          races self = (races e ++ take k created)%list) /\
     (forall r e',
        setup_races m ballot_style e = (r, e') ->
        races e' = (races e ++ created)%list) /\
     (sbb_open e = true ->
        exists e',
          setup_races m ballot_style e = (Ok tt, e') /\
          races e' = (races e ++ created)%list /\
          sbb_labels e' = (sbb_labels e ++ ["setup:races"])%list)).
Proof.
  intros Hpairs. split.
  - intros Hdup. unfold setup_races. rewrite bind_lift, Hpairs. unfold bind at 1.
    destruct (Nat.eqb _ _) eqn:Htest; [|reflexivity].
    apply distinct_test in Htest. contradiction.
  - intros Hnd created.
    assert (Hrun : setup_races m ballot_style e =
              sbb_post "setup:races"
                (Some (PyDict {[ "ballot_style_race_dict" :=
                                   PyDict (race_dict_of pairs created ∅) ]})) false
                (set_races (races e ++ created) e)).
    { unfold setup_races. rewrite bind_lift, Hpairs.
      apply distinct_test in Hnd.
      unfold bind at 1. rewrite Hnd. simpl assert_. unfold ret at 1.
      unfold bind at 1. rewrite construct_races_eq. reflexivity. }
    split; [exact Hrun|].
    split; [apply races_created_length|].
    split; [apply races_created_in_order|].
    split; [|split].
    + intros k rid ch race Hk Hrace.
      destruct (races_created_selves pairs e k rid ch race Hk Hrace)
        as (self & Hself & Hraces & _).
      exists self. split; assumption.
    + intros r e' H. rewrite Hrun in H. unfold sbb_post in H.
      destruct (sbb (set_races (races e ++ created) e)) as [b|];
        [destruct (sbb_closed b)|];
        inversion H; subst; destruct e; reflexivity.
    + intros Hopen. unfold sbb_open in Hopen.
      destruct (sbb e) as [b|] eqn:Hb; [|discriminate Hopen].
      destruct (sbb_closed b) eqn:Hclosed; [discriminate Hopen|].
      assert (Hb' : sbb (set_races (races e ++ created) e) = Some b)
        by (destruct e; exact Hb).
      eexists. split; [|split].
      * rewrite Hrun. apply (sbb_post_ok _ _ _ _ _ Hb' Hclosed).
      * destruct e; reflexivity.
      * unfold sbb_labels. destruct e; simpl in *. rewrite Hb.
        simpl. rewrite fmap_app. reflexivity.
Qed.

End SetupRaces.

Lemma S1_race_pairs :
  race_pairs (PyList [PyTuple [PyStr "P"; PyTuple [PyStr "A"; PyStr "B"]]])
    = Ok [("P", PyTuple [PyStr "A"; PyStr "B"])].
Proof. reflexivity. Defined.

Lemma two_race_pairs :
  race_pairs two_race_ballot_style
    = Ok [("P", PyTuple [PyStr "A"; PyStr "B"]); ("Q", PyTuple [PyStr "Y"; PyStr "N"])].
Proof. reflexivity. Defined.

Lemma duplicate_race_pairs :
  race_pairs duplicate_race_ballot_style
    = Ok [("P", PyTuple [PyStr "A"; PyStr "B"]); ("P", PyTuple [PyStr "Y"; PyStr "N"])].
Proof. reflexivity. Defined.

(** On an open board, [setup_races] with the races [P] and [Q] returns
    normally and the election then holds these two races in this order;
    with the race [P] twice it fails on its assertion and leaves the
    election untouched. *)
Lemma setup_races_checks_distinct_race_ids_witness :
  (exists e',
     setup_races Demo.modules two_race_ballot_style open_board_election = (Ok tt, e') /\
     races e' = [ mkRace "P" (PyTuple [PyStr "A"; PyStr "B"]) (PyInt 257);
                  mkRace "Q" (PyTuple [PyStr "Y"; PyStr "N"]) (PyInt 257) ] /\
     sbb_labels e' = ["setup:races"]) /\
  setup_races Demo.modules duplicate_race_ballot_style open_board_election
    = (Err (Exn AssertionError None), open_board_election).
Proof.
  split.
  - destruct (setup_races_checks_distinct_race_ids Demo.modules _ _ open_board_election
                two_race_pairs) as [_ H].
    assert (Hnd : NoDup [("P", PyTuple [PyStr "A"; PyStr "B"]);
                         ("Q", PyTuple [PyStr "Y"; PyStr "N"])].*1).
    { simpl. apply NoDup_cons. split.
      - intros Hin. apply list_elem_of_In in Hin. simpl in Hin.
        destruct Hin as [Heq|[]]. discriminate Heq.
      - apply NoDup_cons. split; [intros Hin; inversion Hin | constructor]. }
    destruct (H Hnd) as (_ & _ & _ & _ & _ & Hopen).
    destruct (Hopen eq_refl) as (e' & Hrun & Hraces & Hlabels).
    exists e'. split; [exact Hrun|]. split; [exact Hraces | exact Hlabels].
  - destruct (setup_races_checks_distinct_race_ids Demo.modules _ _ open_board_election
                duplicate_race_pairs) as [H _].
    apply H. simpl. intros Hnd. apply NoDup_cons in Hnd as [Hnot _].
    apply Hnot. left.
Defined.

(** ** The postings of the methods *)

Lemma sbb_appends_refl e : sbb_appends e e [].
Proof. split; [rewrite app_nil_r; reflexivity | reflexivity]. Qed.

Lemma sbb_appends_trans e1 e2 e3 l1 l2 :
  sbb_appends e1 e2 l1 -> sbb_appends e2 e3 l2 -> sbb_appends e1 e3 (l1 ++ l2).
Proof.
  intros [H1 O1] [H2 O2]. split; [|congruence].
  rewrite H2, H1, app_assoc. reflexivity.
Qed.

Lemma sbb_appends_same_sbb e e' : sbb e' = sbb e -> sbb_appends e e' [].
Proof.
  intros H. unfold sbb_appends, sbb_labels, sbb_open. rewrite H, app_nil_r. auto.
Qed.

Lemma emits_bind {A B} (c : M A) (k : A -> M B) l1 l2 :
  emits c l1 -> (forall a, emits (k a) l2) -> emits (bind c k) (l1 ++ l2).
Proof.
  intros Hc Hk e b e' H. apply bind_ok_inv in H as (a & e1 & H1 & H2).
  eapply sbb_appends_trans; [eapply Hc | eapply Hk]; eassumption.
Qed.

Lemma emits_silent_then {A B} (c : M A) (k : A -> M B) l :
  emits c [] -> (forall a, emits (k a) l) -> emits (bind c k) l.
Proof. intros Hc Hk. apply (emits_bind c k [] l Hc Hk). Qed.

Lemma emits_ret {A} (a : A) : emits (ret a) [].
Proof. intros e b e' H. apply ret_ok_inv in H as [_ ->]. apply sbb_appends_refl. Qed.

Lemma emits_gets {A} (f : Election -> A) : emits (gets f) [].
Proof. intros e b e' H. apply gets_ok_inv in H as [_ ->]. apply sbb_appends_refl. Qed.

Lemma emits_lift {A} (r : result A) : emits (lift r) [].
Proof. intros e b e' H. apply lift_ok_inv in H as [_ ->]. apply sbb_appends_refl. Qed.

Lemma emits_assert cond : emits (assert_ cond) [].
Proof. intros e b e' H. apply assert_ok_inv in H as [_ ->]. apply sbb_appends_refl. Qed.

Lemma emits_modify (f : Election -> Election) :
  (forall e, sbb (f e) = sbb e) -> emits (modify f) [].
Proof.
  intros Hf e b e' H. apply modify_ok_inv in H as ->.
  apply sbb_appends_same_sbb. apply Hf.
Qed.

Lemma emits_for_each {A} (l : list A) (body : A -> M unit) :
  (forall a, emits (body a) []) -> emits (for_each l body) [].
Proof.
  intros Hbody. induction l as [|a l IH]; [apply emits_ret|].
  rewrite for_each_cons. apply emits_silent_then; [apply Hbody | intros _; exact IH].
Qed.

Lemma emits_for_acc {A B} (l : list A) (body : B -> A -> M B) :
  (forall acc a, emits (body acc a) []) -> forall acc, emits (for_acc l acc body) [].
Proof.
  intros Hbody. induction l as [|a l IH]; intros acc; [apply emits_ret|].
  rewrite for_acc_cons. apply emits_silent_then; [apply Hbody | intros acc'; apply IH].
Qed.

Lemma emits_sbb_post lbl pl ts : emits (sbb_post lbl pl ts) [lbl].
Proof.
  intros e [] e' H. apply sbb_post_ok_inv in H as (b & Hb & Hopen & ->).
  unfold sbb_appends, sbb_labels, sbb_open. rewrite Hb.
  destruct e; simpl in *. rewrite fmap_app, Hopen. auto.
Qed.

(** Steps that post nothing, closed by the rules above. *)
Ltac emits_silent :=
  repeat first
    [ apply emits_ret | apply emits_gets | apply emits_lift | apply emits_assert
    | apply emits_modify; intros []; reflexivity
    | apply emits_for_each; intros ?
    | apply emits_for_acc; intros ? ?
    | apply emits_silent_then; [|intros ?] ].

Lemma emits_initialize_cast_votes : emits initialize_cast_votes [].
Proof. unfold initialize_cast_votes. emits_silent. Qed.

Lemma emits_distribute_cast_votes : emits distribute_cast_votes [].
Proof. unfold distribute_cast_votes, sdbp_assign, set_sdb. emits_silent. Qed.

Lemma emits_post_cast_vote_commitments :
  emits post_cast_vote_commitments ["casting:votes"].
Proof.
  unfold post_cast_vote_commitments, copy_commitment.
  emits_silent. apply emits_sbb_post.
Qed.

Lemma emits_post_voter_receipts : emits post_voter_receipts ["casting:receipts"].
Proof. unfold post_voter_receipts. emits_silent. apply emits_sbb_post. Qed.

Section Postings.

Context (m : Modules).

Lemma emits_setup_races ballot_style : emits (setup_races m ballot_style) ["setup:races"].
Proof.
  unfold setup_races. emits_silent.
  - destruct a1 as [race_id choices]. emits_silent.
  - apply emits_sbb_post.
Qed.

Lemma emits_setup_voters n_voters : emits (setup_voters m n_voters) ["setup:voters"].
Proof. unfold setup_voters. emits_silent. apply emits_sbb_post. Qed.

Lemma emits_post_election_done : emits post_election_done ["election:done."].
Proof. unfold post_election_done. emits_silent. apply emits_sbb_post. Qed.

Lemma run_election_is_run_steps e :
  run_election m e = run_steps (run_election_steps m) e.
Proof.
  unfold run_election, run_election_steps, run_steps, cast_all_votes,
    post_election_done.
  unfold bind, gets, ret.
  repeat match goal with
  | |- context [match ?c ?s with _ => _ end] =>
      lazymatch c with
      | context [match _ with _ => _ end] => fail
      | _ => destruct (c s) as [[[]|?] ?]
      end
  end; reflexivity.
Qed.

End Postings.

(** *** C1 *)

Section LabelOrder.

Context (m : Modules) (contract : posting_contract m).

Lemma emits_cast_all_votes : emits (cast_all_votes m) [].
Proof.
  unfold cast_all_votes. emits_silent. apply (cast_vote_posts_nothing m contract).
Qed.

(** The rest of [__init__] starts the board and posts the four [setup:]
    entries. *)
Lemma start_election_labels locals e e' :
  start_election m locals e = (Ok tt, e') ->
  sbb_labels e' = ["setup:start"; "setup:races"; "setup:voters"; "setup:finished"] /\
  sbb_open e' = true.
Proof.
  destruct locals as [[[[eid bs] nv] nf] nl]. unfold start_election. intros H.
  apply bind_ok_inv in H as ([] & e1 & H1 & H).
  apply modify_ok_inv in H1 as ->.
  assert (Hemit : forall c : M unit,
            c = (let* _ := sbb_post "setup:start"
                   (Some (PyDict {[ "about" := PyList (PyStr <$> about_text);
                                    "election_id" := eid;
                                    "legend" := PyList (PyStr <$> legend_text) ]})) true in
                 let* _ := modify (set_races []) in
                 let* pairs := lift (race_pairs bs) in
                 let* _ := modify (set_race_ids pairs.*1) in
                 let* _ := setup_races m bs in
                 let* _ := modify (set_voters []) in
                 let* _ := modify (set_voter_ids []) in
                 let* _ := setup_voters m nv in
                 let* _ := modify (set_cast_votes (PyDict ∅)) in
                 let* server := sv_server_Server m nf nl in
                 let* _ := modify (set_server server) in
                 let* _ := modify (set_output_commitments (PyDict ∅)) in
                 let* _ := setup_keys in
                 sbb_post "setup:finished" None true) ->
            emits c (["setup:start"] ++ ["setup:races"] ++ ["setup:voters"]
                     ++ ["setup:finished"])).
  { intros c ->.
    apply emits_bind; [apply emits_sbb_post | intros _].
    do 3 (apply emits_silent_then; [emits_silent | intros ?]).
    apply emits_bind; [apply emits_setup_races | intros _].
    do 2 (apply emits_silent_then; [emits_silent | intros ?]).
    apply emits_bind; [apply emits_setup_voters | intros _].
    apply emits_silent_then; [emits_silent | intros ?].
    apply emits_silent_then; [apply (Server_posts_nothing m contract) | intros ?].
    do 3 (apply emits_silent_then; [emits_silent | intros ?]).
    apply emits_sbb_post. }
  destruct (Hemit _ eq_refl _ _ _ H) as [Hlabels Hopen].
  rewrite Hlabels, Hopen. destruct e; split; reflexivity.
Qed.

Lemma Election_init_labels params e0 e' :
  Election_init m params e0 = (Ok tt, e') ->
  sbb_labels e' = ["setup:start"; "setup:races"; "setup:voters"; "setup:finished"] /\
  sbb_open e' = true.
Proof.
  unfold Election_init. intros H.
  apply bind_ok_inv in H as (locals & e1 & _ & H).
  eapply start_election_labels. exact H.
Qed.

(** What [run_election] posts when it returns, and the board is closed. *)
Lemma run_election_labels e e' :
  sbb_open e = true ->
  run_election m e = (Ok tt, e') ->
  exists mix_labels,
    Forall is_mix_label mix_labels /\
    sbb_labels e' =
      (sbb_labels e ++ ["casting:votes"; "casting:receipts"] ++ mix_labels
         ++ ["tally"; "proof:icl"; "proof:opl"; "election:done."])%list /\
    sbb_open e' = false.
Proof.
  intros Hopen H. rewrite run_election_is_run_steps in H.
  unfold run_election_steps, run_steps in H.
  apply bind_ok_inv in H as ([] & e1 & H1 & H).
  apply emits_initialize_cast_votes in H1 as [L1 O1].
  apply bind_ok_inv in H as ([] & e2 & H2 & H).
  apply emits_cast_all_votes in H2 as [L2 O2].
  apply bind_ok_inv in H as ([] & e3 & H3 & H).
  apply emits_distribute_cast_votes in H3 as [L3 O3].
  apply bind_ok_inv in H as ([] & e4 & H4 & H).
  apply emits_post_cast_vote_commitments in H4 as [L4 O4].
  apply bind_ok_inv in H as ([] & e5 & H5 & H).
  apply emits_post_voter_receipts in H5 as [L5 O5].
  apply bind_ok_inv in H as ([] & e6 & H6 & H).
  apply (mix_posts_mix_records m contract) in H6 as (mix_labels & Hmix & L6 & O6).
  apply bind_ok_inv in H as ([] & e7 & H7 & H).
  apply (compute_tally_posts_nothing m contract) in H7 as [L7 O7].
  apply bind_ok_inv in H as ([] & e8 & H8 & H).
  apply (post_tally_posts_tally m contract) in H8 as [L8 O8].
  apply bind_ok_inv in H as ([] & e9 & H9 & H).
  apply (print_tally_posts_nothing m contract) in H9 as [L9 O9].
  apply bind_ok_inv in H as ([] & e10 & H10 & H).
  apply (make_proof_posts_proof m contract) in H10 as [L10 O10].
  apply bind_ok_inv in H as ([] & e11 & H11 & H).
  apply emits_post_election_done in H11 as [L11 O11].
  apply bind_ok_inv in H as ([] & e12 & H12 & H).
  apply ret_ok_inv in H as [_ ->].
  unfold sbb_close in H12. destruct (sbb e11) as [b|] eqn:Hb; [|discriminate].
  inversion H12; subst e12. clear H12.
  exists mix_labels. split; [exact Hmix|]. split.
  - replace (sbb_labels (set_sbb (Some (mkSBB (sbb_election_id b) (sbb_entries b) true)) e11))
      with (sbb_labels e11) by (unfold sbb_labels; rewrite Hb; destruct e11; reflexivity).
    rewrite L11, L10, L9, L8, L7, L6, L5, L4, L3, L2, L1.
    rewrite !app_nil_r, <- !app_assoc. reflexivity.
  - destruct e11; reflexivity.
Qed.

(** C1.  For every complete run ([__init__], then [run_election], both
    returning normally) the labels on the bulletin board are, in this order:
    [setup:start], [setup:races], [setup:voters], [setup:finished],
    [casting:votes], [casting:receipts], the records of the mix, [tally],
    [proof:icl], [proof:opl] and [election:done.], which is the last entry;
    and the board is closed. *)
Theorem complete_run_label_order params e1 e2 :
  Election_init m params new_Election = (Ok tt, e1) ->
  run_election m e1 = (Ok tt, e2) ->
  exists mix_labels,
    Forall is_mix_label mix_labels /\
    sbb_labels e2 =
      (["setup:start"; "setup:races"; "setup:voters"; "setup:finished";
        "casting:votes"; "casting:receipts"] ++ mix_labels
        ++ ["tally"; "proof:icl"; "proof:opl"; "election:done."])%list /\
    (exists b, sbb e2 = Some b /\ sbb_closed b = true).
Proof.
  intros Hinit Hrun.
  apply Election_init_labels in Hinit as [Hlabels Hopen].
  destruct (run_election_labels e1 e2 Hopen Hrun) as (mix_labels & Hmix & Hl & Hclosed).
  exists mix_labels. split; [exact Hmix|]. split.
  - rewrite Hl, Hlabels. reflexivity.
  - rewrite Hlabels in Hl. unfold sbb_open in Hclosed. unfold sbb_labels in Hl.
    destruct (sbb e2) as [b|]; [|discriminate Hl].
    exists b. split; [reflexivity|]. destruct (sbb_closed b); [reflexivity|discriminate].
Qed.

End LabelOrder.

(** ** Steps of any outcome *)

Section StepsIn.

Context (R : Election -> Election -> Prop).
Hypothesis R_refl : forall e, R e e.
Hypothesis R_trans : forall e1 e2 e3, R e1 e2 -> R e2 e3 -> R e1 e3.

Lemma steps_in_bind {A B} (c : M A) (k : A -> M B) :
  steps_in R c -> (forall a, steps_in R (k a)) -> steps_in R (bind c k).
Proof.
  intros Hc Hk e r e' H. unfold bind in H.
  destruct (c e) as [[a|x] e1] eqn:Hce.
  - eapply R_trans; [eapply Hc; exact Hce | eapply Hk; exact H].
  - inversion H; subst. eapply Hc. exact Hce.
Qed.

Lemma steps_in_ret {A} (a : A) : steps_in R (ret a).
Proof. intros e r e' H. inversion H. apply R_refl. Qed.

Lemma steps_in_raise {A} x : steps_in R (@raise A x).
Proof. intros e r e' H. inversion H. apply R_refl. Qed.

Lemma steps_in_gets {A} (f : Election -> A) : steps_in R (gets f).
Proof. intros e r e' H. inversion H. apply R_refl. Qed.

Lemma steps_in_lift {A} (r : result A) : steps_in R (lift r).
Proof. intros e r' e' H. inversion H. apply R_refl. Qed.

Lemma steps_in_assert cond : steps_in R (assert_ cond).
Proof. intros e r e' H. destruct cond; inversion H; apply R_refl. Qed.

Lemma steps_in_modify (f : Election -> Election) :
  (forall e, R e (f e)) -> steps_in R (modify f).
Proof. intros Hf e r e' H. inversion H. apply Hf. Qed.

Lemma steps_in_for_each {A} (l : list A) (body : A -> M unit) :
  (forall a, steps_in R (body a)) -> steps_in R (for_each l body).
Proof.
  intros Hbody. induction l as [|a l IH]; [apply steps_in_ret|].
  rewrite for_each_cons. apply steps_in_bind; [apply Hbody | intros _; exact IH].
Qed.

Lemma steps_in_for_acc {A B} (l : list A) (body : B -> A -> M B) :
  (forall acc a, steps_in R (body acc a)) ->
  forall acc, steps_in R (for_acc l acc body).
Proof.
  intros Hbody. induction l as [|a l IH]; intros acc; [apply steps_in_ret|].
  rewrite for_acc_cons. apply steps_in_bind; [apply Hbody | intros acc'; apply IH].
Qed.

Lemma steps_in_run_steps (steps : list (M unit)) :
  Forall (steps_in R) steps -> steps_in R (run_steps steps).
Proof.
  induction 1 as [|c rest Hc _ IH]; [apply steps_in_ret|].
  simpl. apply steps_in_bind; [exact Hc | intros _; exact IH].
Qed.

End StepsIn.

Lemma same_sbb_refl e : same_sbb e e.
Proof. reflexivity. Qed.

Lemma same_sbb_trans e1 e2 e3 : same_sbb e1 e2 -> same_sbb e2 e3 -> same_sbb e1 e3.
Proof. unfold same_sbb. congruence. Qed.

Lemma no_aborted_refl e : no_aborted_entry_added e e.
Proof. intros H. exact H. Qed.

Lemma no_aborted_trans e1 e2 e3 :
  no_aborted_entry_added e1 e2 -> no_aborted_entry_added e2 e3 ->
  no_aborted_entry_added e1 e3.
Proof. unfold no_aborted_entry_added. auto. Qed.

Lemma same_sbb_no_aborted e e' : same_sbb e e' -> no_aborted_entry_added e e'.
Proof.
  unfold same_sbb, no_aborted_entry_added, sbb_labels. intros ->. auto.
Qed.

Lemma steps_in_weaken {A} (R R' : Election -> Election -> Prop) (c : M A) :
  (forall e e', R e e' -> R' e e') -> steps_in R c -> steps_in R' c.
Proof. intros Himp Hc e r e' H. apply Himp. eapply Hc. exact H. Qed.

(** A posting under another label adds no [election:aborted] entry. *)
Lemma sbb_post_no_aborted lbl pl ts :
  lbl <> "election:aborted" -> steps_in no_aborted_entry_added (sbb_post lbl pl ts).
Proof.
  intros Hne e r e' H. unfold sbb_post in H.
  destruct (sbb e) as [b|] eqn:Hb; [|inversion H; apply no_aborted_refl].
  destruct (sbb_closed b); inversion H; [apply no_aborted_refl|].
  unfold no_aborted_entry_added, sbb_labels. rewrite Hb.
  destruct e; simpl in *. rewrite fmap_app, elem_of_app. simpl.
  intros [Hin | Hin]; [exact Hin|].
  apply list_elem_of_singleton in Hin. congruence.
Qed.

Lemma sbb_close_no_aborted : steps_in no_aborted_entry_added sbb_close.
Proof.
  intros e r e' H. unfold sbb_close in H.
  destruct (sbb e) as [b|] eqn:Hb; inversion H; [|apply no_aborted_refl].
  unfold no_aborted_entry_added, sbb_labels. rewrite Hb. destruct e; simpl. auto.
Qed.

(** Steps that leave the board as it is. *)
Ltac steps_same_sbb :=
  repeat first
    [ apply (steps_in_ret same_sbb same_sbb_refl)
    | apply (steps_in_raise same_sbb same_sbb_refl)
    | apply (steps_in_gets same_sbb same_sbb_refl)
    | apply (steps_in_lift same_sbb same_sbb_refl)
    | apply (steps_in_assert same_sbb same_sbb_refl)
    | apply (steps_in_modify same_sbb); intros []; reflexivity
    | apply (steps_in_for_each same_sbb same_sbb_refl same_sbb_trans); intros ?
    | apply (steps_in_for_acc same_sbb same_sbb_refl same_sbb_trans); intros ? ?
    | apply (steps_in_bind same_sbb same_sbb_trans); [|intros ?] ].

Lemma initialize_cast_votes_same_sbb : steps_in same_sbb initialize_cast_votes.
Proof. unfold initialize_cast_votes. steps_same_sbb. Qed.

Lemma distribute_cast_votes_same_sbb : steps_in same_sbb distribute_cast_votes.
Proof. unfold distribute_cast_votes, sdbp_assign, set_sdb. steps_same_sbb. Qed.

(** Steps that add no [election:aborted] entry. *)
Ltac no_aborted_step :=
  first
    [ apply (steps_in_weaken same_sbb _ _ same_sbb_no_aborted); steps_same_sbb; fail
    | apply sbb_post_no_aborted; discriminate
    | apply sbb_close_no_aborted
    | apply (steps_in_for_each _ no_aborted_refl no_aborted_trans); intros ?
    | apply (steps_in_for_acc _ no_aborted_refl no_aborted_trans); intros ? ?
    | apply (steps_in_bind _ no_aborted_trans); [|intros ?] ].

Ltac steps_no_aborted := repeat no_aborted_step.

Lemma post_cast_vote_commitments_no_aborted :
  steps_in no_aborted_entry_added post_cast_vote_commitments.
Proof. unfold post_cast_vote_commitments, copy_commitment. steps_no_aborted. Qed.

Lemma post_voter_receipts_no_aborted :
  steps_in no_aborted_entry_added post_voter_receipts.
Proof. unfold post_voter_receipts. steps_no_aborted. Qed.

(** The first exception ends a run of statements: the statements before
    it have returned normally, the statement that raised it has left the
    final state, and the statements after it have not run. *)
Lemma run_steps_err_inv steps : forall e x e',
  run_steps steps e = (Err x, e') ->
  exists done t rest e1,
    steps = (done ++ t :: rest)%list /\
    run_steps done e = (Ok tt, e1) /\
    t e1 = (Err x, e').
Proof.
  induction steps as [|c steps IH]; intros e x e' H; [discriminate H|].
  simpl in H. apply bind_err_inv in H as [H | ([] & e1 & H1 & H)].
  - exists [], c, steps, e. repeat split. exact H.
  - destruct (IH _ _ _ H) as (done & t & rest & e2 & -> & Hdone & Ht).
    exists (c :: done), t, rest, e2. split; [reflexivity|]. split; [|exact Ht].
    simpl. rewrite (bind_ok _ _ _ _ _ H1). exact Hdone.
Qed.

Section Errors.

Context (m : Modules) (no_aborted : modules_post_no_aborted_entry m).

Lemma setup_races_no_aborted ballot_style :
  steps_in no_aborted_entry_added (setup_races m ballot_style).
Proof.
  unfold setup_races. steps_no_aborted.
  destruct a1 as [race_id choices].
  apply (steps_in_weaken same_sbb _ _ same_sbb_no_aborted). steps_same_sbb.
Qed.

Lemma setup_voters_no_aborted n_voters :
  steps_in no_aborted_entry_added (setup_voters m n_voters).
Proof. unfold setup_voters. steps_no_aborted. Qed.

Lemma check_and_save_parameters_same_sbb params :
  steps_in same_sbb (check_and_save_parameters m params).
Proof. unfold check_and_save_parameters, sv_set_json_indent. steps_same_sbb. Qed.

Lemma Election_init_no_aborted params e r e' :
  Election_init m params e = (r, e') ->
  "election:aborted" ∉ sbb_labels e -> "election:aborted" ∉ sbb_labels e'.
Proof.
  intros H Hnot Hin. apply Hnot. revert Hin.
  change (no_aborted_entry_added e e'). clear Hnot. revert e r e' H.
  change (steps_in no_aborted_entry_added (Election_init m params)).
  unfold Election_init.
  apply (steps_in_bind _ no_aborted_trans).
  { apply (steps_in_weaken same_sbb _ _ same_sbb_no_aborted).
    apply check_and_save_parameters_same_sbb. }
  intros [[[[eid bs] nv] nf] nl]. unfold start_election.
  apply (steps_in_bind _ no_aborted_trans).
  { apply steps_in_modify. intros e Hin. destruct e; simpl in Hin.
    inversion Hin. }
  intros _.
  repeat first
    [ apply setup_races_no_aborted
    | apply setup_voters_no_aborted
    | apply (Server_no_aborted m no_aborted)
    | no_aborted_step ].
Qed.

Lemma run_election_steps_no_aborted :
  Forall (steps_in no_aborted_entry_added) (run_election_steps m).
Proof.
  unfold run_election_steps. repeat apply Forall_cons_2; [..|apply Forall_nil_2].
  - apply (steps_in_weaken same_sbb _ _ same_sbb_no_aborted).
    apply initialize_cast_votes_same_sbb.
  - unfold cast_all_votes. steps_no_aborted.
    apply (cast_vote_no_aborted m no_aborted).
  - apply (steps_in_weaken same_sbb _ _ same_sbb_no_aborted).
    apply distribute_cast_votes_same_sbb.
  - apply post_cast_vote_commitments_no_aborted.
  - apply post_voter_receipts_no_aborted.
  - apply (mix_no_aborted m no_aborted).
  - apply (compute_tally_no_aborted m no_aborted).
  - apply (post_tally_no_aborted m no_aborted).
  - apply (print_tally_no_aborted m no_aborted).
  - apply (make_proof_no_aborted m no_aborted).
  - unfold post_election_done. steps_no_aborted.
  - apply sbb_close_no_aborted.
Qed.

(** *** C3 *)

(** C3 (as amended).  An error raised during an election run aborts the
    run: the statements of [run_election] before it have returned normally,
    the statement that raised it has left the final state, no later
    statement has run, and the error reaches the caller as it was raised.
    The orchestrator writes no [election:aborted] entry, neither in
    [run_election] nor in [__init__]: the bulletin board is left as it was
    when the error was raised. *)
Theorem error_aborts_run_without_aborted_entry :
  (forall e x e',
     run_election m e = (Err x, e') ->
     (exists done t rest e1,
        run_election_steps m = (done ++ t :: rest)%list /\
        run_steps done e = (Ok tt, e1) /\
        t e1 = (Err x, e')) /\
     ("election:aborted" ∉ sbb_labels e -> "election:aborted" ∉ sbb_labels e')) /\
  (forall params x e',
     Election_init m params new_Election = (Err x, e') ->
     "election:aborted" ∉ sbb_labels e').
Proof.
  split.
  - intros e x e' H. rewrite run_election_is_run_steps in H. split.
    + apply run_steps_err_inv. exact H.
    + intros Hnot Hin. apply Hnot. revert Hin.
      eapply (steps_in_run_steps _ no_aborted_refl no_aborted_trans);
        [apply run_election_steps_no_aborted | exact H].
  - intros params x e' H. eapply Election_init_no_aborted; [exact H|].
    intros Hin. inversion Hin.
Qed.

End Errors.

(** ** Runs of scenario S1 *)

Lemma Demo_posting_contract : posting_contract Demo.modules.
Proof.
  constructor; simpl.
  - intros nf nl. unfold Demo.new_Server. emits_silent.
  - intros vi race. unfold Demo.cast_vote.
    apply emits_silent_then; [emits_silent | intros all].
    destruct (all !! vi) as [voter|].
    + emits_silent.
    + intros e a e' H. discriminate H.
  - intros e e' H. exists ["mix:columns"; "mix:passes"]. split.
    + repeat constructor.
    + revert H. apply (emits_bind _ _ ["mix:columns"] ["mix:passes"]).
      * apply emits_sbb_post.
      * intros _. apply emits_sbb_post.
  - apply emits_ret.
  - apply emits_sbb_post.
  - apply emits_ret.
  - apply (emits_bind _ _ ["proof:icl"] ["proof:opl"]).
    + apply emits_sbb_post.
    + intros _. apply emits_sbb_post.
Qed.

Lemma complete_run_label_order_witness :
  Election_init Demo.modules Demo.S1_parameters new_Election = (Ok tt, Demo.S1_election) /\
  run_election Demo.modules Demo.S1_election = (Ok tt, S1_done) /\
  exists mix_labels,
    Forall is_mix_label mix_labels /\
    sbb_labels S1_done =
      (["setup:start"; "setup:races"; "setup:voters"; "setup:finished";
        "casting:votes"; "casting:receipts"] ++ mix_labels
        ++ ["tally"; "proof:icl"; "proof:opl"; "election:done."])%list /\
    (exists b, sbb S1_done = Some b /\ sbb_closed b = true).
Proof.
  assert (H1 : Election_init Demo.modules Demo.S1_parameters new_Election
               = (Ok tt, Demo.S1_election)) by (vm_compute; reflexivity).
  assert (H2 : run_election Demo.modules Demo.S1_election = (Ok tt, S1_done))
    by (vm_compute; reflexivity).
  split; [exact H1|]. split; [exact H2|].
  exact (complete_run_label_order Demo.modules Demo_posting_contract
           Demo.S1_parameters Demo.S1_election S1_done H1 H2).
Defined.

Lemma distribute_cast_votes_fills_column_0_witness :
  distribute_cast_votes S1_votes_cast
    = (Ok tt, snd (distribute_cast_votes S1_votes_cast)) /\
  exists x,
    py_get_path (cast_votes S1_votes_cast) [Key "P"; Key "p1"; Key "b"; Key "u"] = Ok x /\
    py_get_path (sdb (server (snd (distribute_cast_votes S1_votes_cast))))
      [Key "P"; Key "b"; Index 0; Key "u"; Key "p1"] = Ok x.
Proof.
  assert (H : distribute_cast_votes S1_votes_cast
              = (Ok tt, snd (distribute_cast_votes S1_votes_cast)))
    by (vm_compute; reflexivity).
  split; [exact H|].
  destruct (distribute_cast_votes_fills_column_0 _ _ H) as [Hall _].
  apply Hall; apply list_elem_of_In; vm_compute; auto.
Defined.

Lemma casting_votes_payload_is_commitments_witness :
  post_cast_vote_commitments S1_votes_cast
    = (Ok tt, snd (post_cast_vote_commitments S1_votes_cast)) /\
  exists cvcs,
    posted S1_votes_cast (snd (post_cast_vote_commitments S1_votes_cast))
      (Entry "casting:votes" (Some (PyDict {[ "cast_vote_dict" := cvcs ]})) false).
Proof.
  assert (H : post_cast_vote_commitments S1_votes_cast
              = (Ok tt, snd (post_cast_vote_commitments S1_votes_cast)))
    by (vm_compute; reflexivity).
  split; [exact H|].
  destruct (casting_votes_payload_is_commitments _ _ H) as (cvcs & Hposted & _).
  exists cvcs. exact Hposted.
Defined.

(** ** Failing runs *)

Lemma rng_failure_modules_post_no_aborted_entry :
  modules_post_no_aborted_entry DemoFailures.rng_failure_modules.
Proof.
  constructor; simpl.
  - intros nf nl. unfold Demo.new_Server. steps_no_aborted.
  - intros vi race. apply (steps_in_raise _ no_aborted_refl).
  - steps_no_aborted.
  - steps_no_aborted.
  - steps_no_aborted.
  - steps_no_aborted.
  - steps_no_aborted.
Qed.

Lemma error_aborts_run_without_aborted_entry_witness :
  run_election DemoFailures.rng_failure_modules S1_election_rng_failure
    = (Err (Exn RngFailure None),
       snd (run_election DemoFailures.rng_failure_modules S1_election_rng_failure)) /\
  "election:aborted"
    ∉ sbb_labels (snd (run_election DemoFailures.rng_failure_modules
                         S1_election_rng_failure)).
Proof.
  assert (H : run_election DemoFailures.rng_failure_modules S1_election_rng_failure
              = (Err (Exn RngFailure None),
                 snd (run_election DemoFailures.rng_failure_modules
                        S1_election_rng_failure)))
    by (vm_compute; reflexivity).
  split; [exact H|].
  destruct (error_aborts_run_without_aborted_entry _
              rng_failure_modules_post_no_aborted_entry) as [Hrun _].
  destruct (Hrun _ _ _ H) as [_ Hnot]. apply Hnot.
  intros Hin. apply list_elem_of_In in Hin. vm_compute in Hin.
  intuition discriminate.
Defined.

(** C3, counterexample.  With the race [P] twice on the ballot, [__init__]
    fails on the assertion of [setup_races] while the bulletin board is
    open; with an entropy source that fails, [run_election] fails with
    [RngFailure] while the board is open.  In both cases the board holds no
    [election:aborted] entry: it holds the entries posted before the error
    and nothing else. *)
Lemma no_aborted_entry_counterexample :
  (exists e',
     Election_init Demo.modules DemoFailures.duplicate_race_parameters new_Election
       = (Err (Exn AssertionError None), e') /\
     sbb_open e' = true /\
     sbb_labels e' = ["setup:start"] /\
     "election:aborted" ∉ sbb_labels e') /\
  (exists e',
     run_election DemoFailures.rng_failure_modules S1_election_rng_failure
       = (Err (Exn RngFailure None), e') /\
     sbb_open e' = true /\
     sbb_labels e' = ["setup:start"; "setup:races"; "setup:voters"; "setup:finished"] /\
     "election:aborted" ∉ sbb_labels e').
Proof.
  split.
  - exists (snd (Election_init Demo.modules DemoFailures.duplicate_race_parameters
                   new_Election)).
    split; [vm_compute; reflexivity|]. split; [vm_compute; reflexivity|].
    split; [vm_compute; reflexivity|].
    intros Hin. apply list_elem_of_In in Hin. vm_compute in Hin. intuition discriminate.
  - exists (snd (run_election DemoFailures.rng_failure_modules S1_election_rng_failure)).
    split; [vm_compute; reflexivity|]. split; [vm_compute; reflexivity|].
    split; [vm_compute; reflexivity|].
    intros Hin. apply list_elem_of_In in Hin. vm_compute in Hin. intuition discriminate.
Qed.

(** ** [__init__] on a valid configuration *)

Lemma succeeds_bind {A B} P (c : M A) Q1 (k : A -> M B) Q2 :
  succeeds P c Q1 -> (forall a, succeeds (Q1 a) (k a) Q2) -> succeeds P (bind c k) Q2.
Proof.
  intros Hc Hk e HP. destruct (Hc e HP) as (a & e1 & H1 & HQ1).
  destruct (Hk a e1 HQ1) as (b & e2 & H2 & HQ2).
  exists b, e2. split; [|exact HQ2]. rewrite (bind_ok _ _ _ _ _ H1). exact H2.
Qed.

Lemma succeeds_ret {A} (P : Election -> Prop) (a : A) : succeeds P (ret a) (fun _ => P).
Proof. intros e HP. exists a, e. auto. Qed.

Lemma succeeds_gets {A} (P : Election -> Prop) (f : Election -> A) :
  succeeds P (gets f) (fun _ => P).
Proof. intros e HP. exists (f e), e. auto. Qed.

Lemma succeeds_modify (P Q : Election -> Prop) (f : Election -> Election) :
  (forall e, P e -> Q (f e)) -> succeeds P (modify f) (fun _ => Q).
Proof. intros Hf e HP. exists tt, (f e). auto. Qed.

Lemma succeeds_lift {A} (P : Election -> Prop) (r : result A) a :
  r = Ok a -> succeeds P (lift r) (fun a' e => a' = a /\ P e).
Proof. intros -> e HP. exists a, e. auto. Qed.

Lemma succeeds_assert (P : Election -> Prop) cond :
  cond = true -> succeeds P (assert_ cond) (fun _ => P).
Proof. intros -> e HP. exists tt, e. auto. Qed.

Lemma succeeds_for_each {A} (P : Election -> Prop) (l : list A) (body : A -> M unit) :
  (forall a, a ∈ l -> succeeds P (body a) (fun _ => P)) ->
  succeeds P (for_each l body) (fun _ => P).
Proof.
  induction l as [|a l IH]; intros Hbody; [apply succeeds_ret|].
  rewrite for_each_cons. eapply succeeds_bind; [apply Hbody; left|].
  intros ?. apply IH. intros b Hb. apply Hbody. right. exact Hb.
Qed.

Lemma sbb_open_inv e :
  sbb_open e = true -> exists b, sbb e = Some b /\ sbb_closed b = false.
Proof.
  unfold sbb_open. destruct (sbb e) as [b|]; [|discriminate].
  destruct (sbb_closed b) eqn:Hc; [discriminate|]. intros _.
  exists b. split; [reflexivity | exact Hc].
Qed.

Lemma succeeds_sbb_post positions lbl pl ts :
  succeeds (open_with_positions positions) (sbb_post lbl pl ts)
    (fun _ => open_with_positions positions).
Proof.
  intros e [Hopen Hp]. apply sbb_open_inv in Hopen as (b & Hb & Hc).
  eexists tt, _. split; [apply (sbb_post_ok _ _ _ _ _ Hb Hc)|].
  destruct e; split; [reflexivity | exact Hp].
Qed.

Section ValidConfig.

Context (m : Modules) (setup : setup_contract m).

(** [setup_races] on a ballot style with distinct race ids. *)
Lemma setup_races_distinct ballot_style pairs e :
  race_pairs ballot_style = Ok pairs -> NoDup pairs.*1 ->
  setup_races m ballot_style e =
    sbb_post "setup:races"
      (Some (PyDict {[ "ballot_style_race_dict" :=
                         PyDict (race_dict_of pairs (races_created m pairs e) ∅) ]}))
      false (set_races (races e ++ races_created m pairs e) e).
Proof.
  intros Hpairs Hnd. unfold setup_races. rewrite bind_lift, Hpairs.
  apply distinct_test in Hnd.
  unfold bind at 1. rewrite Hnd. simpl assert_. unfold ret at 1.
  unfold bind at 1. rewrite construct_races_eq. reflexivity.
Qed.

Lemma succeeds_setup_races positions ballot_style pairs :
  race_pairs ballot_style = Ok pairs -> NoDup pairs.*1 ->
  succeeds (open_with_positions positions) (setup_races m ballot_style)
    (fun _ => open_with_positions positions).
Proof.
  intros Hpairs Hnd e HP. rewrite (setup_races_distinct _ _ _ Hpairs Hnd).
  apply succeeds_sbb_post. destruct e, HP. split; assumption.
Qed.

Lemma succeeds_setup_voters positions n_voters z :
  py_int n_voters = Some z -> 0 < z -> (Z.to_nat z <= List.length positions)%nat ->
  succeeds (open_with_positions positions) (setup_voters m n_voters)
    (fun _ => open_with_positions positions).
Proof.
  intros Hz Hpos Hlen. unfold setup_voters.
  eapply succeeds_bind.
  { apply succeeds_assert. rewrite Hz. lia. }
  intros ?. eapply succeeds_bind.
  { apply succeeds_lift. unfold py_range. rewrite Hz. reflexivity. }
  intros indices e [-> HP]. revert e HP.
  apply succeeds_bind with (Q1 := fun _ => open_with_positions positions);
    [|intros ?; eapply succeeds_bind;
        [apply succeeds_gets | intros ?; apply succeeds_sbb_post]].
  apply succeeds_for_each. intros i Hi.
  apply elem_of_seq in Hi as [_ Hi]. simpl in Hi.
  eapply succeeds_bind.
  { apply succeeds_modify with (Q := open_with_positions positions).
    intros [] H. exact H. }
  intros ? e [Hopen Hp].
  destruct (lookup_lt_is_Some_2 positions i) as [px Hpx]; [lia|].
  unfold bind at 1, gets. rewrite Hp. unfold bind at 1, lift. rewrite Hpx.
  unfold bind at 1. eexists tt, _. split; [reflexivity|].
  destruct e; split; assumption.
Qed.

(** The rest of [__init__] on a valid configuration. *)
Lemma succeeds_start_election eid bs nv nf nl pairs z :
  race_pairs bs = Ok pairs -> NoDup pairs.*1 ->
  py_int nv = Some z -> 0 < z ->
  is_nonnegative_int nf -> is_nonnegative_int nl ->
  succeeds (fun e => p_list e = sv_p_list m nv)
    (start_election m (eid, bs, nv, nf, nl)) (fun _ e => sbb_open e = true).
Proof.
  intros Hpairs Hnd Hz Hpos Hnf Hnl. unfold start_election.
  set (positions := sv_p_list m nv).
  assert (Hlen : (Z.to_nat z <= List.length positions)%nat).
  { unfold positions. rewrite (p_list_length m setup _ _ Hz). lia. }
  eapply succeeds_bind.
  { apply succeeds_modify with (Q := open_with_positions positions).
    intros [] H. split; [reflexivity | exact H]. }
  intros ?. eapply succeeds_bind; [apply succeeds_sbb_post|].
  intros ?. eapply succeeds_bind.
  { apply succeeds_modify with (Q := open_with_positions positions).
    intros [] H. exact H. }
  intros ?. eapply succeeds_bind; [apply succeeds_lift; exact Hpairs|].
  intros pairs' e [-> HP]. revert e HP. eapply succeeds_bind.
  { apply succeeds_modify with (Q := open_with_positions positions).
    intros [] H. exact H. }
  intros ?. eapply succeeds_bind; [eapply succeeds_setup_races; eassumption|].
  intros ?. eapply succeeds_bind.
  { apply succeeds_modify with (Q := open_with_positions positions).
    intros [] H. exact H. }
  intros ?. eapply succeeds_bind.
  { apply succeeds_modify with (Q := open_with_positions positions).
    intros [] H. exact H. }
  intros ?. eapply succeeds_bind; [eapply succeeds_setup_voters; eassumption|].
  intros ?. eapply succeeds_bind.
  { apply succeeds_modify with (Q := open_with_positions positions).
    intros [] H. exact H. }
  intros ? e [Hopen _].
  destruct (Server_returns m setup nf nl e Hnf Hnl) as (server & e1 & Hs & Hsbb).
  rewrite (bind_ok _ _ _ _ _ Hs).
  assert (Hopen1 : sbb_open e1 = true) by (unfold sbb_open in *; rewrite Hsbb; exact Hopen).
  apply sbb_open_inv in Hopen1 as (b & Hb & Hc).
  unfold bind, modify, setup_keys, ret.
  erewrite sbb_post_ok; [|destruct e1; simpl in *; exact Hb | exact Hc].
  eexists tt, _. split; [reflexivity|]. destruct e1; reflexivity.
Qed.

End ValidConfig.

(** *** C2 *)

(** C2 (as amended).  For every configuration with the six mandatory
    parameters in which [election_id] is not a non-empty string, or
    [ballot_style] is not a non-empty list, or [n_voters] is not a positive
    int, or [n_reps] is not a positive even int at most 26, or [n_fail] or
    [n_leak] is a negative int, or [ballot_id_len] is a number that is not
    positive (an int being an instance of Python's [int], a bool included),
    [__init__] fails fast: it raises an [AssertionError], which carries no
    message, before the bulletin board is created.  With a valid
    configuration (moreover the ballot style is a list of pairs with unique
    race ids) [__init__] returns normally. *)
Theorem invalid_config_fails_assertion (m : Modules) (setup : setup_contract m) params :
  (config_invalid params ->
     exists e',
       Election_init m params new_Election = (Err (Exn AssertionError None), e') /\
       sbb e' = None) /\
  (config_valid params ->
     exists e', Election_init m params new_Election = (Ok tt, e')).
Proof.
  split.
  - intros Hinvalid.
    destruct (check_and_save_parameters_invalid m params new_Election Hinvalid)
      as (e & Hrun & Hsbb).
    exists e. split; [|exact Hsbb].
    unfold Election_init. apply bind_err. exact Hrun.
  - intros [Hchecked (bs' & pairs & Hbs' & Hpairs & Hnd)].
    destruct (check_and_save_parameters_valid m params new_Election Hchecked)
      as (eid & bs & nv & nr & nf & nl & Hp & Hrun).
    destruct Hchecked as (eid' & bs'' & nv' & nr' & nf' & nl' & Hp' & _ & _ & V3 & _
                          & V5 & V6 & _).
    destruct Hp as (P1 & P2 & P3 & P4 & P5 & P6).
    destruct Hp' as (P1' & P2' & P3' & P4' & P5' & P6').
    assert (bs' = bs) by congruence. assert (nv' = nv) by congruence.
    assert (nf' = nf) by congruence. assert (nl' = nl) by congruence. subst.
    destruct V3 as (z & Hz & Hpos).
    unfold Election_init. rewrite (bind_ok _ _ _ _ _ Hrun).
    match goal with
    | |- exists e', start_election _ _ ?e0 = _ =>
        destruct (succeeds_start_election m setup eid bs nv nf nl pairs z
                    Hpairs Hnd Hz Hpos V5 V6 e0 eq_refl) as ([] & e' & Hstart & _)
    end.
    exists e'. exact Hstart.
Qed.

Lemma Demo_setup_contract : setup_contract Demo.modules.
Proof.
  constructor; simpl.
  - intros v z Hz. unfold Demo.p_list_of. rewrite Hz, length_fmap, length_seq.
    reflexivity.
  - intros nf nl e _ _. unfold Demo.new_Server. eexists _, _. split; reflexivity.
Qed.

Lemma empty_id_parameters_invalid : config_invalid DemoFailures.empty_id_parameters.
Proof.
  exists (PyStr ""), (PyList [PyTuple [PyStr "P"; PyTuple [PyStr "A"; PyStr "B"]]]),
    (PyInt 2), (PyInt 2), (PyInt 0), (PyInt 0).
  split; [repeat split; vm_compute; reflexivity|].
  left. intros (s & Heq & Hne). inversion Heq. congruence.
Defined.

Lemma S1_parameters_valid : config_valid Demo.S1_parameters.
Proof.
  split.
  - exists (PyStr "E1"), (PyList [PyTuple [PyStr "P"; PyTuple [PyStr "A"; PyStr "B"]]]),
      (PyInt 2), (PyInt 2), (PyInt 0), (PyInt 0).
    split; [exact S1_mandatory_parameters|].
    split; [exists "E1"; split; [reflexivity | discriminate]|].
    split; [eexists; split; [reflexivity | discriminate]|].
    split; [exists 2; split; [reflexivity | lia]|].
    split; [exists 2; split; [reflexivity | split; [lia | reflexivity]]|].
    split; [exists 0; split; [reflexivity | lia]|].
    split; [exists 0; split; [reflexivity | lia]|].
    exists 32. split; [reflexivity | lia].
  - exists (PyList [PyTuple [PyStr "P"; PyTuple [PyStr "A"; PyStr "B"]]]),
      [("P", PyTuple [PyStr "A"; PyStr "B"])].
    split; [vm_compute; reflexivity|]. split; [reflexivity|].
    repeat constructor. intros Hin. inversion Hin.
Defined.

Lemma invalid_config_fails_assertion_witness :
  (exists e',
     Election_init Demo.modules DemoFailures.empty_id_parameters new_Election
       = (Err (Exn AssertionError None), e') /\
     sbb e' = None) /\
  (exists e', Election_init Demo.modules Demo.S1_parameters new_Election = (Ok tt, e')).
Proof.
  split.
  - apply (invalid_config_fails_assertion Demo.modules Demo_setup_contract
             DemoFailures.empty_id_parameters).
    exact empty_id_parameters_invalid.
  - apply (invalid_config_fails_assertion Demo.modules Demo_setup_contract
             Demo.S1_parameters).
    exact S1_parameters_valid.
Defined.

(** C2, counterexample.  With an empty [election_id] the configuration is
    invalid, and [__init__] raises an [AssertionError] without a message: it
    does not fail with the error kind [ConfigInvalid] and a reason. *)
Lemma invalid_config_not_ConfigInvalid_counterexample :
  config_invalid DemoFailures.empty_id_parameters /\
  (exists e',
     Election_init Demo.modules DemoFailures.empty_id_parameters new_Election
       = (Err (Exn AssertionError None), e')) /\
  ~ (exists reason e',
       Election_init Demo.modules DemoFailures.empty_id_parameters new_Election
         = (Err (Exn ConfigInvalid (Some reason)), e')).
Proof.
  assert (H : fst (Election_init Demo.modules DemoFailures.empty_id_parameters
                     new_Election) = Err (Exn AssertionError None))
    by (vm_compute; reflexivity).
  split; [exact empty_id_parameters_invalid|]. split.
  - exists (snd (Election_init Demo.modules DemoFailures.empty_id_parameters
                   new_Election)).
    rewrite <- H. apply surjective_pairing.
  - intros (reason & e' & Hrun). rewrite Hrun in H. discriminate H.
Qed.

(** ** The transitions of the state machine *)

(** *** C9 *)

(** C9 (as amended).  The statements of [run_election] run strictly one
    after the other, each from the state its predecessor has left.  Of the
    orchestrator's transitions, SetupRaces, SetupVoters, PostCommitments,
    PostReceipts and the last posting each perform exactly one posting when
    they return ([setup:races], [setup:voters], [casting:votes],
    [casting:receipts], [election:done.]), while SetupKeys, the
    initialisation of the cast votes and DistributeToGrid perform no posting:
    they leave the bulletin board as it is. *)
Theorem transitions_post_or_leave_the_board (m : Modules) :
  (forall e, run_election m e = run_steps (run_election_steps m) e) /\
  (forall ballot_style, emits (setup_races m ballot_style) ["setup:races"]) /\
  (forall n_voters, emits (setup_voters m n_voters) ["setup:voters"]) /\
  emits post_cast_vote_commitments ["casting:votes"] /\
  emits post_voter_receipts ["casting:receipts"] /\
  emits post_election_done ["election:done."] /\
  (forall e, setup_keys e = (Ok tt, e)) /\
  steps_in same_sbb initialize_cast_votes /\
  steps_in same_sbb distribute_cast_votes.
Proof.
  split; [apply run_election_is_run_steps|].
  split; [apply emits_setup_races|].
  split; [apply emits_setup_voters|].
  split; [apply emits_post_cast_vote_commitments|].
  split; [apply emits_post_voter_receipts|].
  split; [apply emits_post_election_done|].
  split; [reflexivity|].
  split; [apply initialize_cast_votes_same_sbb | apply distribute_cast_votes_same_sbb].
Qed.

Lemma transitions_post_or_leave_the_board_witness :
  post_voter_receipts S1_votes_cast = (Ok tt, snd (post_voter_receipts S1_votes_cast)) /\
  sbb_appends S1_votes_cast (snd (post_voter_receipts S1_votes_cast))
    ["casting:receipts"].
Proof.
  assert (H : post_voter_receipts S1_votes_cast
              = (Ok tt, snd (post_voter_receipts S1_votes_cast)))
    by (vm_compute; reflexivity).
  split; [exact H|].
  destruct (transitions_post_or_leave_the_board Demo.modules)
    as (_ & _ & _ & _ & Hreceipts & _).
  exact (Hreceipts _ _ _ H).
Defined.

(** C9, counterexample.  On the open board of scenario S1 the transition
    SetupKeys returns without a posting, and so does DistributeToGrid once
    the votes have been cast: the board holds the same entries after as
    before. *)
Lemma setup_keys_posts_nothing_counterexample :
  (sbb_open Demo.S1_election = true /\
   exists e',
     setup_keys Demo.S1_election = (Ok tt, e') /\
     sbb_labels e' = sbb_labels Demo.S1_election) /\
  (sbb_open S1_votes_cast = true /\
   exists e',
     distribute_cast_votes S1_votes_cast = (Ok tt, e') /\
     sbb_labels e' = sbb_labels S1_votes_cast).
Proof.
  split.
  - split; [vm_compute; reflexivity|].
    exists Demo.S1_election. split; reflexivity.
  - split; [vm_compute; reflexivity|].
    exists (snd (distribute_cast_votes S1_votes_cast)).
    split; vm_compute; reflexivity.
Qed.

(** * Further properties *)

(** ** [initialize_cast_votes] *)

Lemma dict_of_keys_lookup value keys : forall d k,
  dict_of_keys value keys d !! k
    = if decide (k ∈ keys) then Some (value k) else d !! k.
Proof.
  induction keys as [|k0 rest IH]; intros d k; simpl.
  - destruct (decide (k ∈ [])) as [Hin|]; [inversion Hin | reflexivity].
  - unfold dict_of_keys in *. simpl. rewrite IH.
    destruct (decide (k ∈ rest)) as [Hrest|Hrest].
    + rewrite decide_True by (right; exact Hrest). reflexivity.
    + destruct (decide (k = k0)) as [->|Hne].
      * rewrite decide_True by left. apply lookup_insert_eq.
      * rewrite decide_False by (intros Hin; apply elem_of_cons in Hin; tauto).
        apply lookup_insert_ne. congruence.
Qed.

Lemma initialize_positions_eq race_id p_list : forall acc d e,
  py_get_path acc [Key race_id] = Ok (PyDict d) ->
  for_acc p_list acc (fun cvs px =>
      lift (py_assign_path cvs [Key race_id] px (PyDict ∅))) e
    = (py_assign_path acc [] race_id
         (PyDict (dict_of_keys (fun _ => PyDict ∅) p_list d)), e).
Proof.
  induction p_list as [|px rest IH]; intros acc d e Hacc.
  - simpl. unfold ret. f_equal. symmetry. apply (py_assign_path_id []). exact Hacc.
  - rewrite for_acc_cons.
    destruct (py_assign_field [] acc race_id d px (PyDict ∅) Hacc)
      as (acc1 & H1 & _ & Hget1 & Hput1).
    simpl app in *. rewrite bind_lift, H1.
    rewrite (IH acc1 (<[px := PyDict ∅]> d) e Hget1).
    f_equal. apply Hput1.
Qed.

Lemma initialize_races_eq race_ids : forall d e,
  for_acc race_ids (PyDict d) (fun cvs race_id =>
      let* cvs := lift (py_assign_path cvs [] race_id (PyDict ∅)) in
      let* positions := gets p_list in
      for_acc positions cvs (fun cvs px =>
        lift (py_assign_path cvs [Key race_id] px (PyDict ∅)))) e
    = (Ok (PyDict (dict_of_keys
                     (fun _ => PyDict (dict_of_keys (fun _ => PyDict ∅) (p_list e) ∅))
                     race_ids d)), e).
Proof.
  induction race_ids as [|r rest IH]; intros d e; [reflexivity|].
  rewrite for_acc_cons. unfold bind at 1. rewrite bind_lift.
  cbn [py_assign_path py_setitem]. rewrite bind_gets.
  rewrite (initialize_positions_eq r (p_list e) _ ∅).
  - cbn [py_assign_path py_setitem]. rewrite insert_insert_eq. apply IH.
  - simpl. rewrite lookup_insert_eq. reflexivity.
Qed.

Lemma initialize_cast_votes_eq e :
  initialize_cast_votes e
    = (Ok tt, set_cast_votes (empty_cast_votes (race_ids e) (p_list e)) e).
Proof.
  unfold initialize_cast_votes. rewrite bind_gets. unfold bind at 1.
  rewrite initialize_races_eq. reflexivity.
Qed.

Lemma empty_cast_votes_slots race_ids p_list race_id px :
  py_get_path (empty_cast_votes race_ids p_list) [Key race_id; Key px]
    = if decide (race_id ∈ race_ids /\ px ∈ p_list)
      then Ok (PyDict ∅)
      else Err (Exn KeyError (Some (if decide (race_id ∈ race_ids)
                                    then px else race_id))).
Proof.
  unfold empty_cast_votes. simpl.
  rewrite dict_of_keys_lookup.
  destruct (decide (race_id ∈ race_ids)) as [Hr|Hr].
  - simpl. rewrite dict_of_keys_lookup.
    destruct (decide (px ∈ p_list)) as [Hp|Hp].
    + rewrite decide_True by (split; assumption). reflexivity.
    + rewrite decide_False by tauto. rewrite lookup_empty. reflexivity.
  - rewrite decide_False by tauto. rewrite lookup_empty. reflexivity.
Qed.

(** X1. [initialize_cast_votes] always returns; it replaces the cast votes,
    whatever they were, by a dict that holds an empty dict at every race id
    and position of the election and nothing at any other place, and it
    changes no other attribute of the election. *)
Theorem initialize_cast_votes_empty_slots e :
  exists cvs,
    initialize_cast_votes e = (Ok tt, set_cast_votes cvs e) /\
    forall race_id px,
      py_get_path cvs [Key race_id; Key px]
        = if decide (race_id ∈ race_ids e /\ px ∈ p_list e)
          then Ok (PyDict ∅)
          else Err (Exn KeyError (Some (if decide (race_id ∈ race_ids e)
                                        then px else race_id))).
Proof.
  exists (empty_cast_votes (race_ids e) (p_list e)).
  split; [apply initialize_cast_votes_eq|].
  intros race_id px. apply empty_cast_votes_slots.
Qed.

(** ** The parameters of [__init__] *)

(** X2. [__init__] reads the mandatory parameters in a fixed order; when
    one of them is missing and those before it are present, it raises a
    [KeyError] that names the missing key, and all it has done by then is
    save the parameter dict: nothing is checked and no board is made. *)
Theorem Election_init_missing_parameter (m : Modules) params e0 before key after :
  mandatory_keys = (before ++ key :: after)%list ->
  (forall k, k ∈ before -> is_Some (params !! k)) ->
  params !! key = None ->
  Election_init m params e0
    = (Err (Exn KeyError (Some key)), set_election_parameters params e0).
Proof.
  intros Hsplit Hbefore Hkey.
  unfold Election_init. apply bind_err.
  unfold mandatory_keys in Hsplit.
  unfold check_and_save_parameters, bind, modify, lift.
  cbn [py_getitem].
  do 6 (destruct before as [|k0 before]; simpl in Hsplit;
    [ inversion Hsplit; subst; rewrite Hkey; reflexivity
    | injection Hsplit as Hk0 Hsplit;
      let H := fresh "H" in
      destruct (Hbefore k0 ltac:(left)) as [? H];
      rewrite <- Hk0 in H; rewrite H; clear H;
      assert (Hbefore' : forall k, k ∈ before -> is_Some (params !! k))
        by (intros k Hk; apply Hbefore; right; exact Hk);
      clear Hbefore Hk0 k0; rename Hbefore' into Hbefore ]).
  destruct before; simpl in Hsplit; discriminate Hsplit.
Qed.

Lemma Election_init_missing_parameter_witness :
  Election_init Demo.modules (delete "n_reps" Demo.S1_parameters) new_Election
    = (Err (Exn KeyError (Some "n_reps")),
       set_election_parameters (delete "n_reps" Demo.S1_parameters) new_Election).
Proof.
  apply (Election_init_missing_parameter Demo.modules _ _
           ["election_id"; "ballot_style"; "n_voters"] "n_reps" ["n_fail"; "n_leak"]).
  - reflexivity.
  - intros k Hk. apply list_elem_of_In in Hk. simpl in Hk.
    destruct Hk as [<-|[<-|[<-|[]]]]; vm_compute; eexists; reflexivity.
  - vm_compute. reflexivity.
Defined.

(** X3. The parameter checks of [__init__] pass exactly when the six
    mandatory parameters are present and pass their type and range checks
    and [ballot_id_len > 0] evaluates to true; nothing else about the
    parameters is tested. *)
Theorem check_and_save_parameters_accepts (m : Modules) params e0 :
  (exists locals e, check_and_save_parameters m params e0 = (Ok locals, e))
  <-> parameters_accepted params.
Proof.
  split.
  - intros (locals & e & Hrun).
    destruct (check_and_save_parameters_ok m params e0 locals e Hrun)
      as (eid & bs & nv & nr & nf & nl & Hm & H1 & H2 & H3 & H4 & H5 & H6 & H7 & _).
    exists eid, bs, nv, nr, nf, nl. repeat (split; [assumption|]). assumption.
  - intros (eid & bs & nv & nr & nf & nl & Hm & H1 & H2 & H3 & H4 & H5 & H6 & H7).
    destruct (check_and_save_parameters_outcome m params e0 _ _ _ _ _ _ Hm)
      as (r & e & Hrun & _ & Hcases).
    destruct Hcases as [(_ & _ & _ & _ & _ & _ & Hlen) | (_ & Hbad)].
    + destruct Hlen as [(_ & ->) | [(Hf & _) | (x & Hx & _)]].
      * eexists _, e. exact Hrun.
      * rewrite H7 in Hf. discriminate Hf.
      * rewrite H7 in Hx. discriminate Hx.
    + tauto.
Qed.

(** X4. When the mandatory parameters pass their checks and
    [ballot_id_len] is not a number, the comparison [ballot_id_len > 0]
    raises a [TypeError] out of [__init__] (not an [AssertionError]), before
    the bulletin board is made. *)
Theorem Election_init_ballot_id_len_type_error (m : Modules) params e0
    election_id ballot_style n_voters number_of_reps n_fail n_leak :
  mandatory_parameters params election_id ballot_style n_voters number_of_reps
    n_fail n_leak ->
  is_nonempty_string election_id ->
  is_nonempty_list ballot_style ->
  is_positive_int n_voters ->
  is_valid_n_reps number_of_reps ->
  is_nonnegative_int n_fail ->
  is_nonnegative_int n_leak ->
  ~ is_number (dict_get params "ballot_id_len" (PyInt 32)) ->
  exists e,
    Election_init m params e0 = (Err (Exn TypeError None), e) /\
    sbb e = sbb e0.
Proof.
  intros Hm H1 H2 H3 H4 H5 H6 Hnum.
  destruct (check_and_save_parameters_outcome m params e0 _ _ _ _ _ _ Hm)
    as (r & e & Hrun & Hsbb & Hcases).
  assert (Herr : py_gt_zero (dict_get params "ballot_id_len" (PyInt 32))
                 = Err (Exn TypeError None)).
  { destruct (dict_get params "ballot_id_len" (PyInt 32));
      simpl in Hnum; try tauto; reflexivity. }
  exists e. split; [|exact Hsbb].
  unfold Election_init. apply bind_err. rewrite Hrun. f_equal.
  destruct Hcases as [(_ & _ & _ & _ & _ & _ & Hlen) | (_ & Hbad)]; [|tauto].
  destruct Hlen as [(Ht & _) | [(Hf & _) | (x & Hx & ->)]].
  - rewrite Herr in Ht. discriminate Ht.
  - rewrite Herr in Hf. discriminate Hf.
  - rewrite Herr in Hx. inversion Hx. reflexivity.
Qed.

Lemma Election_init_ballot_id_len_type_error_witness :
  exists e,
    Election_init Demo.modules string_ballot_id_len_parameters new_Election
      = (Err (Exn TypeError None), e) /\
    sbb e = sbb new_Election.
Proof.
  apply (Election_init_ballot_id_len_type_error Demo.modules
           string_ballot_id_len_parameters new_Election
           (PyStr "E1")
           (PyList [PyTuple [PyStr "P"; PyTuple [PyStr "A"; PyStr "B"]]])
           (PyInt 2) (PyInt 2) (PyInt 0) (PyInt 0)).
  - repeat split; vm_compute; reflexivity.
  - exists "E1". split; [reflexivity | discriminate].
  - eexists. split; [reflexivity | discriminate].
  - exists 2. split; [reflexivity | lia].
  - exists 2. split; [reflexivity | split; [lia | reflexivity]].
  - exists 0. split; [reflexivity | lia].
  - exists 0. split; [reflexivity | lia].
  - vm_compute. tauto.
Defined.

(** ** [setup_voters] *)

Lemma setup_voters_unfold (m : Modules) n_voters :
  setup_voters m n_voters =
    let* _ := assert_ (match py_int n_voters with Some n => 0 <? n | None => false end) in
    let* indices := lift (py_range n_voters) in
    let* _ := voters_loop m indices in
    let* ballot_id_len := gets ballot_id_len in
    sbb_post "setup:voters"
      (Some (PyDict {[ "n_voters" := n_voters; "ballot_id_len" := ballot_id_len ]}))
      false.
Proof. reflexivity. Qed.

Lemma with_voters_nil e : with_voters [] [] e = e.
Proof. destruct e. unfold with_voters. simpl. rewrite !app_nil_r. reflexivity. Qed.

Lemma with_voters_fields ids created e :
  p_list (with_voters ids created e) = p_list e /\
  sbb (with_voters ids created e) = sbb e /\
  ballot_id_len (with_voters ids created e) = ballot_id_len e /\
  voter_ids (with_voters ids created e) = (voter_ids e ++ ids)%list /\
  voters (with_voters ids created e) = (voters e ++ created)%list.
Proof. destruct e. repeat split; reflexivity. Qed.

Lemma with_voters_cons i voter ids created e :
  with_voters ids created
    (set_voters
       (voters (set_voter_ids (voter_ids e ++ [voter_id_of i]) e) ++ [voter])
       (set_voter_ids (voter_ids e ++ [voter_id_of i]) e))
  = with_voters (voter_id_of i :: ids) (voter :: created) e.
Proof.
  destruct e. unfold with_voters. simpl. rewrite <- !app_assoc. reflexivity.
Qed.

(** The loop over indices that are all positions of the position list. *)
Lemma voters_loop_ok (m : Modules) indices : forall e,
  (forall i, i ∈ indices -> (i < length (p_list e))%nat) ->
  voters_loop m indices e
    = (Ok tt, with_voters (voter_id_of <$> indices) (voters_created m e indices) e).
Proof.
  induction indices as [|i rest IH]; intros e Hin.
  - simpl. rewrite with_voters_nil. reflexivity.
  - unfold voters_loop. rewrite for_each_cons.
    destruct (lookup_lt_is_Some_2 (p_list e) i (Hin i ltac:(left))) as [px Hpx].
    unfold bind at 1. unfold bind at 1. unfold modify at 1.
    rewrite bind_gets.
    replace (p_list (set_voter_ids (voter_ids e ++ ["voter:" +:+ pretty i]) e))
      with (p_list e) by (destruct e; reflexivity).
    rewrite Hpx. rewrite bind_lift, bind_gets. unfold modify at 1.
    fold (voters_loop m rest). rewrite IH.
    + fold (voter_id_of i). simpl voters_created. rewrite Hpx.
      rewrite with_voters_cons. reflexivity.
    + intros j Hj. destruct e; simpl. apply Hin. right. exact Hj.
Qed.

(** The loop that meets an index beyond the position list. *)
Lemma voters_loop_index_error (m : Modules) good : forall e bad rest,
  (forall i, i ∈ good -> (i < length (p_list e))%nat) ->
  (length (p_list e) <= bad)%nat ->
  voters_loop m (good ++ bad :: rest)%list e
    = (Err (Exn IndexError None),
       with_voters (voter_id_of <$> (good ++ [bad])%list) (voters_created m e good) e).
Proof.
  induction good as [|i good IH]; intros e bad rest Hin Hbad.
  - simpl app. unfold voters_loop. rewrite for_each_cons.
    unfold bind at 1. unfold bind at 1. unfold modify at 1.
    rewrite bind_gets.
    replace (p_list (set_voter_ids (voter_ids e ++ ["voter:" +:+ pretty bad]) e))
      with (p_list e) by (destruct e; reflexivity).
    rewrite (lookup_ge_None_2 (p_list e) bad Hbad). rewrite bind_lift.
    destruct e. unfold with_voters. simpl. rewrite app_nil_r. reflexivity.
  - simpl app. unfold voters_loop. rewrite for_each_cons.
    destruct (lookup_lt_is_Some_2 (p_list e) i (Hin i ltac:(left))) as [px Hpx].
    unfold bind at 1. unfold bind at 1. unfold modify at 1.
    rewrite bind_gets.
    replace (p_list (set_voter_ids (voter_ids e ++ ["voter:" +:+ pretty i]) e))
      with (p_list e) by (destruct e; reflexivity).
    rewrite Hpx. rewrite bind_lift, bind_gets. unfold modify at 1.
    fold (voters_loop m (good ++ bad :: rest)%list). rewrite IH.
    + fold (voter_id_of i). simpl voters_created. rewrite Hpx.
      rewrite with_voters_cons. reflexivity.
    + intros j Hj. destruct e; simpl. apply Hin. right. exact Hj.
    + destruct e; simpl. exact Hbad.
Qed.

Lemma voters_created_length (m : Modules) indices : forall e,
  (forall i, i ∈ indices -> (i < length (p_list e))%nat) ->
  length (voters_created m e indices) = length indices.
Proof.
  induction indices as [|i rest IH]; intros e Hin; [reflexivity|].
  simpl.
  destruct (lookup_lt_is_Some_2 (p_list e) i (Hin i ltac:(left))) as [px ->].
  simpl. f_equal. apply IH.
  intros j Hj. destruct e; simpl. apply Hin. right. exact Hj.
Qed.

(** Each voter is made from the election that holds the identifiers up to
    its own and the voters before it. *)
Lemma voters_created_lookup (m : Modules) indices : forall e k i voter,
  indices !! k = Some i ->
  voters_created m e indices !! k = Some voter ->
  exists px,
    p_list e !! i = Some px /\
    voter = sv_voter_Voter m
              (with_voters (voter_id_of <$> take (S k) indices)
                 (take k (voters_created m e indices)) e)
              (voter_id_of i) px.
Proof.
  induction indices as [|i0 rest IH]; intros e k i voter Hk Hv; [discriminate Hk|].
  simpl in Hv. destruct (p_list e !! i0) as [px0|] eqn:Hpx0; [|discriminate Hv].
  destruct k as [|k].
  - simpl in Hk, Hv. inversion Hk; subst i0. inversion Hv; subst voter.
    exists px0. split; [exact Hpx0|].
    simpl. rewrite Hpx0. simpl. f_equal.
    destruct e. unfold with_voters. simpl. rewrite app_nil_r. reflexivity.
  - simpl in Hk, Hv.
    destruct (IH _ k i voter Hk Hv) as (px & Hpx & Hvoter).
    exists px. split; [destruct e; exact Hpx|].
    rewrite Hvoter. f_equal.
    rewrite with_voters_cons. simpl. rewrite Hpx0. reflexivity.
Qed.

Lemma voter_id_of_inj i j : voter_id_of i = voter_id_of j -> i = j.
Proof.
  unfold voter_id_of. simpl. intros H. injection H as H.
  exact (pretty_nat_inj _ _ H).
Qed.

Lemma voter_ids_NoDup n : NoDup (voter_id_of <$> seq 0 n).
Proof.
  apply NoDup_fmap_2; [intros i j; apply voter_id_of_inj | apply NoDup_seq].
Qed.

(** X5. [setup_voters] with a positive integer [n_voters] no larger than
    the position list, on an open board: it appends the identifiers
    [voter:0], ..., [voter:(n_voters-1)] and as many voters, the voter of
    index [i] being made with the position [p_list[i]] from the election that
    holds the identifiers up to its own and the voters before it, and then
    posts one [setup:voters] entry with [n_voters] and [ballot_id_len],
    without a time stamp. *)
Theorem setup_voters_appends_and_posts (m : Modules) n_voters z e b :
  is_int n_voters z -> 0 < z ->
  (Z.to_nat z <= length (p_list e))%nat ->
  sbb e = Some b -> sbb_closed b = false ->
  exists created e',
    setup_voters m n_voters e = (Ok tt, e') /\
    posted (with_voters (voter_id_of <$> seq 0 (Z.to_nat z)) created e) e'
      (Entry "setup:voters"
         (Some (PyDict {[ "n_voters" := n_voters;
                          "ballot_id_len" := ballot_id_len e ]})) false) /\
    length created = Z.to_nat z /\
    forall i voter, created !! i = Some voter ->
      exists px,
        p_list e !! i = Some px /\
        voter = sv_voter_Voter m
                  (with_voters (voter_id_of <$> seq 0 (S i)) (take i created) e)
                  (voter_id_of i) px.
Proof.
  intros Hz Hpos Hlen Hb Hc. unfold is_int in Hz.
  set (indices := seq 0 (Z.to_nat z)).
  assert (Hin : forall i, i ∈ indices -> (i < length (p_list e))%nat).
  { intros i Hi. apply elem_of_seq in Hi. lia. }
  exists (voters_created m e indices). eexists.
  split; [|split; [|split]].
  - rewrite setup_voters_unfold. rewrite Hz.
    replace (0 <? z) with true by lia.
    unfold bind at 1. unfold assert_ at 1, ret at 1.
    rewrite bind_lift. unfold py_range. rewrite Hz. fold indices.
    unfold bind at 1. rewrite (voters_loop_ok m indices e Hin).
    rewrite bind_gets.
    destruct (with_voters_fields (voter_id_of <$> indices)
                (voters_created m e indices) e) as (_ & Hsbb & Hbil & _).
    rewrite Hbil.
    apply sbb_post_ok; [rewrite Hsbb; exact Hb | exact Hc].
  - exists b.
    destruct (with_voters_fields (voter_id_of <$> indices)
                (voters_created m e indices) e) as (_ & Hsbb & _).
    split; [rewrite Hsbb; exact Hb|]. split; [exact Hc | reflexivity].
  - rewrite (voters_created_length m indices e Hin). apply length_seq.
  - intros i voter Hv.
    assert (Hi : (i < Z.to_nat z)%nat).
    { apply lookup_lt_Some in Hv.
      rewrite (voters_created_length m indices e Hin) in Hv.
      unfold indices in Hv. rewrite length_seq in Hv. exact Hv. }
    assert (Hk : indices !! i = Some i).
    { unfold indices. rewrite lookup_seq. split; [reflexivity | exact Hi]. }
    destruct (voters_created_lookup m indices e i i voter Hk Hv) as (px & Hpx & ->).
    exists px. split; [exact Hpx|].
    unfold indices at 1. rewrite take_seq.
    rewrite Nat.min_l by lia. reflexivity.
Qed.

Lemma setup_voters_appends_and_posts_witness :
  exists created e',
    setup_voters Demo.modules (PyInt 2) two_positions_election = (Ok tt, e') /\
    posted (with_voters (voter_id_of <$> seq 0 (Z.to_nat 2)) created
              two_positions_election) e'
      (Entry "setup:voters"
         (Some (PyDict {[ "n_voters" := PyInt 2;
                          "ballot_id_len" := ballot_id_len two_positions_election ]}))
         false) /\
    length created = Z.to_nat 2 /\
    forall i voter, created !! i = Some voter ->
      exists px,
        p_list two_positions_election !! i = Some px /\
        voter = sv_voter_Voter Demo.modules
                  (with_voters (voter_id_of <$> seq 0 (S i)) (take i created)
                     two_positions_election)
                  (voter_id_of i) px.
Proof.
  apply (setup_voters_appends_and_posts Demo.modules (PyInt 2) 2
           two_positions_election (SBB_new (PyStr "E1"))).
  - reflexivity.
  - lia.
  - simpl. lia.
  - reflexivity.
  - reflexivity.
Defined.

(** X6. [setup_voters] with more voters than positions: the loop stops with
    an [IndexError] at the first index beyond the position list.  By then
    the identifier of that index has been appended, but no voter for it;
    nothing is posted. *)
Theorem setup_voters_index_error (m : Modules) n_voters z e :
  is_int n_voters z ->
  (length (p_list e) < Z.to_nat z)%nat ->
  exists e',
    setup_voters m n_voters e = (Err (Exn IndexError None), e') /\
    sbb e' = sbb e /\
    voter_ids e' = (voter_ids e ++ (voter_id_of <$> seq 0 (S (length (p_list e)))))%list /\
    length (voters e') = (length (voters e) + length (p_list e))%nat.
Proof.
  intros Hz Hlen. unfold is_int in Hz.
  set (L := length (p_list e)) in *.
  assert (Hseq : seq 0 (Z.to_nat z)
                 = (seq 0 L ++ L :: seq (S L) (Z.to_nat z - S L))%list).
  { replace (Z.to_nat z) with (L + S (Z.to_nat z - S L))%nat at 1 by lia.
    rewrite seq_app. reflexivity. }
  assert (Hin : forall i, i ∈ seq 0 L -> (i < length (p_list e))%nat).
  { intros i Hi. apply elem_of_seq in Hi. fold L. lia. }
  eexists. split; [|split; [|split]].
  - rewrite setup_voters_unfold. rewrite Hz.
    replace (0 <? z) with true by lia.
    unfold bind at 1. unfold assert_ at 1, ret at 1.
    rewrite bind_lift. unfold py_range. rewrite Hz. rewrite Hseq.
    apply bind_err.
    apply (voters_loop_index_error m (seq 0 L) e L _ Hin). fold L. lia.
  - apply with_voters_fields.
  - destruct (with_voters_fields (voter_id_of <$> (seq 0 L ++ [L])%list)
                (voters_created m e (seq 0 L)) e) as (_ & _ & _ & -> & _).
    rewrite seq_S. reflexivity.
  - destruct (with_voters_fields (voter_id_of <$> (seq 0 L ++ [L])%list)
                (voters_created m e (seq 0 L)) e) as (_ & _ & _ & _ & ->).
    rewrite length_app, (voters_created_length m _ e Hin), length_seq. reflexivity.
Qed.

Lemma setup_voters_index_error_witness :
  exists e',
    setup_voters Demo.modules (PyInt 3) two_positions_election
      = (Err (Exn IndexError None), e') /\
    sbb e' = sbb two_positions_election /\
    voter_ids e'
      = (voter_ids two_positions_election
         ++ (voter_id_of <$> seq 0 (S (length (p_list two_positions_election)))))%list /\
    length (voters e')
      = (length (voters two_positions_election)
         + length (p_list two_positions_election))%nat.
Proof.
  apply (setup_voters_index_error Demo.modules (PyInt 3) 3 two_positions_election).
  - reflexivity.
  - simpl. lia.
Defined.

Lemma setup_voters_ok_inv (m : Modules) n_voters e e' :
  setup_voters m n_voters e = (Ok tt, e') ->
  exists z created,
    is_int n_voters z /\ 0 < z /\
    (Z.to_nat z <= length (p_list e))%nat /\
    length created = Z.to_nat z /\
    posted (with_voters (voter_id_of <$> seq 0 (Z.to_nat z)) created e) e'
      (Entry "setup:voters"
         (Some (PyDict {[ "n_voters" := n_voters;
                          "ballot_id_len" := ballot_id_len e ]})) false).
Proof.
  rewrite setup_voters_unfold. intros Hrun.
  apply bind_ok_inv in Hrun as (u & e1 & Hassert & Hrun).
  apply assert_ok_inv in Hassert as [Hcond ->].
  apply positive_int_test in Hcond as (z & Hz & Hpos).
  apply bind_ok_inv in Hrun as (indices & e1 & Hrange & Hrun).
  apply lift_ok_inv in Hrange as [Hrange ->].
  unfold py_range in Hrange. unfold is_int in Hz. rewrite Hz in Hrange.
  inversion Hrange; subst indices; clear Hrange.
  apply bind_ok_inv in Hrun as ([] & e1 & Hloop & Hrun).
  rewrite bind_gets in Hrun. apply sbb_post_ok_inv in Hrun.
  exists z, (voters_created m e (seq 0 (Z.to_nat z))).
  destruct (le_lt_dec (Z.to_nat z) (length (p_list e))) as [Hle|Hgt].
  - assert (Hin : forall i, i ∈ seq 0 (Z.to_nat z) -> (i < length (p_list e))%nat).
    { intros i Hi. apply elem_of_seq in Hi. lia. }
    rewrite (voters_loop_ok m _ e Hin) in Hloop. inversion Hloop; subst e1.
    destruct (with_voters_fields (voter_id_of <$> seq 0 (Z.to_nat z))
                (voters_created m e (seq 0 (Z.to_nat z))) e)
      as (_ & _ & Hbil & _).
    rewrite Hbil in Hrun.
    split; [exact Hz|]. split; [exact Hpos|]. split; [exact Hle|].
    split; [|exact Hrun].
    rewrite (voters_created_length m _ e Hin). apply length_seq.
  - exfalso.
    set (L := length (p_list e)) in *.
    assert (Hseq : seq 0 (Z.to_nat z)
                   = (seq 0 L ++ L :: seq (S L) (Z.to_nat z - S L))%list).
    { replace (Z.to_nat z) with (L + S (Z.to_nat z - S L))%nat at 1 by lia.
      rewrite seq_app. reflexivity. }
    rewrite Hseq in Hloop.
    rewrite (voters_loop_index_error m (seq 0 L) e L) in Hloop.
    + discriminate Hloop.
    + intros i Hi. apply elem_of_seq in Hi. fold L. lia.
    + fold L. lia.
Qed.

(** X7. [setup_voters] returns normally only if [n_voters] is a positive
    integer no larger than the position list and the board is open; the
    identifiers it has appended are then pairwise distinct, and it has
    appended as many voters as identifiers. *)
Theorem setup_voters_returns_only_if (m : Modules) n_voters e e' :
  setup_voters m n_voters e = (Ok tt, e') ->
  exists z,
    is_int n_voters z /\ 0 < z /\
    (Z.to_nat z <= length (p_list e))%nat /\
    sbb_open e = true /\
    voter_ids e' = (voter_ids e ++ (voter_id_of <$> seq 0 (Z.to_nat z)))%list /\
    NoDup (voter_id_of <$> seq 0 (Z.to_nat z)) /\
    length (voters e') = (length (voters e) + Z.to_nat z)%nat.
Proof.
  intros Hrun.
  destruct (setup_voters_ok_inv m n_voters e e' Hrun)
    as (z & created & Hz & Hpos & Hle & Hlen & b & Hb & Hc & ->).
  exists z.
  destruct (with_voters_fields (voter_id_of <$> seq 0 (Z.to_nat z)) created e)
    as (_ & Hsbb & _ & Hids & Hvoters).
  split; [exact Hz|]. split; [exact Hpos|]. split; [exact Hle|].
  split; [|split; [|split]].
  - unfold sbb_open. rewrite <- Hsbb, Hb, Hc. reflexivity.
  - rewrite <- Hids. destruct (with_voters _ _ e). reflexivity.
  - apply voter_ids_NoDup.
  - transitivity (length (voters (with_voters (voter_id_of <$> seq 0 (Z.to_nat z))
                    created e))).
    + destruct (with_voters _ _ e). reflexivity.
    + rewrite Hvoters, length_app, Hlen. reflexivity.
Qed.

Lemma setup_voters_returns_only_if_witness :
  exists z,
    is_int (PyInt 2) z /\ 0 < z /\
    (Z.to_nat z <= length (p_list two_positions_election))%nat /\
    sbb_open two_positions_election = true /\
    voter_ids (snd (setup_voters Demo.modules (PyInt 2) two_positions_election))
      = (voter_ids two_positions_election
         ++ (voter_id_of <$> seq 0 (Z.to_nat z)))%list /\
    NoDup (voter_id_of <$> seq 0 (Z.to_nat z)) /\
    length (voters (snd (setup_voters Demo.modules (PyInt 2) two_positions_election)))
      = (length (voters two_positions_election) + Z.to_nat z)%nat.
Proof.
  apply (setup_voters_returns_only_if Demo.modules (PyInt 2) two_positions_election).
  vm_compute. reflexivity.
Defined.

(** ** [distribute_cast_votes] and [post_cast_vote_commitments] *)

Lemma only_sdb_changed_refl e : only_sdb_changed e e.
Proof. exists (sdb (server e)). symmetry. apply set_sdb_id. Qed.

Lemma only_sdb_changed_trans e1 e2 e3 :
  only_sdb_changed e1 e2 -> only_sdb_changed e2 e3 -> only_sdb_changed e1 e3.
Proof. intros [s1 ->] [s2 ->]. exists s2. apply set_sdb_twice. Qed.

Lemma distribute_cast_votes_only_sdb : steps_in only_sdb_changed distribute_cast_votes.
Proof.
  unfold distribute_cast_votes, sdbp_assign.
  repeat first
    [ apply (steps_in_gets only_sdb_changed only_sdb_changed_refl)
    | apply (steps_in_lift only_sdb_changed only_sdb_changed_refl)
    | apply (steps_in_modify only_sdb_changed); intros e0; eexists; reflexivity
    | apply (steps_in_for_each only_sdb_changed only_sdb_changed_refl
               only_sdb_changed_trans); intros ?
    | apply (steps_in_bind only_sdb_changed only_sdb_changed_trans); [|intros ?] ].
Qed.

(** X8. Whatever its outcome, also when it stops half-way with an error,
    [distribute_cast_votes] changes nothing but the server data: the cast
    votes, the lists of races, positions and rows, the voters and the board
    are as before. *)
Theorem distribute_cast_votes_changes_only_server_data e :
  exists s, snd (distribute_cast_votes e) = set_sdb s e.
Proof.
  apply (distribute_cast_votes_only_sdb e (fst (distribute_cast_votes e))).
  apply surjective_pairing.
Qed.

Lemma only_sdb_changed_same_commitments e e' :
  only_sdb_changed e e' -> same_commitments e' e.
Proof.
  intros [s ->]. destruct (set_sdb_fields s e) as (H1 & H2 & H3 & H4 & _).
  repeat split; try assumption.
  intros. rewrite H4. reflexivity.
Qed.

(** X9. The posting of the commitments does not depend on the distribution
    of the cast votes to the servers: after [distribute_cast_votes],
    whatever its outcome, [post_cast_vote_commitments] has the outcome and
    leaves the board that it would have had before. *)
Theorem post_cast_vote_commitments_after_distribution e :
  fst (post_cast_vote_commitments (snd (distribute_cast_votes e)))
    = fst (post_cast_vote_commitments e) /\
  sbb (snd (post_cast_vote_commitments (snd (distribute_cast_votes e))))
    = sbb (snd (post_cast_vote_commitments e)).
Proof.
  destruct (distribute_cast_votes_only_sdb e _ _
              (surjective_pairing (distribute_cast_votes e))) as [s Hs].
  rewrite Hs. rewrite !post_cast_vote_commitments_eq.
  rewrite (cast_vote_commitments_ext (set_sdb s e) e)
    by (apply only_sdb_changed_same_commitments; exists s; reflexivity).
  destruct (set_sdb_fields s e) as (_ & _ & _ & _ & Hsbb & _).
  destruct (cast_vote_commitments e) as [cvcs|x]; [|split; [reflexivity | exact Hsbb]].
  unfold sbb_post. rewrite Hsbb.
  destruct (sbb e) as [b|] eqn:Hb; [|split; [reflexivity | simpl; congruence]].
  destruct (sbb_closed b); [split; [reflexivity | simpl; congruence]|].
  destruct e; split; reflexivity.
Qed.

Lemma commitment_record_ok cvs race_id px i :
  (forall field, field ∈ ["ballot_id"; "cu"; "cv"] ->
     exists x, py_get_path cvs [Key race_id; Key px; Key i; Key field] = Ok x) <->
  exists record, commitment_record cvs race_id px i = Ok record.
Proof.
  unfold commitment_record. split.
  - intros H.
    destruct (H "ballot_id") as [x1 H1]; [repeat constructor|].
    destruct (H "cu") as [x2 H2]; [repeat constructor|].
    destruct (H "cv") as [x3 H3]; [repeat constructor|].
    rewrite H1, H2, H3. eexists. reflexivity.
  - intros [record H] field Hf.
    destruct (py_get_path cvs [Key race_id; Key px; Key i; Key "ballot_id"])
      as [x1|] eqn:H1; [|discriminate H].
    destruct (py_get_path cvs [Key race_id; Key px; Key i; Key "cu"])
      as [x2|] eqn:H2; [|discriminate H].
    destruct (py_get_path cvs [Key race_id; Key px; Key i; Key "cv"])
      as [x3|] eqn:H3; [|discriminate H].
    apply list_elem_of_In in Hf. simpl in Hf.
    destruct Hf as [<-|[<-|[<-|[]]]]; eexists; eassumption.
Qed.

Lemma rows_commitments_ok cvs race_id px rows :
  (forall i, i ∈ rows -> exists record, commitment_record cvs race_id px i = Ok record) ->
  forall d, exists d', rows_commitments cvs race_id px rows d = Ok d'.
Proof.
  induction rows as [|i rest IH]; intros H d; simpl; [eexists; reflexivity|].
  destruct (H i) as [record ->]; [left|]. simpl.
  apply IH. intros j Hj. apply H. right. exact Hj.
Qed.

Lemma positions_commitments_ok cvs rows race_id positions :
  (forall px, px ∈ positions ->
     exists of_rows, rows_commitments cvs race_id px rows ∅ = Ok of_rows) ->
  forall d, exists d', positions_commitments cvs rows race_id positions d = Ok d'.
Proof.
  induction positions as [|px rest IH]; intros H d; simpl; [eexists; reflexivity|].
  destruct (H px) as [of_rows ->]; [left|]. simpl.
  apply IH. intros j Hj. apply H. right. exact Hj.
Qed.

Lemma races_commitments_ok cvs positions rows races :
  (forall race_id, race_id ∈ races ->
     exists of_positions,
       positions_commitments cvs rows race_id positions ∅ = Ok of_positions) ->
  forall d, exists d', races_commitments cvs positions rows races d = Ok d'.
Proof.
  induction races as [|r rest IH]; intros H d; simpl; [eexists; reflexivity|].
  destruct (H r) as [of_positions ->]; [left|]. simpl.
  apply IH. intros j Hj. apply H. right. exact Hj.
Qed.

(** The commitments can be collected exactly when every cast vote has the
    three posted fields. *)
Lemma cast_vote_commitments_ok e :
  commitments_present e <-> exists cvcs, cast_vote_commitments e = Ok cvcs.
Proof.
  unfold commitments_present, cast_vote_commitments. split.
  - intros H.
    destruct (races_commitments_ok (cast_votes e) (p_list e) (row_list (server e))
                (race_ids e)) with (d := (∅ : gmap string pyval)) as [d' ->].
    + intros r Hr. apply positions_commitments_ok.
      intros px Hpx. apply rows_commitments_ok.
      intros i Hi. apply commitment_record_ok.
      intros f Hf. apply H; assumption.
    + eexists. reflexivity.
  - intros [cvcs H] r px i f Hr Hpx Hi Hf.
    destruct (races_commitments (cast_votes e) (p_list e) (row_list (server e))
                (race_ids e) ∅) as [d|] eqn:Hd; [|discriminate H].
    destruct (races_commitments_lookup _ _ _ _ _ _ Hd r) as [Hin _].
    destruct (Hin Hr) as (of_positions & Hps & _).
    destruct (positions_commitments_lookup _ _ _ _ _ _ Hps px) as [Hin2 _].
    destruct (Hin2 Hpx) as (of_rows & Hrs & _).
    destruct (rows_commitments_lookup _ _ _ _ _ _ Hrs i) as [Hin3 _].
    destruct (Hin3 Hi) as (record & Hrec & _).
    apply (proj2 (commitment_record_ok _ _ _ _) (ex_intro _ record Hrec)).
    exact Hf.
Qed.

(** X10. [post_cast_vote_commitments] returns normally exactly when the
    board is open and every cast vote, for every race, position and row,
    has the fields [ballot_id], [cu] and [cv]; otherwise it raises an
    exception and leaves the election, board included, as it was: no partial
    dict of commitments is posted. *)
Theorem post_cast_vote_commitments_returns_iff e :
  ((exists e', post_cast_vote_commitments e = (Ok tt, e'))
   <-> sbb_open e = true /\ commitments_present e) /\
  ((exists e', post_cast_vote_commitments e = (Ok tt, e')) \/
   (exists x, post_cast_vote_commitments e = (Err x, e))).
Proof.
  rewrite post_cast_vote_commitments_eq. split.
  - split.
    + intros [e' H].
      destruct (cast_vote_commitments e) as [cvcs|] eqn:Hc; [|discriminate H].
      apply sbb_post_ok_inv in H as (b & Hb & Hclosed & _).
      split.
      * unfold sbb_open. rewrite Hb, Hclosed. reflexivity.
      * apply cast_vote_commitments_ok. exists cvcs. exact Hc.
    + intros [Hopen Hpresent].
      apply cast_vote_commitments_ok in Hpresent as [cvcs ->].
      apply sbb_open_inv in Hopen as (b & Hb & Hclosed).
      eexists. apply (sbb_post_ok _ _ _ _ _ Hb Hclosed).
  - destruct (cast_vote_commitments e) as [cvcs|x].
    + unfold sbb_post. destruct (sbb e) as [b|].
      * destruct (sbb_closed b).
        -- right. eexists. reflexivity.
        -- left. eexists. reflexivity.
      * right. eexists. reflexivity.
    + right. exists x. reflexivity.
Qed.

(** *** The distribution returns *)

Lemma cell_path_apart r0 i0 f0 px0 r i f :
  ~ (r0 = r /\ i0 = i /\ f0 = f) ->
  paths_apart ([Key r0; Key i0; Index 0; Key f0] ++ [Key px0])
    [Key r; Key i; Index 0; Key f].
Proof.
  intros Hne. simpl.
  destruct (decide (r0 = r)) as [->|]; [right; split; [reflexivity|] | left; assumption].
  destruct (decide (i0 = i)) as [->|]; [right; split; [reflexivity|] | left; assumption].
  right; split; [reflexivity|].
  destruct (decide (f0 = f)) as [->|]; [|left; assumption].
  exfalso. apply Hne. auto.
Qed.

Lemma distribution_ready_set_sdb s e :
  cast_votes_complete e ->
  (forall race_id i field,
     race_id ∈ race_ids e -> i ∈ row_list (server e) -> field ∈ vote_fields ->
     exists d, py_get_path s [Key race_id; Key i; Index 0; Key field] = Ok (PyDict d)) ->
  distribution_ready (set_sdb s e).
Proof.
  intros Hcvs Hcells.
  destruct (set_sdb_fields s e) as (F1 & F2 & F3 & F4 & _ & F6).
  split.
  - intros r px i f (Hr & Hpx & Hi & Hf).
    unfold cast_vote_field. rewrite F4. apply Hcvs.
    repeat split; congruence.
  - intros r i f Hr Hi Hf. rewrite F6. apply Hcells; congruence.
Qed.

(** One assignment [sdbp[field][px] = vote[field]] on a ready election. *)
Lemma sdbp_assign_ready race_id i field px vote x e :
  race_id ∈ race_ids e -> i ∈ row_list (server e) -> field ∈ vote_fields ->
  py_getitem vote (Key field) = Ok x ->
  distribution_ready e ->
  exists s,
    sdbp_assign race_id i field px vote e = (Ok tt, set_sdb s e) /\
    distribution_ready (set_sdb s e).
Proof.
  intros Hr Hi Hf Hx [Hcvs Hcells].
  destruct (Hcells race_id i field Hr Hi Hf) as [d Hd].
  destruct (py_assign_field [Key race_id; Key i; Index 0] (sdb (server e))
              field d px x Hd) as (s & Hassign & _ & Hnew & _).
  exists s. split.
  - unfold sdbp_assign. rewrite bind_lift, Hx, bind_gets, bind_lift.
    simpl app in Hassign. rewrite Hassign. reflexivity.
  - apply distribution_ready_set_sdb; [exact Hcvs|].
    intros r i' f Hr' Hi' Hf'.
    destruct (decide (race_id = r /\ i = i' /\ field = f)) as [(-> & -> & ->)|Hne].
    + eexists. exact Hnew.
    + destruct (Hcells r i' f Hr' Hi' Hf') as [d' Hd'].
      exists d'. rewrite <- Hd'.
      apply (py_get_path_assigned_apart _ _ _ _ _ _ Hassign).
      apply cell_path_apart. exact Hne.
Qed.

Lemma cast_vote_record e race_id px i :
  (forall field, field ∈ vote_fields ->
     exists x, cast_vote_field e race_id px i field = Ok x) ->
  exists vote,
    py_get_path (cast_votes e) [Key race_id; Key px; Key i] = Ok vote /\
    forall field, field ∈ vote_fields -> exists x, py_getitem vote (Key field) = Ok x.
Proof.
  intros H.
  assert (Happ : forall field,
            cast_vote_field e race_id px i field
            = let? vote := py_get_path (cast_votes e) [Key race_id; Key px; Key i] in
              py_get_path vote [Key field]).
  { intros field. unfold cast_vote_field.
    change [Key race_id; Key px; Key i; Key field]
      with ([Key race_id; Key px; Key i] ++ [Key field])%list.
    apply py_get_path_app. }
  destruct (H "ballot_id") as [x0 Hx0]; [repeat constructor|].
  rewrite Happ in Hx0.
  destruct (py_get_path (cast_votes e) [Key race_id; Key px; Key i])
    as [vote|] eqn:Hvote; [|discriminate Hx0].
  exists vote. split; [reflexivity|].
  intros field Hf. destruct (H field Hf) as [x Hx].
  rewrite Happ in Hx. simpl in Hx.
  destruct (py_getitem vote (Key field)) as [y|]; [|discriminate Hx].
  exists y. reflexivity.
Qed.

Lemma distribute_row_ready race_id px i e :
  race_id ∈ race_ids e -> px ∈ p_list e -> i ∈ row_list (server e) ->
  distribution_ready e ->
  exists s,
    distribute_row race_id px i e = (Ok tt, set_sdb s e) /\
    distribution_ready (set_sdb s e).
Proof.
  intros Hr Hpx Hi Hready.
  destruct (cast_vote_record e race_id px i) as (vote & Hvote & Hfields).
  { intros f Hf. apply (proj1 Hready). repeat split; assumption. }
  destruct (proj2 Hready race_id i "ballot_id" Hr Hi ltac:(repeat constructor))
    as [d0 Hd0].
  change [Key race_id; Key i; Index 0; Key "ballot_id"]
    with ([Key race_id; Key i; Index 0] ++ [Key "ballot_id"])%list in Hd0.
  rewrite py_get_path_app in Hd0.
  destruct (py_get_path (sdb (server e)) [Key race_id; Key i; Index 0])
    as [sdbp|] eqn:Hsdbp; [|discriminate Hd0]. clear Hd0 d0.
  unfold distribute_row.
  rewrite bind_gets, bind_lift, Hvote, bind_gets, bind_lift, Hsdbp.
  assert (Hstep : forall field (k : unit -> M unit) e1,
            field ∈ vote_fields ->
            (exists s1, e1 = set_sdb s1 e) -> distribution_ready e1 ->
            (forall e2, (exists s2, e2 = set_sdb s2 e) -> distribution_ready e2 ->
               exists s, k tt e2 = (Ok tt, set_sdb s e) /\
                         distribution_ready (set_sdb s e)) ->
            exists s,
              bind (sdbp_assign race_id i field px vote) k e1 = (Ok tt, set_sdb s e) /\
              distribution_ready (set_sdb s e)).
  { intros field k e1 Hf [s1 ->] Hready1 Hk.
    destruct (Hfields field Hf) as [x Hx].
    destruct (set_sdb_fields s1 e) as (F1 & _ & F3 & _).
    destruct (sdbp_assign_ready race_id i field px vote x (set_sdb s1 e))
      as (s2 & Hrun & Hready2); try assumption; try congruence.
    rewrite (bind_ok _ _ _ _ _ Hrun).
    apply Hk; [|exact Hready2].
    exists s2. apply set_sdb_twice. }
  apply Hstep;
    [ apply list_elem_of_In; simpl; tauto
    | exists (sdb (server e)); symmetry; apply set_sdb_id
    | exact Hready | intros e1 He1 Hready1 ].
  do 6 (apply Hstep;
    [ apply list_elem_of_In; simpl; tauto | exact He1 | exact Hready1
    | clear e1 He1 Hready1; intros e1 He1 Hready1 ]).
  destruct He1 as [s1 ->].
  assert (Hcv : "cv" ∈ vote_fields) by (apply list_elem_of_In; simpl; tauto).
  destruct (Hfields "cv" Hcv) as [x Hx].
  destruct (set_sdb_fields s1 e) as (F1 & _ & F3 & _).
  destruct (sdbp_assign_ready race_id i "cv" px vote x (set_sdb s1 e))
    as (s2 & Hrun & Hready2); try assumption; try congruence.
  exists s2. rewrite set_sdb_twice in Hrun, Hready2. split; assumption.
Qed.

(** A loop of steps that return on a ready election, change only the server
    data and leave the election ready. *)
Lemma for_each_ready {A} (l : list A) (body : A -> M unit) e :
  (forall a e1, a ∈ l -> only_sdb_changed e e1 -> distribution_ready e1 ->
     exists s, body a e1 = (Ok tt, set_sdb s e1) /\
               distribution_ready (set_sdb s e1)) ->
  distribution_ready e ->
  exists s, for_each l body e = (Ok tt, set_sdb s e) /\
            distribution_ready (set_sdb s e).
Proof.
  intros Hbody Hready.
  destruct (succeeds_for_each
              (fun e1 => only_sdb_changed e e1 /\ distribution_ready e1) l body)
    with (e := e) as ([] & e' & Hrun & [s ->] & Hready').
  - intros a Ha e1 [Hchanged Hready1].
    destruct (Hbody a e1 Ha Hchanged Hready1) as (s & Hrun & Hready2).
    exists tt, (set_sdb s e1). split; [exact Hrun|]. split; [|exact Hready2].
    apply (only_sdb_changed_trans _ _ _ Hchanged). exists s. reflexivity.
  - split; [apply only_sdb_changed_refl | exact Hready].
  - exists s. split; assumption.
Qed.

Lemma distribute_position_ready race_id px e :
  race_id ∈ race_ids e -> px ∈ p_list e -> distribution_ready e ->
  exists s, distribute_position race_id px e = (Ok tt, set_sdb s e) /\
            distribution_ready (set_sdb s e).
Proof.
  intros Hr Hpx Hready. unfold distribute_position. rewrite bind_gets.
  apply for_each_ready; [|exact Hready].
  intros i e1 Hi [s1 ->] Hready1.
  destruct (set_sdb_fields s1 e) as (F1 & F2 & F3 & _).
  apply distribute_row_ready; congruence.
Qed.

Lemma distribute_race_ready race_id e :
  race_id ∈ race_ids e -> distribution_ready e ->
  exists s, distribute_race race_id e = (Ok tt, set_sdb s e) /\
            distribution_ready (set_sdb s e).
Proof.
  intros Hr Hready. unfold distribute_race. rewrite bind_gets.
  apply for_each_ready; [|exact Hready].
  intros px e1 Hpx [s1 ->] Hready1.
  destruct (set_sdb_fields s1 e) as (F1 & F2 & F3 & _).
  apply distribute_position_ready; congruence.
Qed.

(** X11. When every cast vote has its eight fields and the server data has,
    for every race and row, a cell in column 0 with a dict under each field
    name, [distribute_cast_votes] returns normally. *)
Theorem distribute_cast_votes_returns e :
  cast_votes_complete e -> column_0_ready e ->
  exists e', distribute_cast_votes e = (Ok tt, e').
Proof.
  intros Hcvs Hcells. rewrite distribute_cast_votes_unfold, bind_gets.
  destruct (for_each_ready (race_ids e) distribute_race e) as (s & Hrun & _).
  - intros r e1 Hr [s1 ->] Hready1.
    destruct (set_sdb_fields s1 e) as (F1 & _).
    apply distribute_race_ready; congruence.
  - split; assumption.
  - exists (set_sdb s e). exact Hrun.
Qed.

Lemma S1_votes_cast_complete : cast_votes_complete S1_votes_cast.
Proof.
  intros r px i f (Hr & Hpx & Hi & Hf).
  apply list_elem_of_In in Hr, Hpx, Hi, Hf.
  vm_compute in Hr, Hpx, Hi, Hf.
  destruct Hr as [<-|[]]. destruct Hpx as [<-|[<-|[]]]; destruct Hi as [<-|[<-|[]]];
    destruct Hf as [<-|[<-|[<-|[<-|[<-|[<-|[<-|[<-|[]]]]]]]]];
    eexists; vm_compute; reflexivity.
Defined.

Lemma S1_votes_cast_ready : column_0_ready S1_votes_cast.
Proof.
  intros r i f Hr Hi Hf.
  apply list_elem_of_In in Hr, Hi, Hf.
  vm_compute in Hr, Hi, Hf.
  destruct Hr as [<-|[]]. destruct Hi as [<-|[<-|[]]];
    destruct Hf as [<-|[<-|[<-|[<-|[<-|[<-|[<-|[<-|[]]]]]]]]];
    eexists; vm_compute; reflexivity.
Defined.

Lemma distribute_cast_votes_returns_witness :
  exists e', distribute_cast_votes S1_votes_cast = (Ok tt, e').
Proof.
  apply (distribute_cast_votes_returns S1_votes_cast).
  - exact S1_votes_cast_complete.
  - exact S1_votes_cast_ready.
Defined.

(** *** The distribution is idempotent *)

Lemma distribute_cast_votes_distributes e e' :
  distribute_cast_votes e = (Ok tt, e') ->
  distribution_step e e' /\
  forall race_id px i field,
    cast_vote_slot e race_id px i field -> distributed e' race_id px i field.
Proof.
  rewrite distribute_cast_votes_unfold. intros H.
  apply bind_ok_inv in H as (rs & e1 & H1 & H).
  apply gets_ok_inv in H1 as [-> ->].
  apply (for_each_ok_ind distribution_step
           (fun race_id e0 => forall px i field, px ∈ p_list e ->
              i ∈ row_list (server e) -> field ∈ vote_fields ->
              distributed e0 race_id px i field)) in H.
  - destruct H as [Hstep Hall]. split; [exact Hstep|].
    intros r px i f (Hr & Hpx & Hi & Hf). apply Hall; assumption.
  - apply distribution_step_refl.
  - apply distribution_step_trans.
  - intros r ea eb Hab Hd px i f Hpx Hi Hf. apply Hab. apply Hd; assumption.
  - intros r ea eb Hr Hab Hrun.
    apply distribution_step_fields in Hab as (F1 & F2 & F3 & _).
    destruct (distribute_race_step r ea eb) as [Hstep Hall];
      [congruence | exact Hrun |].
    split; [exact Hstep|]. intros px i f Hpx Hi Hf. apply Hall; congruence.
Qed.

Lemma for_each_fixed {A} (l : list A) (body : A -> M unit) e :
  (forall a, a ∈ l -> body a e = (Ok tt, e)) -> for_each l body e = (Ok tt, e).
Proof.
  induction l as [|a l IH]; intros H; [reflexivity|].
  rewrite for_each_cons. rewrite (bind_ok _ _ _ _ _ (H a ltac:(left))).
  apply IH. intros b Hb. apply H. right. exact Hb.
Qed.

Lemma sdbp_assign_fixed race_id i field px vote e :
  (exists x, py_getitem vote (Key field) = Ok x /\
             column_0 e race_id i field px = Ok x) ->
  sdbp_assign race_id i field px vote e = (Ok tt, e).
Proof.
  intros (x & Hx & Hcol). unfold sdbp_assign.
  rewrite bind_lift, Hx, bind_gets, bind_lift.
  rewrite (py_assign_path_id [Key race_id; Key i; Index 0; Key field] _ px x Hcol).
  unfold modify. rewrite set_sdb_id. reflexivity.
Qed.

Lemma distribute_row_fixed race_id px i e :
  (forall field, field ∈ vote_fields -> distributed e race_id px i field) ->
  distribute_row race_id px i e = (Ok tt, e).
Proof.
  intros Hall.
  destruct (cast_vote_record e race_id px i) as (vote & Hvote & _).
  { intros f Hf. destruct (Hall f Hf) as (x & Hx & _). exists x. exact Hx. }
  assert (Hfield : forall field, field ∈ vote_fields ->
            exists x, py_getitem vote (Key field) = Ok x /\
                      column_0 e race_id i field px = Ok x).
  { intros f Hf. destruct (Hall f Hf) as (x & Hx & Hcol). exists x.
    split; [|exact Hcol]. unfold cast_vote_field in Hx.
    change [Key race_id; Key px; Key i; Key f]
      with ([Key race_id; Key px; Key i] ++ [Key f])%list in Hx.
    rewrite py_get_path_app, Hvote in Hx. simpl in Hx.
    destruct (py_getitem vote (Key f)) as [y|]; [|discriminate Hx].
    simpl in Hx. exact Hx. }
  assert (Hsdbp : exists sdbp,
            py_get_path (sdb (server e)) [Key race_id; Key i; Index 0] = Ok sdbp).
  { destruct (Hall "ballot_id") as (x & _ & Hcol); [repeat constructor|].
    unfold column_0 in Hcol.
    change [Key race_id; Key i; Index 0; Key "ballot_id"; Key px]
      with ([Key race_id; Key i; Index 0] ++ [Key "ballot_id"; Key px])%list in Hcol.
    rewrite py_get_path_app in Hcol.
    destruct (py_get_path (sdb (server e)) [Key race_id; Key i; Index 0])
      as [sdbp|]; [|discriminate Hcol].
    exists sdbp. reflexivity. }
  destruct Hsdbp as [sdbp Hsdbp].
  unfold distribute_row.
  rewrite bind_gets, bind_lift, Hvote, bind_gets, bind_lift, Hsdbp.
  assert (Hassign : forall field (k : unit -> M unit),
            field ∈ vote_fields ->
            bind (sdbp_assign race_id i field px vote) k e = k tt e).
  { intros f k Hf. apply bind_ok. apply sdbp_assign_fixed. apply Hfield. exact Hf. }
  do 7 (rewrite Hassign by (apply list_elem_of_In; simpl; tauto)).
  apply sdbp_assign_fixed. apply Hfield. apply list_elem_of_In. simpl. tauto.
Qed.

(** X12. The distribution is idempotent: once [distribute_cast_votes] has
    returned normally, running it again returns normally and changes
    nothing. *)
Theorem distribute_cast_votes_idempotent e e' :
  distribute_cast_votes e = (Ok tt, e') ->
  distribute_cast_votes e' = (Ok tt, e').
Proof.
  intros H. apply distribute_cast_votes_distributes in H as [Hstep Hall].
  apply distribution_step_fields in Hstep as (F1 & F2 & F3 & _).
  rewrite distribute_cast_votes_unfold, bind_gets.
  apply for_each_fixed. intros r Hr.
  unfold distribute_race. rewrite bind_gets.
  apply for_each_fixed. intros px Hpx.
  unfold distribute_position. rewrite bind_gets.
  apply for_each_fixed. intros i Hi.
  apply distribute_row_fixed. intros f Hf.
  apply Hall. repeat split; congruence.
Qed.

Lemma distribute_cast_votes_idempotent_witness :
  distribute_cast_votes (snd (distribute_cast_votes S1_votes_cast))
    = (Ok tt, snd (distribute_cast_votes S1_votes_cast)).
Proof.
  apply (distribute_cast_votes_idempotent S1_votes_cast).
  vm_compute. reflexivity.
Defined.

(** ** [setup_races] *)

Lemma race_dict_of_other pairs : forall created d race_id,
  race_id ∉ pairs.*1 -> race_dict_of pairs created d !! race_id = d !! race_id.
Proof.
  induction pairs as [|[rid ch] rest IH]; intros created d race_id Hnot; [reflexivity|].
  destruct created as [|race created]; [reflexivity|]. simpl.
  rewrite IH by (intros Hin; apply Hnot; right; exact Hin).
  apply lookup_insert_ne. intros ->. apply Hnot. left.
Qed.

Lemma race_dict_of_lookup pairs : forall created d k race_id choices race,
  NoDup pairs.*1 ->
  pairs !! k = Some (race_id, choices) -> created !! k = Some race ->
  race_dict_of pairs created d !! race_id
    = Some (PyDict {[ "choices" := r_choices race;
                      "race_modulus" := r_race_modulus race ]}).
Proof.
  induction pairs as [|[rid ch] rest IH];
    intros created d k race_id choices race Hnd Hk Hrace; [discriminate Hk|].
  destruct created as [|race0 created]; [discriminate Hrace|].
  simpl in Hnd. apply NoDup_cons in Hnd as [Hnot Hnd].
  destruct k as [|k]; simpl in Hk, Hrace.
  - inversion Hk; subst. inversion Hrace; subst. simpl.
    rewrite race_dict_of_other by exact Hnot. apply lookup_insert_eq.
  - simpl. apply (IH created _ k race_id choices race Hnd Hk Hrace).
Qed.

(** X13. [setup_races] on a ballot style with pairwise distinct race ids
    and an open board posts one [setup:races] entry, without a time stamp,
    whose dict holds for every race id of the ballot style the choices and
    the modulus of the race constructed for it, and nothing under any other
    key; the races constructed are appended to [self.races]. *)
Theorem setup_races_posts_race_dict (m : Modules) ballot_style pairs e b :
  race_pairs ballot_style = Ok pairs -> NoDup pairs.*1 ->
  sbb e = Some b -> sbb_closed b = false ->
  exists created race_dict e',
    setup_races m ballot_style e = (Ok tt, e') /\
    posted (set_races (races e ++ created) e) e'
      (Entry "setup:races"
         (Some (PyDict {[ "ballot_style_race_dict" := PyDict race_dict ]})) false) /\
    length created = length pairs /\
    (forall k race_id choices race,
       pairs !! k = Some (race_id, choices) -> created !! k = Some race ->
       race_dict !! race_id
         = Some (PyDict {[ "choices" := r_choices race;
                           "race_modulus" := r_race_modulus race ]})) /\
    (forall race_id, race_id ∉ pairs.*1 -> race_dict !! race_id = None).
Proof.
  intros Hpairs Hnd Hb Hclosed.
  exists (races_created m pairs e), (race_dict_of pairs (races_created m pairs e) ∅).
  assert (Hsbb : sbb (set_races (races e ++ races_created m pairs e) e) = Some b)
    by (destruct e; exact Hb).
  eexists. split; [|split; [|split; [|split]]].
  - unfold setup_races. rewrite bind_lift, Hpairs.
    apply distinct_test in Hnd.
    unfold bind at 1. rewrite Hnd. simpl assert_. unfold ret at 1.
    unfold bind at 1. rewrite construct_races_eq.
    apply (sbb_post_ok _ _ _ _ _ Hsbb Hclosed).
  - exists b. split; [exact Hsbb|]. split; [exact Hclosed | reflexivity].
  - apply races_created_length.
  - intros k rid ch race Hk Hrace.
    apply (race_dict_of_lookup pairs _ ∅ k rid ch race Hnd Hk Hrace).
  - intros rid Hnot. rewrite race_dict_of_other by exact Hnot. apply lookup_empty.
Qed.

Lemma setup_races_posts_race_dict_witness :
  exists created race_dict e',
    setup_races Demo.modules
      (PyList [PyTuple [PyStr "P"; PyTuple [PyStr "A"; PyStr "B"]]])
      two_positions_election = (Ok tt, e') /\
    posted (set_races (races two_positions_election ++ created) two_positions_election)
      e'
      (Entry "setup:races"
         (Some (PyDict {[ "ballot_style_race_dict" := PyDict race_dict ]})) false) /\
    length created = length [("P", PyTuple [PyStr "A"; PyStr "B"])] /\
    (forall k race_id choices race,
       [("P", PyTuple [PyStr "A"; PyStr "B"])] !! k = Some (race_id, choices) ->
       created !! k = Some race ->
       race_dict !! race_id
         = Some (PyDict {[ "choices" := r_choices race;
                           "race_modulus" := r_race_modulus race ]})) /\
    (forall race_id, race_id ∉ [("P", PyTuple [PyStr "A"; PyStr "B"])].*1 ->
       race_dict !! race_id = None).
Proof.
  apply (setup_races_posts_race_dict Demo.modules _ _ two_positions_election
           (SBB_new (PyStr "E1")) S1_race_pairs).
  - repeat constructor. intros Hin. inversion Hin.
  - reflexivity.
  - reflexivity.
Defined.

(** ** [__init__] on a ballot style that [setup_races] refuses *)

Lemma setup_races_duplicate (m : Modules) ballot_style pairs e :
  race_pairs ballot_style = Ok pairs -> ~ NoDup pairs.*1 ->
  setup_races m ballot_style e = (Err (Exn AssertionError None), e).
Proof.
  intros Hpairs Hdup. unfold setup_races. rewrite bind_lift, Hpairs.
  unfold bind at 1.
  destruct (Nat.eqb _ _) eqn:Htest; [|reflexivity].
  apply distinct_test in Htest. contradiction.
Qed.

(** X14. A configuration that passes the parameter checks but lists a race
    id twice: [__init__] fails on the assertion of [setup_races], after the
    board has been started.  The election is left half-made: its board is
    open and holds the one entry [setup:start], the race ids are saved, and
    no race has been constructed. *)
Theorem Election_init_duplicate_race_ids (m : Modules) params e0 ballot_style pairs :
  checked_parameters_valid params ->
  params !! "ballot_style" = Some ballot_style ->
  race_pairs ballot_style = Ok pairs ->
  ~ NoDup pairs.*1 ->
  exists e',
    Election_init m params e0 = (Err (Exn AssertionError None), e') /\
    sbb_labels e' = ["setup:start"] /\
    sbb_open e' = true /\
    race_ids e' = pairs.*1 /\
    races e' = [].
Proof.
  intros Hvalid Hbs Hpairs Hdup.
  destruct (check_and_save_parameters_valid m params e0 Hvalid)
    as (eid & bs & nv & nr & nf & nl & Hm & Hcheck).
  assert (bs = ballot_style) as ->.
  { destruct Hm as (_ & Hbs' & _). congruence. }
  eexists. split.
  - unfold Election_init. rewrite (bind_ok _ _ _ _ _ Hcheck).
    unfold start_election.
    unfold bind at 1. unfold modify at 1.
    unfold bind at 1. unfold sbb_post at 1. cbn [sbb set_sbb sbb_closed SBB_new].
    unfold bind at 1. unfold modify at 1.
    rewrite bind_lift, Hpairs.
    unfold bind at 1. unfold modify at 1.
    apply bind_err. apply (setup_races_duplicate m _ pairs _ Hpairs Hdup).
  - repeat split; reflexivity.
Qed.

Lemma duplicate_race_parameters_checked :
  checked_parameters_valid DemoFailures.duplicate_race_parameters.
Proof.
  exists (PyStr "E1"),
    (PyList [PyTuple [PyStr "P"; PyTuple [PyStr "A"; PyStr "B"]];
             PyTuple [PyStr "P"; PyTuple [PyStr "Y"; PyStr "N"]]]),
    (PyInt 2), (PyInt 2), (PyInt 0), (PyInt 0).
  split; [repeat split; vm_compute; reflexivity|].
  split; [exists "E1"; split; [reflexivity | discriminate]|].
  split; [eexists; split; [reflexivity | discriminate]|].
  split; [exists 2; split; [reflexivity | lia]|].
  split; [exists 2; split; [reflexivity | split; [lia | reflexivity]]|].
  split; [exists 0; split; [reflexivity | lia]|].
  split; [exists 0; split; [reflexivity | lia]|].
  exists 32. split; [reflexivity | lia].
Defined.

Lemma Election_init_duplicate_race_ids_witness :
  exists e',
    Election_init Demo.modules DemoFailures.duplicate_race_parameters new_Election
      = (Err (Exn AssertionError None), e') /\
    sbb_labels e' = ["setup:start"] /\
    sbb_open e' = true /\
    race_ids e' = [("P", PyTuple [PyStr "A"; PyStr "B"]);
                   ("P", PyTuple [PyStr "Y"; PyStr "N"])].*1 /\
    races e' = [].
Proof.
  apply (Election_init_duplicate_race_ids Demo.modules
           DemoFailures.duplicate_race_parameters new_Election
           (PyList [PyTuple [PyStr "P"; PyTuple [PyStr "A"; PyStr "B"]];
                    PyTuple [PyStr "P"; PyTuple [PyStr "Y"; PyStr "N"]]])).
  - exact duplicate_race_parameters_checked.
  - vm_compute. reflexivity.
  - reflexivity.
  - intros Hnd. simpl in Hnd. apply NoDup_cons in Hnd as [Hnot _].
    apply Hnot. left.
Defined.

(** ** [run_election] and the board *)

Section RunOnce.

Context (m : Modules) (contract : posting_contract m).

Lemma run_election_needs_open_board e e' :
  run_election m e = (Ok tt, e') -> sbb_open e = true.
Proof.
  intros H. rewrite run_election_is_run_steps in H.
  unfold run_election_steps, run_steps in H.
  apply bind_ok_inv in H as ([] & e1 & H1 & H).
  apply emits_initialize_cast_votes in H1 as [_ O1].
  apply bind_ok_inv in H as ([] & e2 & H2 & H).
  apply (emits_cast_all_votes m contract) in H2 as [_ O2].
  apply bind_ok_inv in H as ([] & e3 & H3 & H).
  apply emits_distribute_cast_votes in H3 as [_ O3].
  apply bind_ok_inv in H as ([] & e4 & H4 & _).
  rewrite post_cast_vote_commitments_eq in H4.
  destruct (cast_vote_commitments e3) as [cvcs|]; [|discriminate H4].
  apply sbb_post_ok_inv in H4 as (b & Hb & Hclosed & _).
  rewrite <- O1, <- O2, <- O3. unfold sbb_open. rewrite Hb, Hclosed. reflexivity.
Qed.

Lemma run_election_closes_board e e' :
  run_election m e = (Ok tt, e') -> sbb_open e' = false.
Proof.
  intros H. rewrite run_election_is_run_steps in H.
  unfold run_election_steps, run_steps in H.
  do 11 (apply bind_ok_inv in H as ([] & ? & _ & H)).
  apply bind_ok_inv in H as ([] & e12 & H12 & H).
  apply ret_ok_inv in H as [_ ->].
  unfold sbb_close in H12.
  match type of H12 with
  | context [sbb ?e11] =>
      destruct (sbb e11) as [b|]; [|discriminate H12];
      inversion H12; destruct e11; reflexivity
  end.
Qed.

End RunOnce.

(** X15. [run_election] returns normally only on an election whose board
    is open, and it leaves the board closed: on an election whose board is
    missing or closed, and so on one that has been run already, it raises an
    exception.  (The imported modules post as section 6 lists.) *)
Theorem run_election_only_once (m : Modules) e :
  posting_contract m ->
  (forall e', run_election m e = (Ok tt, e') ->
     sbb_open e = true /\ sbb_open e' = false /\
     exists x e'', run_election m e' = (Err x, e'')) /\
  (sbb_open e = false -> exists x e', run_election m e = (Err x, e')).
Proof.
  intros contract.
  assert (Hclosed : forall e0, sbb_open e0 = false ->
            exists x e', run_election m e0 = (Err x, e')).
  { intros e0 Hopen.
    destruct (run_election m e0) as [[[]|x] e'] eqn:Hrun.
    - apply (run_election_needs_open_board m contract) in Hrun. congruence.
    - exists x, e'. reflexivity. }
  split; [|apply Hclosed].
  intros e' Hrun.
  pose proof (run_election_needs_open_board m contract _ _ Hrun) as Hopen.
  pose proof (run_election_closes_board m _ _ Hrun) as Hdone.
  split; [exact Hopen|]. split; [exact Hdone|]. apply Hclosed. exact Hdone.
Qed.

Lemma run_election_only_once_witness :
  (forall e', run_election Demo.modules Demo.S1_election = (Ok tt, e') ->
     sbb_open Demo.S1_election = true /\ sbb_open e' = false /\
     exists x e'', run_election Demo.modules e' = (Err x, e'')) /\
  (sbb_open Demo.S1_election = false ->
     exists x e', run_election Demo.modules Demo.S1_election = (Err x, e')).
Proof.
  apply (run_election_only_once Demo.modules Demo.S1_election).
  exact Demo_posting_contract.
Defined.

(** ** [post_voter_receipts] and the order of the voters *)

Lemma merged_receipts_last voters ballot_id :
  merged_receipts voters !! ballot_id = last_receipt voters ballot_id.
Proof.
  unfold merged_receipts, last_receipt.
  rewrite merged_receipts_lookup, lookup_empty. reflexivity.
Qed.

Lemma merged_receipts_permutation voters1 voters2 :
  Permutation voters1 voters2 -> distinct_ballot_ids voters1 ->
  merged_receipts voters1 = merged_receipts voters2.
Proof.
  intros Hperm Hdistinct. apply map_eq. intros bid.
  rewrite !merged_receipts_last. unfold last_receipt.
  assert (Hin : forall v, v ∈ voters2 -> v ∈ voters1).
  { intros v Hv. apply list_elem_of_In. apply list_elem_of_In in Hv.
    apply (Permutation_in _ (Permutation_sym Hperm) Hv). }
  assert (Hin' : forall v, v ∈ voters1 -> v ∈ voters2).
  { intros v Hv. apply list_elem_of_In. apply list_elem_of_In in Hv.
    apply (Permutation_in _ Hperm Hv). }
  destruct (foldl _ None voters2) as [r2|] eqn:H2.
  - apply last_receipt_origin in H2 as [H2 | (v & Hv & Hr)]; [discriminate H2|].
    apply (last_receipt_distinct voters1 bid v r2 None Hdistinct (Hin v Hv) Hr).
  - destruct (foldl _ None voters1) as [r1|] eqn:H1; [|reflexivity].
    apply last_receipt_origin in H1 as [H1 | (v & Hv & Hr)]; [discriminate H1|].
    destruct (last_receipt_some voters2 bid v None (Hin' v Hv)) as [r Hsome];
      [rewrite Hr; eauto|].
    rewrite H2 in Hsome. discriminate Hsome.
Qed.

(** X16. When no two voters have a ballot id in common, the receipts
    posted do not depend on the order of the voters: on two elections with
    the same board whose voters are the same up to their order,
    [post_voter_receipts] has the same outcome and leaves the same board. *)
Theorem post_voter_receipts_order_independent e1 e2 :
  Permutation (voters e1) (voters e2) ->
  distinct_ballot_ids (voters e1) ->
  sbb e1 = sbb e2 ->
  fst (post_voter_receipts e1) = fst (post_voter_receipts e2) /\
  sbb (snd (post_voter_receipts e1)) = sbb (snd (post_voter_receipts e2)).
Proof.
  intros Hperm Hdistinct Hsbb. rewrite !post_voter_receipts_eq.
  rewrite (merged_receipts_permutation _ _ Hperm Hdistinct).
  unfold sbb_post. rewrite Hsbb.
  destruct (sbb e2) as [b|] eqn:Hb; [|split; [reflexivity | simpl; congruence]].
  destruct (sbb_closed b); [split; [reflexivity | simpl; congruence]|].
  destruct e1, e2; split; reflexivity.
Qed.

Lemma post_voter_receipts_order_independent_witness :
  fst (post_voter_receipts receipts_election)
    = fst (post_voter_receipts receipts_election_reversed) /\
  sbb (snd (post_voter_receipts receipts_election))
    = sbb (snd (post_voter_receipts receipts_election_reversed)).
Proof.
  apply (post_voter_receipts_order_independent receipts_election
           receipts_election_reversed).
  - simpl. apply perm_swap.
  - simpl. split; [|split; [constructor | exact I]].
    constructor; [|constructor].
    apply map_disjoint_singleton_l. apply lookup_singleton_ne. discriminate.
  - reflexivity.
Defined.

(** ** Distribution and posting before any vote is cast *)

Lemma empty_cast_votes_row race_ids p_list race_id px i rest :
  race_id ∈ race_ids -> px ∈ p_list ->
  py_get_path (empty_cast_votes race_ids p_list)
    ([Key race_id; Key px] ++ Key i :: rest)
    = Err (Exn KeyError (Some i)).
Proof.
  intros Hr Hpx. rewrite py_get_path_app, empty_cast_votes_slots.
  rewrite decide_True by (split; assumption).
  simpl. rewrite lookup_empty. reflexivity.
Qed.

(** X17. Straight after [initialize_cast_votes], when no vote has been cast
    and the election has a race, a position and a row, both
    [distribute_cast_votes] and [post_cast_vote_commitments] raise a
    [KeyError] that names the first row, and change nothing: the server data
    and the board stay as they are. *)
Theorem no_vote_cast_KeyError e race_id races px positions i rows :
  race_ids e = race_id :: races ->
  p_list e = px :: positions ->
  row_list (server e) = i :: rows ->
  distribute_cast_votes (snd (initialize_cast_votes e))
    = (Err (Exn KeyError (Some i)), snd (initialize_cast_votes e)) /\
  post_cast_vote_commitments (snd (initialize_cast_votes e))
    = (Err (Exn KeyError (Some i)), snd (initialize_cast_votes e)).
Proof.
  intros Hraces Hpositions Hrows. rewrite initialize_cast_votes_eq. simpl snd.
  set (cvs := empty_cast_votes (race_ids e) (p_list e)).
  assert (F : race_ids (set_cast_votes cvs e) = race_id :: races /\
              p_list (set_cast_votes cvs e) = px :: positions /\
              row_list (server (set_cast_votes cvs e)) = i :: rows /\
              cast_votes (set_cast_votes cvs e) = cvs).
  { destruct e; simpl in *. auto. }
  destruct F as (F1 & F2 & F3 & F4).
  assert (Hr : race_id ∈ race_ids e) by (rewrite Hraces; left).
  assert (Hpx : px ∈ p_list e) by (rewrite Hpositions; left).
  split.
  - rewrite distribute_cast_votes_unfold, bind_gets, F1, for_each_cons.
    apply bind_err. unfold distribute_race.
    rewrite bind_gets, F2, for_each_cons.
    apply bind_err. unfold distribute_position.
    rewrite bind_gets, F3, for_each_cons.
    apply bind_err. unfold distribute_row.
    rewrite bind_gets, F4, bind_lift.
    change [Key race_id; Key px; Key i]
      with ([Key race_id; Key px] ++ Key i :: [])%list.
    unfold cvs. rewrite (empty_cast_votes_row _ _ _ _ _ _ Hr Hpx). reflexivity.
  - rewrite post_cast_vote_commitments_eq.
    unfold cast_vote_commitments. rewrite F1, F2, F3, F4.
    simpl races_commitments. simpl positions_commitments. simpl rows_commitments.
    unfold commitment_record.
    change [Key race_id; Key px; Key i; Key "ballot_id"]
      with ([Key race_id; Key px] ++ Key i :: [Key "ballot_id"])%list.
    unfold cvs. rewrite (empty_cast_votes_row _ _ _ _ _ _ Hr Hpx). reflexivity.
Qed.

Lemma no_vote_cast_KeyError_witness :
  distribute_cast_votes (snd (initialize_cast_votes Demo.S1_election))
    = (Err (Exn KeyError (Some "a")), snd (initialize_cast_votes Demo.S1_election)) /\
  post_cast_vote_commitments (snd (initialize_cast_votes Demo.S1_election))
    = (Err (Exn KeyError (Some "a")), snd (initialize_cast_votes Demo.S1_election)).
Proof.
  apply (no_vote_cast_KeyError Demo.S1_election "P" [] "p0" ["p1"] "a" ["b"]).
  - vm_compute. reflexivity.
  - vm_compute. reflexivity.
  - vm_compute. reflexivity.
Defined.

(** ** What a normal return of [__init__] implies *)

Lemma setup_races_ok_inv (m : Modules) ballot_style pairs e e' :
  race_pairs ballot_style = Ok pairs ->
  setup_races m ballot_style e = (Ok tt, e') ->
  NoDup pairs.*1 /\
  p_list e' = p_list e /\
  posted (set_races (races e ++ races_created m pairs e) e) e'
    (Entry "setup:races"
       (Some (PyDict {[ "ballot_style_race_dict" :=
                          PyDict (race_dict_of pairs (races_created m pairs e) ∅) ]}))
       false).
Proof.
  intros Hpairs H.
  destruct (decide (NoDup pairs.*1)) as [Hnd|Hdup].
  - split; [exact Hnd|].
    unfold setup_races in H. rewrite bind_lift, Hpairs in H.
    apply distinct_test in Hnd.
    unfold bind at 1 in H. rewrite Hnd in H. simpl assert_ in H.
    unfold ret at 1 in H. unfold bind at 1 in H.
    rewrite construct_races_eq in H.
    apply sbb_post_ok_inv in H. split; [|exact H].
    destruct H as (b & _ & _ & ->). destruct e; reflexivity.
  - rewrite (setup_races_duplicate m _ pairs e Hpairs Hdup) in H. discriminate H.
Qed.

(** X18. For a ballot style that is a sequence of [(race_id, choices)]
    pairs with string race ids, [__init__] returns normally only if the
    parameters pass the checks, the race ids are pairwise distinct, and
    [sv.p_list(n_voters)] has at least [n_voters] positions. *)
Theorem Election_init_returns_only_if (m : Modules) params e0 e' ballot_style pairs :
  params !! "ballot_style" = Some ballot_style ->
  race_pairs ballot_style = Ok pairs ->
  Election_init m params e0 = (Ok tt, e') ->
  parameters_accepted params /\
  NoDup pairs.*1 /\
  exists n_voters z,
    params !! "n_voters" = Some n_voters /\
    is_int n_voters z /\
    (Z.to_nat z <= length (sv_p_list m n_voters))%nat.
Proof.
  intros Hstyle Hpairs. unfold Election_init. intros H.
  apply bind_ok_inv in H as (locals & e1 & Hcheck & H).
  destruct (check_and_save_parameters_ok m params e0 locals e1 Hcheck)
    as (eid & bs & nv & nr & nf & nl & Hm & H1 & H2 & H3 & H4 & H5 & H6 & H7
        & -> & ->).
  assert (bs = ballot_style) as ->.
  { destruct Hm as (_ & Hbs & _). congruence. }
  split.
  { exists eid, ballot_style, nv, nr, nf, nl.
    repeat (split; [assumption|]). assumption. }
  unfold start_election in H.
  apply bind_ok_inv in H as ([] & ea & Ha & H). apply modify_ok_inv in Ha as ->.
  apply bind_ok_inv in H as ([] & ea & Ha & H).
  apply sbb_post_ok_inv in Ha as (b & _ & _ & ->).
  apply bind_ok_inv in H as ([] & ea & Ha & H). apply modify_ok_inv in Ha as ->.
  apply bind_ok_inv in H as (pairs' & ea & Ha & H).
  apply lift_ok_inv in Ha as [Hpairs' ->].
  assert (pairs' = pairs) as -> by congruence.
  apply bind_ok_inv in H as ([] & ea & Ha & H). apply modify_ok_inv in Ha as ->.
  apply bind_ok_inv in H as ([] & ea & Hraces & H).
  apply (setup_races_ok_inv m _ pairs _ _ Hpairs) in Hraces as (Hnd & Hp & _).
  split; [exact Hnd|].
  apply bind_ok_inv in H as ([] & eb & Hb & H). apply modify_ok_inv in Hb as ->.
  apply bind_ok_inv in H as ([] & eb & Hb & H). apply modify_ok_inv in Hb as ->.
  apply bind_ok_inv in H as ([] & eb & Hvoters & _).
  apply setup_voters_ok_inv in Hvoters as (z & created & Hz & _ & Hle & _).
  exists nv, z.
  destruct Hm as (_ & _ & Hnv & _).
  split; [exact Hnv|]. split; [exact Hz|].
  replace (p_list (set_voter_ids [] (set_voters [] ea))) with (p_list ea) in Hle
    by (destruct ea; reflexivity).
  rewrite Hp in Hle. exact Hle.
Qed.

Lemma Election_init_returns_only_if_witness :
  parameters_accepted Demo.S1_parameters /\
  NoDup [("P", PyTuple [PyStr "A"; PyStr "B"])].*1 /\
  exists n_voters z,
    Demo.S1_parameters !! "n_voters" = Some n_voters /\
    is_int n_voters z /\
    (Z.to_nat z <= length (sv_p_list Demo.modules n_voters))%nat.
Proof.
  apply (Election_init_returns_only_if Demo.modules Demo.S1_parameters new_Election
           Demo.S1_election
           (PyList [PyTuple [PyStr "P"; PyTuple [PyStr "A"; PyStr "B"]]])).
  - vm_compute. reflexivity.
  - reflexivity.
  - vm_compute. reflexivity.
Defined.

(** ** The board after [__init__] *)

Lemma race_dict_of_keys pairs created race_id :
  NoDup pairs.*1 -> length created = length pairs ->
  is_Some (race_dict_of pairs created ∅ !! race_id) <-> race_id ∈ pairs.*1.
Proof.
  intros Hnd Hlen. split.
  - intros Hsome. destruct (decide (race_id ∈ pairs.*1)) as [Hin|Hnot]; [exact Hin|].
    rewrite race_dict_of_other, lookup_empty in Hsome by exact Hnot.
    destruct Hsome as [? Hsome]. discriminate Hsome.
  - intros Hin. apply list_elem_of_fmap in Hin as ([rid ch] & -> & Hin).
    apply list_elem_of_lookup in Hin as [k Hk].
    destruct (lookup_lt_is_Some_2 created k) as [race Hrace].
    { rewrite Hlen. apply (lookup_lt_Some _ _ _ Hk). }
    simpl. rewrite (race_dict_of_lookup pairs created ∅ k rid ch race Hnd Hk Hrace).
    eauto.
Qed.

(** X19. For a ballot style that is a sequence of [(race_id, choices)]
    pairs with string race ids: when [__init__] returns normally (with a
    server construction that leaves the board alone), the board is open,
    carries the election id of the parameters and holds exactly the four
    entries [setup:start] (about, election id and legend, time-stamped),
    [setup:races] (a dict keyed by the race ids of the ballot style),
    [setup:voters] ([n_voters] and [ballot_id_len], the default 32 when it is
    not given) and [setup:finished] (no payload, time-stamped). *)
Theorem Election_init_board (m : Modules) params e0 e' ballot_style pairs :
  setup_contract m ->
  params !! "ballot_style" = Some ballot_style ->
  race_pairs ballot_style = Ok pairs ->
  Election_init m params e0 = (Ok tt, e') ->
  exists election_id n_voters race_dict,
    params !! "election_id" = Some election_id /\
    params !! "n_voters" = Some n_voters /\
    (forall race_id, is_Some (race_dict !! race_id) <-> race_id ∈ pairs.*1) /\
    sbb e' = Some (mkSBB election_id
                     (setup_entries election_id n_voters
                        (dict_get params "ballot_id_len" (PyInt 32)) race_dict)
                     false).
Proof.
  intros setup Hstyle Hpairs. unfold Election_init. intros H.
  apply bind_ok_inv in H as (locals & e1 & Hcheck & H).
  destruct (check_and_save_parameters_ok m params e0 locals e1 Hcheck)
    as (eid & bs & nv & nr & nf & nl & Hm & H1 & H2 & H3 & H4 & H5 & H6 & H7
        & -> & ->).
  assert (bs = ballot_style) as ->.
  { destruct Hm as (_ & Hbs & _). congruence. }
  unfold start_election in H.
  apply bind_ok_inv in H as ([] & ea & Ha & H). apply modify_ok_inv in Ha as ->.
  apply bind_ok_inv in H as ([] & ea & Ha & H).
  apply sbb_post_ok_inv in Ha as (b & Hb & _ & ->).
  simpl in Hb. inversion Hb; subst b; clear Hb.
  apply bind_ok_inv in H as ([] & ea & Ha & H). apply modify_ok_inv in Ha as ->.
  apply bind_ok_inv in H as (pairs' & ea & Ha & H).
  apply lift_ok_inv in Ha as [Hpairs' ->].
  assert (pairs' = pairs) as -> by congruence.
  apply bind_ok_inv in H as ([] & ea & Ha & H). apply modify_ok_inv in Ha as ->.
  apply bind_ok_inv in H as ([] & ea & Hraces & H).
  apply (setup_races_ok_inv m _ pairs _ _ Hpairs) in Hraces as (Hnd & _ & Hposted).
  destruct Hposted as (b & Hb & _ & ->).
  simpl in Hb. inversion Hb; subst b; clear Hb.
  apply bind_ok_inv in H as ([] & eb & Hb & H). apply modify_ok_inv in Hb as ->.
  apply bind_ok_inv in H as ([] & eb & Hb & H). apply modify_ok_inv in Hb as ->.
  apply bind_ok_inv in H as ([] & eb & Hvoters & H).
  apply setup_voters_ok_inv in Hvoters as (z & created & _ & _ & _ & _ & Hposted).
  destruct Hposted as (b & Hb & _ & ->).
  simpl in Hb. inversion Hb; subst b; clear Hb.
  apply bind_ok_inv in H as ([] & ec & Hc & H). apply modify_ok_inv in Hc as ->.
  apply bind_ok_inv in H as (server & ed & Hserver & H).
  match type of Hserver with
  | sv_server_Server m nf nl ?ec = _ =>
      destruct (Server_returns m setup nf nl ec H5 H6) as (server' & ed' & Hs & Hsbb);
      rewrite Hs in Hserver; inversion Hserver; subst server' ed'; clear Hserver Hs
  end.
  simpl in Hsbb.
  apply bind_ok_inv in H as ([] & ee & He & H). apply modify_ok_inv in He as ->.
  apply bind_ok_inv in H as ([] & ee & He & H). apply modify_ok_inv in He as ->.
  apply bind_ok_inv in H as ([] & ee & He & H). inversion He; subst ee; clear He.
  apply sbb_post_ok_inv in H as (b & Hb & _ & ->).
  replace (sbb (set_output_commitments (PyDict ∅) (set_server server ed)))
    with (sbb ed) in Hb by (destruct ed; reflexivity).
  rewrite Hsbb in Hb. inversion Hb; subst b; clear Hb.
  destruct Hm as (Heid & _ & Hnv & _).
  exists eid, nv. eexists.
  split; [exact Heid|]. split; [exact Hnv|]. split.
  - intros rid. apply race_dict_of_keys; [exact Hnd | apply races_created_length].
  - destruct ed; reflexivity.
Qed.

Lemma Election_init_board_witness :
  exists election_id n_voters race_dict,
    Demo.S1_parameters !! "election_id" = Some election_id /\
    Demo.S1_parameters !! "n_voters" = Some n_voters /\
    (forall race_id,
       is_Some (race_dict !! race_id)
       <-> race_id ∈ [("P", PyTuple [PyStr "A"; PyStr "B"])].*1) /\
    sbb Demo.S1_election
      = Some (mkSBB election_id
                (setup_entries election_id n_voters
                   (dict_get Demo.S1_parameters "ballot_id_len" (PyInt 32)) race_dict)
                false).
Proof.
  apply (Election_init_board Demo.modules Demo.S1_parameters new_Election
           Demo.S1_election
           (PyList [PyTuple [PyStr "P"; PyTuple [PyStr "A"; PyStr "B"]]])
           [("P", PyTuple [PyStr "A"; PyStr "B"])] Demo_setup_contract).
  - vm_compute. reflexivity.
  - reflexivity.
  - vm_compute. reflexivity.
Defined.

(** ** [post_voter_receipts] and the board *)

(** X20. [post_voter_receipts] does not fail on the voters' data: it
    returns normally exactly when the board is open, and otherwise raises an
    exception and leaves the election as it was. *)
Theorem post_voter_receipts_returns_iff e :
  ((exists e', post_voter_receipts e = (Ok tt, e')) <-> sbb_open e = true) /\
  ((exists e', post_voter_receipts e = (Ok tt, e')) \/
   (exists x, post_voter_receipts e = (Err x, e))).
Proof.
  rewrite post_voter_receipts_eq. split.
  - split.
    + intros [e' H]. apply sbb_post_ok_inv in H as (b & Hb & Hclosed & _).
      unfold sbb_open. rewrite Hb, Hclosed. reflexivity.
    + intros Hopen. apply sbb_open_inv in Hopen as (b & Hb & Hclosed).
      eexists. apply (sbb_post_ok _ _ _ _ _ Hb Hclosed).
  - unfold sbb_post. destruct (sbb e) as [b|].
    + destruct (sbb_closed b).
      * right. eexists. reflexivity.
      * left. eexists. reflexivity.
    + right. eexists. reflexivity.
Qed.
